(** * JNI binding layer of sqlite-vec for Android

    A shallow embedding of the two native sources of the binding,
    [bindings/android/src/main/cpp/sqlite-vec-jni.c] and
    [bindings/android/src/main/cpp/sqlite-vec-jni.cpp], together with the
    properties of the binding contract.

    The binding code is glue between two foreign interfaces.  The Java side
    (JNI) is modelled by a heap of primitive arrays and the functions of
    [JNIEnv] the sources call; the database side (SQLite and the sqlite-vec
    extension) is an arbitrary [Engine], a record of state transformers
    about which nothing is assumed.  Every call that crosses into the
    engine, every line sent to the Android log and every region copied into
    a Java array is recorded, in order, in the [trace] of the world.

    The helper [getDatabaseHandle] of the C++ source, which no exported
    function calls, works on a Java object by reflection rather than on
    arrays; it is modelled apart, in [Reflect], with the fields of the
    object and the exception pending in the JNI environment. *)

From Stdlib Require Import ZArith List String Ascii Lia Bool.
From Stdlib Require Import Strings.Byte.
From Stdlib Require Import Floats.SpecFloat.
From stdpp Require Import base option list.

Open Scope Z_scope.

(** * Model *)

(** ** Machine integers and bytes *)

Module Mach.

(** [jsize] and [jint] are 32-bit signed integers; [size_t] is the
    unsigned word of the ABI (64 bits on arm64-v8a and x86_64). *)
Definition jsize_max : Z := 2 ^ 31 - 1.
Definition size_t_bits : Z := 64.

(** Conversion of an integer value to [jsize]: the low 32 bits, read as a
    two's complement number. *)
Definition to_jsize (z : Z) : Z := (z + 2 ^ 31) mod 2 ^ 32 - 2 ^ 31.

(** Conversion to [size_t] and the unsigned arithmetic the usual
    arithmetic conversions select when one operand is [sizeof(float)]. *)
Definition to_size_t (z : Z) : Z := z mod 2 ^ size_t_bits.
Definition size_t_mul (a b : Z) : Z := to_size_t (to_size_t a * to_size_t b).
Definition size_t_div (a b : Z) : Z := to_size_t a / to_size_t b.
Definition size_t_rem (a b : Z) : Z := to_size_t a mod to_size_t b.

Definition sizeof_float : Z := 4.

(** Bytes of raw memory. *)
Definition byte_of_Z (z : Z) : byte :=
  match Byte.of_N (Z.to_N (z mod 256)) with
  | Some b => b
  | None => x00
  end.
Definition Z_of_byte (b : byte) : Z := Z.of_N (Byte.to_N b).

(** The byte order of the host.  The sources never convert: a float is
    stored in memory in whatever order the host uses. *)
Inductive byte_order := LittleEndian | BigEndian.

(** A [jfloat] is handled by the binding as an opaque 32-bit pattern; it
    is never interpreted as a number.  The pattern is kept as the
    unsigned integer it spells. *)
Definition is_float32 (f : Z) : Prop := 0 <= f < 2 ^ 32.

Definition float_le_bytes (f : Z) : list byte :=
  [byte_of_Z f; byte_of_Z (f / 2 ^ 8); byte_of_Z (f / 2 ^ 16);
   byte_of_Z (f / 2 ^ 24)].

Definition float_of_le (b0 b1 b2 b3 : byte) : Z :=
  Z_of_byte b0 + 2 ^ 8 * Z_of_byte b1 + 2 ^ 16 * Z_of_byte b2
  + 2 ^ 24 * Z_of_byte b3.

(** The four bytes a float occupies in memory, lowest address first. *)
Definition store_float (host : byte_order) (f : Z) : list byte :=
  match host with
  | LittleEndian => float_le_bytes f
  | BigEndian => rev (float_le_bytes f)
  end.

(** The float held by four consecutive bytes of memory. *)
Definition load_float (host : byte_order) (b0 b1 b2 b3 : byte) : Z :=
  match host with
  | LittleEndian => float_of_le b0 b1 b2 b3
  | BigEndian => float_of_le b3 b2 b1 b0
  end.

(** The memory image of a float array: [(jbyte * ) elements]. *)
Definition bytes_of_floats (host : byte_order) (v : list Z) : list byte :=
  flat_map (store_float host) v.

(** Reading [n] floats through a [(jfloat * )] view of a byte buffer.
    [None] when the read runs past the end of the buffer. *)
Fixpoint floats_of_bytes (host : byte_order) (n : nat) (bs : list byte)
  : option (list Z) :=
  match n with
  | O => Some []
  | S n' =>
      match bs with
      | b0 :: b1 :: b2 :: b3 :: rest =>
          match floats_of_bytes host n' rest with
          | Some fs => Some (load_float host b0 b1 b2 b3 :: fs)
          | None => None
          end
      | _ => None
      end
  end.

End Mach.

Import Mach.

(** ** The world the binding runs in *)

(** Java references.  An object is named by its index in the heap; a
    reference of type [jbyteArray], [jfloatArray], ... is such an index or
    the null reference [None]. *)
Definition loc : Type := nat.
Definition jobject : Type := option loc.

(** Java primitive arrays, the only objects the binding touches. *)
Inductive jarray :=
| JBytes (bs : list byte)
| JFloats (fs : list Z).

(** A native pointer to bytes ([jbyte *], [jfloat *], [const void *]) is
    [None] for [NULL] and otherwise carries the bytes it addresses.  The
    sources only read through such pointers, so the bytes behind a pointer
    never change while it is in use. *)
Definition native_buf : Type := option (list byte).

(** A [jdouble] is passed through from the engine untouched. *)
Definition jdouble : Type := spec_float.

(** A [java.lang.String] is immutable and is given by its UTF-16 code
    units. *)
Definition jstring : Type := list Z.

(** What the binding does to the outside, in the order it does it: calls
    into the database engine (with the answer the engine gave), lines sent
    to the Android log, and regions copied into Java arrays. *)
Inductive Event :=
| EvVecInit (db rc : Z) (msg : option string)
| EvFree (msg : option string)
| EvPrepare (db : Z) (sql : string) (rc stmt : Z)
| EvErrmsg (db : Z) (msg : string)
| EvBindBlob (stmt idx : Z) (data : native_buf) (n rc : Z)
| EvStep (stmt rc : Z)
| EvColumnDouble (stmt col : Z) (d : jdouble)
| EvColumnInt (stmt col v : Z)
| EvColumnBlob (stmt col : Z) (p : native_buf)
| EvColumnBytes (stmt col n : Z)
| EvFinalize (stmt rc : Z)
| EvLog (prio : Z) (tag msg : string)
| EvSetRegion (arr : loc) (start len : Z).

(** Calls into the database engine or into the extension. *)
Definition is_engine_call (ev : Event) : bool :=
  match ev with
  | EvLog _ _ _ | EvSetRegion _ _ _ => false
  | _ => true
  end.

(** The database engine and the sqlite-vec extension are foreign code.  An
    engine is any family of state transformers with the signatures of the
    functions of [sqlite3.h] and [sqlite-vec.h] the sources call; each
    takes the arguments of the C function and returns its results.  A
    database handle and a statement handle are addresses, [0] for [NULL]. *)
Record Engine (E : Type) := {
  eng_vec_init : Z -> E -> (Z * option string) * E;
  eng_free : option string -> E -> unit * E;
  eng_prepare_v2 : Z -> string -> E -> (Z * Z) * E;
  eng_errmsg : Z -> E -> string * E;
  eng_bind_blob : Z -> Z -> native_buf -> Z -> E -> Z * E;
  eng_step : Z -> E -> Z * E;
  eng_column_double : Z -> Z -> E -> jdouble * E;
  eng_column_int : Z -> Z -> E -> Z * E;
  eng_column_blob : Z -> Z -> E -> native_buf * E;
  eng_column_bytes : Z -> Z -> E -> Z * E;
  eng_finalize : Z -> E -> Z * E;
}.

Arguments eng_vec_init {E}.
Arguments eng_free {E}.
Arguments eng_prepare_v2 {E}.
Arguments eng_errmsg {E}.
Arguments eng_bind_blob {E}.
Arguments eng_step {E}.
Arguments eng_column_double {E}.
Arguments eng_column_int {E}.
Arguments eng_column_blob {E}.
Arguments eng_column_bytes {E}.
Arguments eng_finalize {E}.

(** The state of the process as far as the binding can see or change it.
    [alloc_plan] decides the requests for memory made to the Java runtime,
    one entry per request: [true] grants it, [false] refuses it (the runtime
    is out of memory); once the plan is used up every request is granted. *)
Record World (E : Type) := mkWorld {
  heap : list jarray;
  alloc_plan : list bool;
  engine : E;
  trace : list Event;
}.

Arguments mkWorld {E}.
Arguments heap {E}.
Arguments alloc_plan {E}.
Arguments engine {E}.
Arguments trace {E}.

(** A call either returns a value in a new world or has no defined
    behaviour (a null or foreign reference handed to JNI, a read through
    [NULL] or past the end of a buffer). *)
Inductive outcome (W A : Type) :=
| Ret (a : A) (w : W)
| Undefined.

Arguments Ret {W A}.
Arguments Undefined {W A}.

Definition M (E A : Type) : Type := World E -> outcome (World E) A.

#[export] Instance M_ret {E} : MRet (M E) := fun A a w => Ret a w.
#[export] Instance M_bind {E} : MBind (M E) := fun A B f m w =>
  match m w with
  | Ret a w' => f a w'
  | Undefined => Undefined
  end.

Section World.
Context {E : Type}.

Definition with_heap (h : list jarray) (w : World E) : World E :=
  mkWorld h (alloc_plan w) (engine w) (trace w).
Definition with_plan (p : list bool) (w : World E) : World E :=
  mkWorld (heap w) p (engine w) (trace w).
Definition with_engine (e : E) (w : World E) : World E :=
  mkWorld (heap w) (alloc_plan w) e (trace w).
Definition record (ev : Event) (w : World E) : World E :=
  mkWorld (heap w) (alloc_plan w) (engine w) (trace w ++ [ev]).

Definition undefined {A} : M E A := fun _ => Undefined.

(** The object a reference denotes, if any. *)
Definition deref (w : World E) (r : jobject) : option jarray :=
  match r with
  | Some l => heap w !! l
  | None => None
  end.

(** One request for memory to the runtime. *)
Definition jni_alloc : M E bool := fun w =>
  match alloc_plan w with
  | [] => Ret true w
  | b :: plan => Ret b (with_plan plan w)
  end.

Definition new_object (a : jarray) : M E jobject := fun w =>
  Ret (Some (length (heap w))) (with_heap (heap w ++ [a]) w).

Definition emit (ev : Event) : M E unit := fun w => Ret tt (record ev w).

(** The test [p == NULL] on a reference or a pointer. *)
Definition is_null {A} (p : option A) : bool :=
  match p with
  | Some _ => false
  | None => true
  end.

End World.

(** ** The functions of [JNIEnv] the sources call *)

Module Jni.
Section Jni.
Context {E : Type}.
Variable host : byte_order.

(** Release modes of [Release<Type>ArrayElements] ([jni.h]). *)
Definition JNI_COMMIT : Z := 1.
Definition JNI_ABORT : Z := 2.

Definition array_length (a : jarray) : Z :=
  match a with
  | JBytes bs => Z.of_nat (length bs)
  | JFloats fs => Z.of_nat (length fs)
  end.

Definition GetArrayLength (arr : jobject) : M E Z := fun w =>
  match deref w arr with
  | Some a => Ret (array_length a) w
  | None => Undefined
  end.

(** [Get<Type>ArrayElements] hands out a buffer with the elements of the
    array as they lie in memory, or [NULL] when the runtime cannot
    provide one. *)
Definition GetByteArrayElements (arr : jobject) : M E native_buf := fun w =>
  match deref w arr with
  | Some (JBytes bs) =>
      (ok ← jni_alloc; mret (if ok : bool then Some bs else None)) w
  | _ => Undefined
  end.

Definition GetFloatArrayElements (arr : jobject) : M E native_buf := fun w =>
  match deref w arr with
  | Some (JFloats fs) =>
      (ok ← jni_alloc;
       mret (if ok : bool then Some (bytes_of_floats host fs) else None)) w
  | _ => Undefined
  end.

(** [New<Type>Array] returns a fresh zero-filled array, or [NULL] when the
    array cannot be constructed: the length is negative or the runtime is
    out of memory. *)
Definition NewByteArray (n : Z) : M E jobject :=
  if n <? 0 then mret None
  else ok ← jni_alloc;
       if ok : bool then new_object (JBytes (repeat x00 (Z.to_nat n)))
       else mret None.

Definition NewFloatArray (n : Z) : M E jobject :=
  if n <? 0 then mret None
  else ok ← jni_alloc;
       if ok : bool then new_object (JFloats (repeat 0 (Z.to_nat n)))
       else mret None.

(** Reading [n] bytes through a native pointer. *)
Definition read_bytes (buf : native_buf) (n : Z) : option (list byte) :=
  match buf with
  | Some bs =>
      if n <=? Z.of_nat (length bs) then Some (take (Z.to_nat n) bs)
      else None
  | None => if n =? 0 then Some [] else None
  end.

(** Reading [n] floats through a native pointer. *)
Definition read_floats (buf : native_buf) (n : Z) : option (list Z) :=
  match buf with
  | Some bs => floats_of_bytes host (Z.to_nat n) bs
  | None => if n =? 0 then Some [] else None
  end.

(** Overwriting the elements [start .. start + length src) of an array. *)
Definition splice {A} (old : list A) (start : Z) (src : list A) : list A :=
  take (Z.to_nat start) old ++ src
  ++ drop (Z.to_nat start + length src) old.

(** [Set<Type>ArrayRegion] copies [len] elements from the buffer into the
    array.  A region that does not lie inside the array raises
    [ArrayIndexOutOfBoundsException] and copies nothing. *)
Definition SetByteArrayRegion (arr : jobject) (start len : Z)
    (buf : native_buf) : M E unit := fun w =>
  match arr, deref w arr with
  | Some l, Some (JBytes old) =>
      if (start <? 0) || (len <? 0)
         || (Z.of_nat (length old) <? start + len)
      then Ret tt w
      else
        match read_bytes buf len with
        | Some src =>
            Ret tt (record (EvSetRegion l start len)
                      (with_heap (<[l := JBytes (splice old start src)]>
                                    (heap w)) w))
        | None => Undefined
        end
  | _, _ => Undefined
  end.

Definition SetFloatArrayRegion (arr : jobject) (start len : Z)
    (buf : native_buf) : M E unit := fun w =>
  match arr, deref w arr with
  | Some l, Some (JFloats old) =>
      if (start <? 0) || (len <? 0)
         || (Z.of_nat (length old) <? start + len)
      then Ret tt w
      else
        match read_floats buf len with
        | Some src =>
            Ret tt (record (EvSetRegion l start len)
                      (with_heap (<[l := JFloats (splice old start src)]>
                                    (heap w)) w))
        | None => Undefined
        end
  | _, _ => Undefined
  end.

(** [Release<Type>ArrayElements] gives the buffer back.  With mode
    [JNI_ABORT] the buffer is dropped; otherwise its contents are first
    copied back into the array.  The buffer must be one obtained from the
    same array. *)
Definition ReleaseByteArrayElements (arr : jobject) (elems : native_buf)
    (mode : Z) : M E unit := fun w =>
  match arr, deref w arr, elems with
  | Some l, Some (JBytes old), Some bs =>
      if negb (length bs =? length old)%nat then Undefined
      else if mode =? JNI_ABORT then Ret tt w
      else Ret tt (with_heap (<[l := JBytes bs]> (heap w)) w)
  | _, _, _ => Undefined
  end.

Definition ReleaseFloatArrayElements (arr : jobject) (elems : native_buf)
    (mode : Z) : M E unit := fun w =>
  match arr, deref w arr, elems with
  | Some l, Some (JFloats old), Some bs =>
      if negb (length bs =? 4 * length old)%nat then Undefined
      else if mode =? JNI_ABORT then Ret tt w
      else
        match floats_of_bytes host (length old) bs with
        | Some fs => Ret tt (with_heap (<[l := JFloats fs]> (heap w)) w)
        | None => Undefined
        end
  | _, _, _ => Undefined
  end.

(** Modified UTF-8, the encoding of [GetStringUTFChars]: the code unit 0
    takes two bytes, so that the encoded string has no zero byte. *)
Definition mutf8_unit (u : Z) : list byte :=
  if (1 <=? u) && (u <=? 127) then [byte_of_Z u]
  else if u <=? 2047 then
    [byte_of_Z (Z.lor 192 (Z.shiftr u 6));
     byte_of_Z (Z.lor 128 (Z.land u 63))]
  else
    [byte_of_Z (Z.lor 224 (Z.shiftr u 12));
     byte_of_Z (Z.lor 128 (Z.land (Z.shiftr u 6) 63));
     byte_of_Z (Z.lor 128 (Z.land u 63))].

Definition mutf8 (s : jstring) : list byte := flat_map mutf8_unit s.

(** [GetStringUTFChars] returns the characters of the string (the
    terminating zero byte is left implicit), or [NULL] when out of
    memory. *)
Definition GetStringUTFChars (s : jstring) : M E (option (list byte)) :=
  ok ← jni_alloc; mret (if ok : bool then Some (mutf8 s) else None).

Definition ReleaseStringUTFChars (s : jstring) (chars : option (list byte))
  : M E unit :=
  match chars with
  | Some _ => mret tt
  | None => undefined
  end.

(** The string a sequence of modified UTF-8 bytes spells; bytes that do not
    complete a character are dropped. *)
Fixpoint mutf8_decode (chars : list byte) : jstring :=
  match chars with
  | [] => []
  | b0 :: rest =>
      let c0 := Z_of_byte b0 in
      if c0 <? 128 then c0 :: mutf8_decode rest
      else
        match rest with
        | [] => []
        | b1 :: rest1 =>
            let c1 := Z_of_byte b1 in
            if c0 <? 224 then
              Z.lor (Z.shiftl (Z.land c0 31) 6) (Z.land c1 63)
              :: mutf8_decode rest1
            else
              match rest1 with
              | [] => []
              | b2 :: rest2 =>
                  Z.lor (Z.shiftl (Z.land c0 15) 12)
                    (Z.lor (Z.shiftl (Z.land c1 63) 6)
                       (Z.land (Z_of_byte b2) 63))
                  :: mutf8_decode rest2
              end
        end
  end.

(** [NewStringUTF] makes a [java.lang.String] from modified UTF-8
    characters, or returns [NULL] when out of memory. *)
Definition NewStringUTF (chars : list byte) : M E (option jstring) :=
  ok ← jni_alloc;
  mret (if ok : bool then Some (mutf8_decode chars) else None).

End Jni.
End Jni.

Import Jni.

(** ** The C library and the Android log *)

Module Libc.
Section Libc.
Context {E : Type}.

(** [strcmp] on zero-terminated strings: the difference of the first two
    bytes that differ, the end of a string counting as the byte 0. *)
Fixpoint strcmp (a b : list byte) : Z :=
  match a, b with
  | c :: a', d :: b' =>
      if (Z_of_byte c =? 0) || negb (Z_of_byte c =? Z_of_byte d)
      then Z_of_byte c - Z_of_byte d
      else strcmp a' b'
  | c :: _, [] => Z_of_byte c
  | [], d :: _ => 0 - Z_of_byte d
  | [], [] => 0
  end.

(** A string literal as the bytes of its characters. *)
Definition lit (s : string) : list byte := list_byte_of_string s.

Definition ANDROID_LOG_INFO : Z := 4.
Definition ANDROID_LOG_ERROR : Z := 6.
Definition LOG_TAG : string := "SQLiteVec".

Definition LOGI (msg : string) : M E unit :=
  emit (EvLog ANDROID_LOG_INFO LOG_TAG msg).
Definition LOGE (msg : string) : M E unit :=
  emit (EvLog ANDROID_LOG_ERROR LOG_TAG msg).

End Libc.
End Libc.

Import Libc.

(** ** The SQLite C API as the sources use it *)

Module Sqlite.
Section Sqlite.
Context {E : Type}.
Variable eng : Engine E.

(** The sources pass the same constants for the remaining arguments at
    every call ([-1] and [NULL] to [sqlite3_prepare_v2], [NULL] to
    [sqlite3_vec_init], [SQLITE_STATIC] to [sqlite3_bind_blob]); these are
    not carried. *)

(** Result codes of [sqlite3.h]. *)
Definition SQLITE_OK : Z := 0.
Definition SQLITE_ERROR : Z := 1.
Definition SQLITE_ROW : Z := 100.

(** A call into the engine: the engine moves to its next state and the
    call is recorded with its answer. *)
Definition call {A} (f : E -> A * E) (ev : A -> Event) : M E A := fun w =>
  let (a, e) := f (engine w) in
  Ret a (record (ev a) (with_engine e w)).

Definition sqlite3_vec_init (db : Z) : M E (Z * option string) :=
  call (eng_vec_init eng db) (fun r => EvVecInit db r.1 r.2).
Definition sqlite3_free (p : option string) : M E unit :=
  call (eng_free eng p) (fun _ => EvFree p).
Definition sqlite3_prepare_v2 (db : Z) (sql : string) : M E (Z * Z) :=
  call (eng_prepare_v2 eng db sql) (fun r => EvPrepare db sql r.1 r.2).
Definition sqlite3_errmsg (db : Z) : M E string :=
  call (eng_errmsg eng db) (fun msg => EvErrmsg db msg).
Definition sqlite3_bind_blob (stmt idx : Z) (data : native_buf) (n : Z)
  : M E Z :=
  call (eng_bind_blob eng stmt idx data n)
    (fun rc => EvBindBlob stmt idx data n rc).
Definition sqlite3_step (stmt : Z) : M E Z :=
  call (eng_step eng stmt) (fun rc => EvStep stmt rc).
Definition sqlite3_column_double (stmt col : Z) : M E jdouble :=
  call (eng_column_double eng stmt col) (fun d => EvColumnDouble stmt col d).
Definition sqlite3_column_int (stmt col : Z) : M E Z :=
  call (eng_column_int eng stmt col) (fun v => EvColumnInt stmt col v).
Definition sqlite3_column_blob (stmt col : Z) : M E native_buf :=
  call (eng_column_blob eng stmt col) (fun p => EvColumnBlob stmt col p).
Definition sqlite3_column_bytes (stmt col : Z) : M E Z :=
  call (eng_column_bytes eng stmt col) (fun n => EvColumnBytes stmt col n).
Definition sqlite3_finalize (stmt : Z) : M E Z :=
  call (eng_finalize eng stmt) (fun rc => EvFinalize stmt rc).

End Sqlite.
End Sqlite.

Import Sqlite.

(** ** [sqlite-vec-jni.c] *)

Module JniC.
Section JniC.
Context {E : Type}.
Variable eng : Engine E.
Variable host : byte_order.

(** The version string of [sqlite-vec.h]. *)
Variable SQLITE_VEC_VERSION : string.

Definition Java_com_sqlite_vec_SQLiteVec_nativeInit (db_pointer : Z)
  : M E Z :=
  let db := db_pointer in
  '(result, error_msg) ← sqlite3_vec_init eng db;
  (if negb (result =? SQLITE_OK) && negb (is_null error_msg) then
     LOGE ("sqlite3_vec_init failed: " ++ default "" error_msg)%string;;
     sqlite3_free eng error_msg
   else mret tt);;
  mret result.

Definition Java_com_sqlite_vec_SQLiteVec_nativeGetVersion
  : M E (option jstring) :=
  NewStringUTF (lit SQLITE_VEC_VERSION).

Definition Java_com_sqlite_vec_SQLiteVec_nativeSerializeFloat32
    (vector : jobject) : M E jobject :=
  length ← GetArrayLength vector;
  elements ← GetFloatArrayElements host vector;
  result ← NewByteArray (to_jsize (size_t_mul length sizeof_float));
  SetByteArrayRegion result 0 (to_jsize (size_t_mul length sizeof_float))
    elements;;
  ReleaseFloatArrayElements host vector elements 0;;
  mret result.

Definition Java_com_sqlite_vec_SQLiteVec_nativeDeserializeFloat32
    (data : jobject) : M E jobject :=
  data_length ← GetArrayLength data;
  data_bytes ← GetByteArrayElements data;
  let float_count := to_jsize (size_t_div data_length sizeof_float) in
  result ← NewFloatArray float_count;
  SetFloatArrayRegion host result 0 float_count data_bytes;;
  ReleaseByteArrayElements data data_bytes 0;;
  mret result.

Definition Java_com_sqlite_vec_SQLiteVec_nativeSerializeInt8
    (vector : jobject) : M E jobject :=
  length ← GetArrayLength vector;
  elements ← GetByteArrayElements vector;
  result ← NewByteArray length;
  SetByteArrayRegion result 0 length elements;;
  ReleaseByteArrayElements vector elements 0;;
  mret result.

Definition Java_com_sqlite_vec_SQLiteVec_nativeDeserializeInt8
    (data : jobject) : M E jobject :=
  data_length ← GetArrayLength data;
  data_bytes ← GetByteArrayElements data;
  result ← NewByteArray data_length;
  SetByteArrayRegion result 0 data_length data_bytes;;
  ReleaseByteArrayElements data data_bytes 0;;
  mret result.

Definition Java_com_sqlite_vec_SQLiteVec_nativeIsLoaded (db_pointer : Z)
  : M E bool :=
  let db := db_pointer in
  '(rc, stmt) ← sqlite3_prepare_v2 eng db "SELECT vec_version()";
  if negb (rc =? SQLITE_OK) then mret false
  else
    rc ← sqlite3_step eng stmt;
    sqlite3_finalize eng stmt;;
    mret (rc =? SQLITE_ROW).

End JniC.
End JniC.

(** ** [sqlite-vec-jni.cpp] *)

Module JniCpp.
Section JniCpp.
Context {E : Type}.
Variable eng : Engine E.
Variable host : byte_order.

(** The version string of [sqlite-vec.h]. *)
Variable SQLITE_VEC_VERSION : string.

(** The literal [-1.0]. *)
Definition minus_one : jdouble := S754_finite true 4503599627370496 (-52).

Definition Java_com_sqlite_vec_SQLiteVec_nativeGetVersion
  : M E (option jstring) :=
  NewStringUTF (lit SQLITE_VEC_VERSION).

Definition Java_com_sqlite_vec_SQLiteVec_nativeInit (dbHandle : Z)
  : M E Z :=
  let db := dbHandle in
  if db =? 0 then
    LOGE "Invalid database handle";;
    mret SQLITE_ERROR
  else
    '(result, errorMessage) ← sqlite3_vec_init eng db;
    (if negb (result =? SQLITE_OK) then
       LOGE ("Failed to initialize sqlite-vec: "
             ++ default "Unknown error" errorMessage)%string;;
       if negb (is_null errorMessage)
       then sqlite3_free eng errorMessage
       else mret tt
     else LOGI "sqlite-vec initialized successfully");;
    mret result.

Definition Java_com_sqlite_vec_SQLiteVec_nativeSerializeFloat32
    (vector : jobject) : M E jobject :=
  length ← GetArrayLength vector;
  elements ← GetFloatArrayElements host vector;
  if is_null elements then mret None
  else
    let byteLength := to_jsize (size_t_mul length sizeof_float) in
    result ← NewByteArray byteLength;
    (if negb (is_null result)
     then SetByteArrayRegion result 0 byteLength elements
     else mret tt);;
    ReleaseFloatArrayElements host vector elements JNI_ABORT;;
    mret result.

Definition Java_com_sqlite_vec_SQLiteVec_nativeDeserializeFloat32
    (data : jobject) : M E jobject :=
  byteLength ← GetArrayLength data;
  bytes ← GetByteArrayElements data;
  if is_null bytes
     || negb (size_t_rem byteLength sizeof_float =? 0) then
    (if negb (is_null bytes)
     then ReleaseByteArrayElements data bytes JNI_ABORT
     else mret tt);;
    mret None
  else
    let floatLength := to_jsize (size_t_div byteLength sizeof_float) in
    result ← NewFloatArray floatLength;
    (if negb (is_null result)
     then SetFloatArrayRegion host result 0 floatLength bytes
     else mret tt);;
    ReleaseByteArrayElements data bytes JNI_ABORT;;
    mret result.

Definition Java_com_sqlite_vec_SQLiteVec_nativeSerializeInt8
    (vector : jobject) : M E jobject :=
  length ← GetArrayLength vector;
  result ← NewByteArray length;
  (if negb (is_null result) then
     elements ← GetByteArrayElements vector;
     if negb (is_null elements) then
       SetByteArrayRegion result 0 length elements;;
       ReleaseByteArrayElements vector elements JNI_ABORT
     else mret tt
   else mret tt);;
  mret result.

(** The SQL text [nativeDistance] selects for a metric name. *)
Definition distance_sql (metricStr : list byte) : string :=
  if strcmp metricStr (lit "cosine") =? 0 then
    "SELECT vec_distance_cosine(?, ?)"
  else if strcmp metricStr (lit "l2") =? 0 then
    "SELECT vec_distance_l2(?, ?)"
  else
    "SELECT vec_distance_cosine(?, ?)".

Definition Java_com_sqlite_vec_SQLiteVec_nativeDistance (dbHandle : Z)
    (vector1 vector2 : jobject) (metric : jstring) : M E jdouble :=
  let db := dbHandle in
  if db =? 0 then mret minus_one
  else
    metricStr ← GetStringUTFChars metric;
    sql ← match metricStr with
          | Some s => mret (distance_sql s)
          | None => undefined
          end;
    ReleaseStringUTFChars metric metricStr;;
    '(rc, stmt) ← sqlite3_prepare_v2 eng db sql;
    if negb (rc =? SQLITE_OK) then
      msg ← sqlite3_errmsg eng db;
      LOGE ("Failed to prepare distance query: " ++ msg)%string;;
      mret minus_one
    else
      len1 ← GetArrayLength vector1;
      bytes1 ← GetByteArrayElements vector1;
      sqlite3_bind_blob eng stmt 1 bytes1 len1;;
      len2 ← GetArrayLength vector2;
      bytes2 ← GetByteArrayElements vector2;
      sqlite3_bind_blob eng stmt 2 bytes2 len2;;
      rc ← sqlite3_step eng stmt;
      result ← (if rc =? SQLITE_ROW then sqlite3_column_double eng stmt 0
                else mret minus_one);
      ReleaseByteArrayElements vector1 bytes1 JNI_ABORT;;
      ReleaseByteArrayElements vector2 bytes2 JNI_ABORT;;
      sqlite3_finalize eng stmt;;
      mret result.

Definition Java_com_sqlite_vec_SQLiteVec_nativeVectorLength (dbHandle : Z)
    (vector : jobject) : M E Z :=
  let db := dbHandle in
  if db =? 0 then mret (-1)
  else
    '(rc, stmt) ← sqlite3_prepare_v2 eng db "SELECT vec_length(?)";
    if negb (rc =? SQLITE_OK) then mret (-1)
    else
      len ← GetArrayLength vector;
      bytes ← GetByteArrayElements vector;
      sqlite3_bind_blob eng stmt 1 bytes len;;
      rc ← sqlite3_step eng stmt;
      result ← (if rc =? SQLITE_ROW then sqlite3_column_int eng stmt 0
                else mret (-1));
      ReleaseByteArrayElements vector bytes JNI_ABORT;;
      sqlite3_finalize eng stmt;;
      mret result.

Definition Java_com_sqlite_vec_SQLiteVec_nativeNormalize (dbHandle : Z)
    (vector : jobject) : M E jobject :=
  let db := dbHandle in
  if db =? 0 then mret None
  else
    '(rc, stmt) ← sqlite3_prepare_v2 eng db "SELECT vec_normalize(?)";
    if negb (rc =? SQLITE_OK) then mret None
    else
      len ← GetArrayLength vector;
      bytes ← GetByteArrayElements vector;
      sqlite3_bind_blob eng stmt 1 bytes len;;
      rc ← sqlite3_step eng stmt;
      result ← (if rc =? SQLITE_ROW then
                  blob ← sqlite3_column_blob eng stmt 0;
                  blobSize ← sqlite3_column_bytes eng stmt 0;
                  result ← NewByteArray blobSize;
                  (if negb (is_null result)
                   then SetByteArrayRegion result 0 blobSize blob
                   else mret tt);;
                  mret result
                else mret None);
      ReleaseByteArrayElements vector bytes JNI_ABORT;;
      sqlite3_finalize eng stmt;;
      mret result.

End JniCpp.
End JniCpp.

(** ** Reflection: [getDatabaseHandle] of [sqlite-vec-jni.cpp] *)

Module Reflect.

(** The one exception the functions below raise. *)
Inductive jthrowable := NoSuchFieldError (name : string).

(** A field of a Java object as reflection sees it: its name, its type
    signature ("J" for [long]) and, for a [long] field, its value. *)
Record jfield := mkField {
  field_name : string;
  field_sig : string;
  field_long : Z;
}.

(** A Java object, as far as reflection looks at it, is the list of its
    fields; its class is the same list, read for names and signatures
    only.  A reference to an object is [None] when null. *)
Definition jinstance : Type := list jfield.

(** A field ID names a field by name and signature; [None] is [NULL]. *)
Definition jfieldID : Type := option (string * string).

(** The JNI environment: the exception pending in the thread, if any, and
    the names of the fields looked up so far, in order. *)
Record Env := mkEnv {
  pending : option jthrowable;
  lookups : list string;
}.

Definition R (A : Type) : Type := Env -> outcome Env A.

#[export] Instance R_ret : MRet R := fun A a s => Ret a s.
#[export] Instance R_bind : MBind R := fun A B f m s =>
  match m s with
  | Ret a s' => f a s'
  | Undefined => Undefined
  end.

Section Reflect.

(** The JNI specification does not allow the functions below to be called
    while an exception is pending.  What a runtime does then is not
    defined; [carries_on] tells whether it goes on with the call as if
    nothing were pending, or stops. *)
Variable carries_on : bool.

Definition checked {A} (m : R A) : R A := fun s =>
  if is_null (pending s) || carries_on then m s else Undefined.

Definition lookup_field (cls : jinstance) (name sig : string)
  : option jfield :=
  find (fun f => String.eqb (field_name f) name
                 && String.eqb (field_sig f) sig) cls.

Definition GetObjectClass (obj : option jinstance) : R jinstance :=
  checked (fun s =>
    match obj with
    | Some o => Ret o s
    | None => Undefined
    end).

(** [GetFieldID] returns the ID of the field, or [NULL] with
    [NoSuchFieldError] raised when the class has no such field. *)
Definition GetFieldID (cls : jinstance) (name sig : string) : R jfieldID :=
  checked (fun s =>
    match lookup_field cls name sig with
    | Some _ => Ret (Some (name, sig)) (mkEnv (pending s) (lookups s ++ [name]))
    | None =>
        Ret None
          (mkEnv (Some (default (NoSuchFieldError name) (pending s)))
             (lookups s ++ [name]))
    end).

(** [GetLongField] reads a [long] field through an ID obtained for the
    class of the object. *)
Definition GetLongField (obj : option jinstance) (fid : jfieldID) : R Z :=
  checked (fun s =>
    match obj, fid with
    | Some o, Some (name, sig) =>
        if String.eqb sig "J" then
          match lookup_field o name sig with
          | Some f => Ret (field_long f) s
          | None => Undefined
          end
        else Undefined
    | _, _ => Undefined
    end).

(** The handle returned is an address, [0] for [nullptr]. *)
Definition getDatabaseHandle (database : option jinstance) : R Z :=
  databaseClass ← GetObjectClass database;
  handleField ← GetFieldID databaseClass "mNativeHandle" "J";
  handleField ← (if is_null handleField
                 then GetFieldID databaseClass "mConnectionPtr" "J"
                 else mret handleField);
  if negb (is_null handleField) then
    handle ← GetLongField database handleField;
    mret handle
  else mret 0.

End Reflect.

(** An [android.database.sqlite.SQLiteDatabase] of a release that keeps
    the handle in [mNativeHandle], and one of a release that keeps it in
    [mConnectionPtr]. *)
Definition with_native_handle : jinstance :=
  [mkField "mPath" "Ljava/lang/String;" 0;
   mkField "mNativeHandle" "J" 3735928559].


End Reflect.

(** ** A small engine to run the binding against

    The state of this engine is its configuration: the result code it gives
    to [sqlite3_prepare_v2] and to [sqlite3_step], and the row it produces.
    It stands for no real database; it makes the model executable. *)

Module Toy.

Record config := mkConfig {
  init_rc : Z;
  init_msg : option string;
  prepare_rc : Z;
  step_rc : Z;
  row_double : jdouble;
  row_blob : list byte;
}.

Definition toy : Engine config := {|
  eng_vec_init := fun db c => ((init_rc c, init_msg c), c);
  eng_free := fun _ c => (tt, c);
  eng_prepare_v2 := fun db sql c =>
    ((prepare_rc c, if prepare_rc c =? 0 then 77 else 0), c);
  eng_errmsg := fun db c => ("no such function"%string, c);
  eng_bind_blob := fun stmt idx data n c => (0, c);
  eng_step := fun stmt c => (step_rc c, c);
  eng_column_double := fun stmt col c => (row_double c, c);
  eng_column_int := fun stmt col c => (Z.of_nat (length (row_blob c)) / 4, c);
  eng_column_blob := fun stmt col c => (Some (row_blob c), c);
  eng_column_bytes := fun stmt col c => (Z.of_nat (length (row_blob c)), c);
  eng_finalize := fun stmt c => (0, c);
|}.

(** An engine with the extension loaded that answers every query with one
    row. *)
Definition healthy : config :=
  mkConfig 0 None 0 100 (S754_zero false) [x00; x00; x80; x3f].

(** An engine on which statements fail to prepare. *)
Definition unprepared : config :=
  mkConfig 1 (Some "not authorized"%string) 1 100 (S754_zero false) [].

(** An engine whose statements run to completion without a row. *)
Definition rowless : config :=
  mkConfig 0 None 0 101 (S754_zero false) [].

Definition world (h : list jarray) (c : config) : World config :=
  mkWorld h [] c [].

End Toy.

(** ** Sample inputs *)

(** The vector of the example of the specification: [1.0; -2.5; 0.0]. *)
Definition example_vector : list Z := [1065353216; 3223322624; 0].

(** Five bytes: the float 1.0 of a little-endian host and one byte more. *)
Definition ragged_buffer : list byte := [x00; x00; x80; x3f; x01].

(** A vector of 2^30 floats: a legal Java array whose serialized form would
    need 2^32 bytes. *)
Definition large_vector : list Z := repeat 0 (Z.to_nat (2 ^ 30)).

(** ** The exported surface *)

(** The two source files export the same JNI symbols; a call is resolved to
    whichever of them is linked. *)
Inductive source_file := SourceC | SourceCpp.

(** The Array Marshaller operations.  [nativeDeserializeInt8] is defined by
    the C source only. *)
Inductive marshaller :=
| SerializeFloat32 (src : source_file)
| DeserializeFloat32 (src : source_file)
| SerializeInt8 (src : source_file)
| DeserializeInt8.

Definition run_marshaller {E} (host : byte_order) (op : marshaller)
  : jobject -> M E jobject :=
  match op with
  | SerializeFloat32 SourceC =>
      JniC.Java_com_sqlite_vec_SQLiteVec_nativeSerializeFloat32 host
  | SerializeFloat32 SourceCpp =>
      JniCpp.Java_com_sqlite_vec_SQLiteVec_nativeSerializeFloat32 host
  | DeserializeFloat32 SourceC =>
      JniC.Java_com_sqlite_vec_SQLiteVec_nativeDeserializeFloat32 host
  | DeserializeFloat32 SourceCpp =>
      JniCpp.Java_com_sqlite_vec_SQLiteVec_nativeDeserializeFloat32 host
  | SerializeInt8 SourceC =>
      JniC.Java_com_sqlite_vec_SQLiteVec_nativeSerializeInt8
  | SerializeInt8 SourceCpp =>
      JniCpp.Java_com_sqlite_vec_SQLiteVec_nativeSerializeInt8
  | DeserializeInt8 =>
      JniC.Java_com_sqlite_vec_SQLiteVec_nativeDeserializeInt8
  end.

(** The Query Adapter operations with their arguments.  [IsLoaded] is
    defined by the C source only, the others by the C++ source only. *)
Inductive query :=
| Distance (db : Z) (vector1 vector2 : jobject) (metric : jstring)
| VectorLength (db : Z) (vector : jobject)
| Normalize (db : Z) (vector : jobject)
| IsLoaded (db : Z).

Inductive answer :=
| ADouble (d : jdouble)
| AInt (n : Z)
| AObject (r : jobject)
| ABool (b : bool).

Definition run_query {E} (eng : Engine E) (q : query) : M E answer :=
  match q with
  | Distance db vector1 vector2 metric =>
      d ← JniCpp.Java_com_sqlite_vec_SQLiteVec_nativeDistance eng db
            vector1 vector2 metric;
      mret (ADouble d)
  | VectorLength db vector =>
      n ← JniCpp.Java_com_sqlite_vec_SQLiteVec_nativeVectorLength eng db
            vector;
      mret (AInt n)
  | Normalize db vector =>
      r ← JniCpp.Java_com_sqlite_vec_SQLiteVec_nativeNormalize eng db vector;
      mret (AObject r)
  | IsLoaded db =>
      b ← JniC.Java_com_sqlite_vec_SQLiteVec_nativeIsLoaded eng db;
      mret (ABool b)
  end.

(** A call of an operation exported by both sources, with its arguments. *)
Inductive shared_call :=
| CallInit (db : Z)
| CallGetVersion
| CallSerializeFloat32 (vector : jobject)
| CallDeserializeFloat32 (data : jobject)
| CallSerializeInt8 (vector : jobject).

Inductive shared_result :=
| RStatus (rc : Z)
| RString (s : option jstring)
| RArray (r : jobject).

Definition run_shared {E} (eng : Engine E) (host : byte_order)
    (version : string) (src : source_file) (c : shared_call)
  : M E shared_result :=
  match c, src with
  | CallInit db, SourceC =>
      rc ← JniC.Java_com_sqlite_vec_SQLiteVec_nativeInit eng db;
      mret (RStatus rc)
  | CallInit db, SourceCpp =>
      rc ← JniCpp.Java_com_sqlite_vec_SQLiteVec_nativeInit eng db;
      mret (RStatus rc)
  | CallGetVersion, SourceC =>
      s ← JniC.Java_com_sqlite_vec_SQLiteVec_nativeGetVersion version;
      mret (RString s)
  | CallGetVersion, SourceCpp =>
      s ← JniCpp.Java_com_sqlite_vec_SQLiteVec_nativeGetVersion version;
      mret (RString s)
  | CallSerializeFloat32 vector, _ =>
      r ← run_marshaller host (SerializeFloat32 src) vector; mret (RArray r)
  | CallDeserializeFloat32 data, _ =>
      r ← run_marshaller host (DeserializeFloat32 src) data; mret (RArray r)
  | CallSerializeInt8 vector, _ =>
      r ← run_marshaller host (SerializeInt8 src) vector; mret (RArray r)
  end.

(** ** The vocabulary of the properties *)

Section Vocabulary.
Context {E : Type}.

(** The runtime grants every request for memory still to come. *)
Definition granted (w : World E) : Prop :=
  forallb id (alloc_plan w) = true.

(** The world once one request has been decided. *)
Definition consume (w : World E) : World E :=
  with_plan (tail (alloc_plan w)) w.

(** A Java array has at most [jsize_max] elements. *)
Definition java_array (a : jarray) : Prop := array_length a <= jsize_max.

(** What a marshaller call that returns a new array leaves behind: the
    array is the next object of the heap, nothing else in the heap has
    changed, and the one thing recorded is the copy into the new array. *)
Definition makes (w : World E) (a : jarray) (n : Z)
    (o : outcome (World E) jobject) : Prop :=
  exists w',
    o = Ret (Some (length (heap w))) w'
    /\ heap w' = heap w ++ [a]
    /\ granted w'
    /\ engine w' = engine w
    /\ trace w' = trace w ++ [EvSetRegion (length (heap w)) 0 n].

(** Only the plan of the allocator has moved. *)
Definition same_objects (w w' : World E) : Prop :=
  heap w' = heap w /\ engine w' = engine w /\ trace w' = trace w.

(** The array a [New<Type>Array] call made, if it made one, is the next
    object of the heap. *)
Definition allocated (w w' : World E) (r : jobject) : Prop :=
  engine w' = engine w /\ trace w' = trace w
  /\ ((r = None /\ heap w' = heap w)
      \/ (exists a, r = Some (length (heap w)) /\ heap w' = heap w ++ [a])).

(** A region copy writes to the array it is given and to nothing else,
    and is recorded when it happens. *)
Definition copied_into (w w' : World E) (arr : jobject) (start len : Z)
  : Prop :=
  engine w' = engine w
  /\ exists l, arr = Some l
     /\ ((heap w' = heap w /\ trace w' = trace w)
         \/ (exists a, heap w' = <[l := a]> (heap w)
                       /\ trace w' = trace w ++ [EvSetRegion l start len])).

End Vocabulary.

(** The array an operation is declared to take: a [jfloatArray] (of 32-bit
    patterns) for [SerializeFloat32], a [jbyteArray] for the others. *)
Definition takes (op : marshaller) (a : jarray) : Prop :=
  match op, a with
  | SerializeFloat32 _, JFloats v => Forall is_float32 v
  | SerializeFloat32 _, JBytes _ => False
  | _, JBytes _ => True
  | _, JFloats _ => False
  end.

(** The operations on int8 vectors. *)
Definition int8_marshaller (op : marshaller) : Prop :=
  match op with
  | SerializeInt8 _ | DeserializeInt8 => True
  | _ => False
  end.

(** The Java string spelled by an ASCII literal. *)
Definition java_string (s : string) : jstring := map Z_of_byte (lit s).

(** The number of floats a buffer of [len] bytes is read as. *)
Definition floats_in (bs : list byte) : nat :=
  Z.to_nat (Z.of_nat (length bs) / 4).

(** The inputs on which the guards of the C++ source let the call through
    and the call can be served: a handle that is not null; an array of the
    declared type; for a float vector, a serialized size within [jsize];
    for a float buffer, a length that is a multiple of 4; and a runtime
    that grants the memory asked for. *)
Definition within_guards {E} (w : World E) (c : shared_call) : Prop :=
  match c with
  | CallInit db => db <> 0
  | CallGetVersion => True
  | CallSerializeFloat32 vector =>
      exists v, deref w vector = Some (JFloats v) /\ Forall is_float32 v
                /\ 4 * Z.of_nat (length v) <= jsize_max /\ granted w
  | CallDeserializeFloat32 data =>
      exists bs, deref w data = Some (JBytes bs) /\ java_array (JBytes bs)
                 /\ Z.of_nat (length bs) mod 4 = 0 /\ granted w
  | CallSerializeInt8 vector =>
      exists bs, deref w vector = Some (JBytes bs) /\ granted w
  end.

(** What [sqlite3.h] promises of a BLOB column: [sqlite3_column_bytes]
    gives the size of the BLOB, and the pointer of [sqlite3_column_blob]
    can be read for that many bytes (the pointer may be [NULL] when the
    size is 0). *)
Definition blob_contract {E} (eng : Engine E) : Prop :=
  forall (stmt col : Z) (e : E),
    let (blob, e1) := eng_column_blob eng stmt col e in
    let (n, _) := eng_column_bytes eng stmt col e1 in
    0 <= n /\ is_Some (read_bytes blob n).

(** The runs of [Distance], by what they do to the outside and what they
    return: the sentinel [-1.0] on a null handle, when the statement does
    not prepare and when the step yields no row; the double read from
    column 0 of the row otherwise. *)
Inductive distance_run (db : Z) (bs1 bs2 : list byte)
  : list Event -> jdouble -> Prop :=
| distance_null_handle :
    db = 0 ->
    distance_run db bs1 bs2 [] JniCpp.minus_one
| distance_not_prepared sql rc stmt msg :
    db <> 0 -> rc <> SQLITE_OK ->
    distance_run db bs1 bs2
      [EvPrepare db sql rc stmt;
       EvErrmsg db msg;
       EvLog ANDROID_LOG_ERROR LOG_TAG
         ("Failed to prepare distance query: " ++ msg)]
      JniCpp.minus_one
| distance_no_row sql stmt rc1 rc2 rc rcf :
    db <> 0 -> rc <> SQLITE_ROW ->
    distance_run db bs1 bs2
      [EvPrepare db sql SQLITE_OK stmt;
       EvBindBlob stmt 1 (Some bs1) (Z.of_nat (length bs1)) rc1;
       EvBindBlob stmt 2 (Some bs2) (Z.of_nat (length bs2)) rc2;
       EvStep stmt rc;
       EvFinalize stmt rcf]
      JniCpp.minus_one
| distance_row sql stmt rc1 rc2 d rcf :
    db <> 0 ->
    distance_run db bs1 bs2
      [EvPrepare db sql SQLITE_OK stmt;
       EvBindBlob stmt 1 (Some bs1) (Z.of_nat (length bs1)) rc1;
       EvBindBlob stmt 2 (Some bs2) (Z.of_nat (length bs2)) rc2;
       EvStep stmt SQLITE_ROW;
       EvColumnDouble stmt 0 d;
       EvFinalize stmt rcf]
      d.

(** The runs of [Normalize], by what they do to the outside, what they
    return and what they leave in the heap: null and an unchanged heap on a
    null handle, when the statement does not prepare and when the step
    yields no row; otherwise a new array holding the bytes of the BLOB of
    column 0, copied before the statement is finalized. *)
Inductive normalize_run (db : Z) (bs : list byte) (h : list jarray)
  : list Event -> jobject -> list jarray -> Prop :=
| normalize_null_handle :
    db = 0 ->
    normalize_run db bs h [] None h
| normalize_not_prepared rc stmt :
    db <> 0 -> rc <> SQLITE_OK ->
    normalize_run db bs h
      [EvPrepare db "SELECT vec_normalize(?)" rc stmt] None h
| normalize_no_row stmt rc1 rc rcf :
    db <> 0 -> rc <> SQLITE_ROW ->
    normalize_run db bs h
      [EvPrepare db "SELECT vec_normalize(?)" SQLITE_OK stmt;
       EvBindBlob stmt 1 (Some bs) (Z.of_nat (length bs)) rc1;
       EvStep stmt rc;
       EvFinalize stmt rcf]
      None h
| normalize_row stmt rc1 blob n copy rcf :
    db <> 0 -> read_bytes blob n = Some copy ->
    normalize_run db bs h
      [EvPrepare db "SELECT vec_normalize(?)" SQLITE_OK stmt;
       EvBindBlob stmt 1 (Some bs) (Z.of_nat (length bs)) rc1;
       EvStep stmt SQLITE_ROW;
       EvColumnBlob stmt 0 blob;
       EvColumnBytes stmt 0 n;
       EvSetRegion (length h) 0 n;
       EvFinalize stmt rcf]
      (Some (length h)) (h ++ [JBytes copy]).

(** The statement handle an engine call works on. *)
Definition statement_used (ev : Event) : option Z :=
  match ev with
  | EvBindBlob stmt _ _ _ _ | EvStep stmt _ | EvColumnDouble stmt _ _
  | EvColumnInt stmt _ _ | EvColumnBlob stmt _ _ | EvColumnBytes stmt _ _ =>
      Some stmt
  | _ => None
  end.

Fixpoint remove_first (stmt : Z) (open : list Z) : list Z :=
  match open with
  | [] => []
  | s :: open' => if s =? stmt then open' else s :: remove_first stmt open'
  end.

(** [scoped open events] checks the engine calls of one call of the binding
    against the statements it holds, [open] at the start: a statement
    prepared with success is held from then on; a statement is bound,
    stepped or read only while held; finalizing gives it up; and none is
    held at the end. *)
Fixpoint scoped (open : list Z) (events : list Event) : bool :=
  match events with
  | [] => match open with [] => true | _ :: _ => false end
  | EvPrepare _ _ rc stmt :: events' =>
      scoped (if rc =? SQLITE_OK then stmt :: open else open) events'
  | EvFinalize stmt _ :: events' =>
      existsb (Z.eqb stmt) open && scoped (remove_first stmt open) events'
  | ev :: events' =>
      match statement_used ev with
      | Some stmt => existsb (Z.eqb stmt) open && scoped open events'
      | None => scoped open events'
      end
  end.

(** An event that may occur while [stmt] is the one statement held: no
    prepare, no finalize, and no use of another statement. *)
Definition within (stmt : Z) (ev : Event) : bool :=
  match ev with
  | EvPrepare _ _ _ _ | EvFinalize _ _ => false
  | _ =>
      match statement_used ev with
      | Some s => s =? stmt
      | None => true
      end
  end.

(** The array arguments of a query are byte arrays. *)
Definition served {E} (w : World E) (q : query) : Prop :=
  match q with
  | Distance _ vector1 vector2 _ =>
      exists bs1 bs2, deref w vector1 = Some (JBytes bs1)
                      /\ deref w vector2 = Some (JBytes bs2)
  | VectorLength _ vector | Normalize _ vector =>
      exists bs, deref w vector = Some (JBytes bs)
  | IsLoaded _ => True
  end.

(** What has to be shown of a call that returned in [w'] from [w]. *)
Definition releases {E} (w w' : World E) : Prop :=
  exists events, trace w' = trace w ++ events /\ scoped [] events = true.

(** ** Vocabulary of the further properties *)

(** A second sample vector: [0.0; 1.0; 0.0]. *)
Definition unit_vector : list Z := [0; 1065353216; 0].

(** ** Byte order across hosts *)

(** The byte order a host does not have. *)
Definition opposite (host : byte_order) : byte_order :=
  match host with
  | LittleEndian => BigEndian
  | BigEndian => LittleEndian
  end.

(** A 32-bit pattern with its four bytes in reverse order. *)
Definition byte_swap (f : Z) : Z :=
  match float_le_bytes f with
  | [b0; b1; b2; b3] => float_of_le b3 b2 b1 b0
  | _ => f
  end.

(** ** The runs of the remaining queries *)



(** ** The order of the engine calls of a query *)

(** Binding a parameter of [stmt]. *)
Definition binds (stmt : Z) (ev : Event) : bool :=
  match ev with
  | EvBindBlob s _ _ _ _ => s =? stmt
  | _ => false
  end.

(** Reading a column of the current row of [stmt], or copying what was read
    into a Java array. *)
Definition reads (stmt : Z) (ev : Event) : bool :=
  match ev with
  | EvColumnDouble s _ _ | EvColumnInt s _ _ | EvColumnBlob s _ _
  | EvColumnBytes s _ _ => s =? stmt
  | EvSetRegion _ _ _ => true
  | _ => false
  end.

(** Asking the engine for its error message, or writing to the log. *)
Definition reports (ev : Event) : bool :=
  match ev with
  | EvErrmsg _ _ | EvLog _ _ _ => true
  | _ => false
  end.

(** The shapes a query call gives to its dealings with the engine: none at
    all; or one statement that does not prepare, after which the failure
    may be reported; or one statement that prepares, has parameters bound,
    is stepped once, has columns read only if that step gave a row, and is
    finalized last. *)
Inductive query_protocol : list Event -> Prop :=
| protocol_no_call :
    query_protocol []
| protocol_not_prepared db sql rc stmt after :
    rc <> SQLITE_OK ->
    forallb reports after = true ->
    query_protocol (EvPrepare db sql rc stmt :: after)
| protocol_stepped db sql stmt params rc columns rcf :
    forallb (binds stmt) params = true ->
    forallb (reads stmt) columns = true ->
    (rc <> SQLITE_ROW -> columns = []) ->
    query_protocol
      (EvPrepare db sql SQLITE_OK stmt
       :: params ++ EvStep stmt rc :: columns ++ [EvFinalize stmt rcf]).

(** ** Requests for memory that are refused *)

(** The answer of the runtime to the next request for memory. *)
Definition next_request {E} (w : World E) : bool := hd true (alloc_plan w).

(** The runtime refuses the first or the second request for memory of a
    call. *)
Definition refused {E} (w : World E) : Prop :=
  next_request w && next_request (consume w) = false.

(** The source file an Array Marshaller operation is linked from. *)
Definition source_of (op : marshaller) : source_file :=
  match op with
  | SerializeFloat32 src | DeserializeFloat32 src | SerializeInt8 src => src
  | DeserializeInt8 => SourceC
  end.

(** The operations on float32 vectors. *)
Definition float32_marshaller (op : marshaller) : Prop :=
  match op with
  | SerializeFloat32 _ | DeserializeFloat32 _ => True
  | _ => False
  end.

(** The sizes [jsize] can carry: a Java array as input and, for
    [SerializeFloat32], a serialized size within [jsize]. *)
Definition fits (op : marshaller) (a : jarray) : Prop :=
  match op with
  | SerializeFloat32 _ => 4 * array_length a <= jsize_max
  | _ => java_array a
  end.

(** ** What a marshaller call may do to the world *)

(** How far a marshaller call working on the array [input] may have moved
    the world from [w]: it has allocated at most [k] arrays, has written to
    none of the arrays that were there, [input] apart, has not touched the
    engine and has recorded no call into it. *)
Definition marshalling {E} (k : nat) (input : loc) (w w' : World E) : Prop :=
  engine w' = engine w
  /\ filter (fun ev => is_engine_call ev) (trace w')
     = filter (fun ev => is_engine_call ev) (trace w)
  /\ (length (heap w) <= length (heap w') <= length (heap w) + k)%nat
  /\ forall (l : loc) (x : jarray),
       l <> input -> heap w !! l = Some x -> heap w' !! l = Some x.

(** * Properties *)

(** ** Facts about bytes and floats in memory *)

Lemma Z_of_byte_range (b : byte) : 0 <= Z_of_byte b < 256.
Proof.
  unfold Z_of_byte. pose proof (Byte.to_N_bounded b) as Hb.
  lia.
Qed.

Lemma Z_of_byte_of_Z (z : Z) : Z_of_byte (byte_of_Z z) = z mod 256.
Proof.
  unfold Z_of_byte, byte_of_Z.
  assert (Hr : 0 <= z mod 256 < 256) by (apply Z.mod_pos_bound; lia).
  destruct (Byte.of_N (Z.to_N (z mod 256))) as [b|] eqn:Hb.
  - apply Byte.to_of_N in Hb. rewrite Hb. lia.
  - apply Byte.of_N_None_iff in Hb. lia.
Qed.

Lemma byte_of_Z_of_byte (b : byte) : byte_of_Z (Z_of_byte b) = b.
Proof.
  pose proof (Z_of_byte_range b) as Hr.
  unfold byte_of_Z. rewrite Z.mod_small by lia.
  unfold Z_of_byte. rewrite N2Z.id, Byte.of_to_N. reflexivity.
Qed.

Lemma float_of_le_bytes (f : Z) :
  is_float32 f ->
  match float_le_bytes f with
  | [b0; b1; b2; b3] => float_of_le b0 b1 b2 b3 = f
  | _ => False
  end.
Proof.
  unfold is_float32, float_le_bytes, float_of_le. intros Hf.
  rewrite !Z_of_byte_of_Z.
  change (2 ^ 8) with 256. change (2 ^ 16) with 65536.
  change (2 ^ 24) with 16777216. change (2 ^ 32) with 4294967296 in Hf.
  Z.div_mod_to_equations. lia.
Qed.

Lemma load_store_float (host : byte_order) (f : Z) :
  is_float32 f ->
  match store_float host f with
  | [b0; b1; b2; b3] => load_float host b0 b1 b2 b3 = f
  | _ => False
  end.
Proof.
  intros Hf. pose proof (float_of_le_bytes f Hf) as H.
  destruct host; simpl; exact H.
Qed.

Lemma large_vector_length : Z.of_nat (length large_vector) = 2 ^ 30.
Proof.
  unfold large_vector. rewrite repeat_length. apply Z2Nat.id.
  apply Z.pow_nonneg. discriminate.
Qed.

(** ** Running the model: equations for the monad and for JNI *)

Section Steps.
Context {E : Type}.
Variable host : byte_order.
Implicit Types (w : World E) (arr : jobject) (bs : list byte).

Lemma bind_run {A B} (m : M E A) (f : A -> M E B) w :
  (m ≫= f) w
  = match m w with Ret a w' => f a w' | Undefined => Undefined end.
Proof. reflexivity. Qed.

Lemma ret_run {A} (a : A) w : (mret a : M E A) w = Ret a w.
Proof. reflexivity. Qed.

Lemma jni_alloc_granted w : granted w -> jni_alloc w = Ret true (consume w).
Proof.
  unfold granted, jni_alloc, consume, with_plan.
  destruct w as [h p e t]; simpl. destruct p as [|b p]; simpl.
  - reflexivity.
  - intros H. apply andb_true_iff in H as [Hb _].
    destruct b; [reflexivity | discriminate].
Qed.

Lemma granted_consume w : granted w -> granted (consume w).
Proof.
  unfold granted, consume; simpl. destruct (alloc_plan w) as [|b p]; simpl.
  - reflexivity.
  - intros H. apply andb_true_iff in H as [_ Hp]. exact Hp.
Qed.

Lemma jni_alloc_run w :
  exists b p, jni_alloc w = Ret b (with_plan p w).
Proof.
  unfold jni_alloc. destruct w as [h p e t]; simpl.
  destruct p as [|b p]; [exists true, [] | exists b, p]; reflexivity.
Qed.

Lemma deref_Some w arr a :
  deref w arr = Some a ->
  exists l, arr = Some l /\ heap w !! l = Some a /\ (l < length (heap w))%nat.
Proof.
  destruct arr as [l|]; simpl; [|discriminate]. intros H.
  exists l. split; [reflexivity|]. split; [exact H|].
  eapply lookup_lt_Some; exact H.
Qed.

(** Allocation leaves the objects already there where they are. *)
Lemma deref_app w w' arr a (l : list jarray) :
  heap w' = heap w ++ l -> deref w arr = Some a -> deref w' arr = Some a.
Proof.
  intros Hh H. destruct (deref_Some w arr a H) as (i & -> & Hi & _).
  simpl. rewrite Hh. apply lookup_app_l_Some. exact Hi.
Qed.

Lemma GetArrayLength_run w arr a :
  deref w arr = Some a -> GetArrayLength arr w = Ret (array_length a) w.
Proof. unfold GetArrayLength. intros ->. reflexivity. Qed.

Lemma GetByteArrayElements_run w arr bs :
  deref w arr = Some (JBytes bs) -> granted w ->
  GetByteArrayElements arr w = Ret (Some bs) (consume w).
Proof.
  unfold GetByteArrayElements. intros -> Hg.
  rewrite bind_run, (jni_alloc_granted w Hg). reflexivity.
Qed.

Lemma GetFloatArrayElements_run w arr fs :
  deref w arr = Some (JFloats fs) -> granted w ->
  GetFloatArrayElements host arr w
  = Ret (Some (bytes_of_floats host fs)) (consume w).
Proof.
  unfold GetFloatArrayElements. intros -> Hg.
  rewrite bind_run, (jni_alloc_granted w Hg). reflexivity.
Qed.

Lemma NewByteArray_run w n :
  0 <= n -> granted w ->
  NewByteArray n w
  = Ret (Some (length (heap w)))
      (with_heap (heap w ++ [JBytes (repeat x00 (Z.to_nat n))]) (consume w)).
Proof.
  intros Hn Hg. unfold NewByteArray.
  destruct (n <? 0) eqn:Hneg; [lia|].
  rewrite bind_run, (jni_alloc_granted w Hg). reflexivity.
Qed.

Lemma NewFloatArray_run w n :
  0 <= n -> granted w ->
  NewFloatArray n w
  = Ret (Some (length (heap w)))
      (with_heap (heap w ++ [JFloats (repeat 0 (Z.to_nat n))]) (consume w)).
Proof.
  intros Hn Hg. unfold NewFloatArray.
  destruct (n <? 0) eqn:Hneg; [lia|].
  rewrite bind_run, (jni_alloc_granted w Hg). reflexivity.
Qed.

Lemma splice_whole {A} (old src : list A) :
  length src = length old -> splice old 0 src = src.
Proof.
  intros Hlen. unfold splice. simpl. rewrite drop_ge by lia.
  apply app_nil_r.
Qed.

Lemma insert_last {A} (h : list A) (x y : A) :
  <[length h := y]> (h ++ [x]) = h ++ [y].
Proof.
  rewrite insert_app_r_alt by lia. rewrite Nat.sub_diag. reflexivity.
Qed.

Lemma lookup_last {A} (h : list A) (x : A) : (h ++ [x]) !! length h = Some x.
Proof. rewrite lookup_app_r by lia. rewrite Nat.sub_diag. reflexivity. Qed.

(** Filling a freshly made byte array from a buffer. *)
Lemma SetByteArrayRegion_fresh w h n bs :
  heap w = h ++ [JBytes (repeat x00 (Z.to_nat n))] ->
  0 <= n <= Z.of_nat (length bs) ->
  SetByteArrayRegion (Some (length h)) 0 n (Some bs) w
  = Ret tt (record (EvSetRegion (length h) 0 n)
              (with_heap (h ++ [JBytes (take (Z.to_nat n) bs)]) w)).
Proof.
  intros Hh Hn. unfold SetByteArrayRegion, deref. rewrite Hh, lookup_last.
  rewrite repeat_length.
  replace ((0 <? 0) || (n <? 0) || (Z.of_nat (Z.to_nat n) <? 0 + n))
    with false
    by (symmetry; rewrite !orb_false_iff, !Z.ltb_ge; lia).
  unfold read_bytes.
  replace (n <=? Z.of_nat (length bs)) with true by (symmetry; lia).
  rewrite splice_whole, insert_last; [reflexivity|].
  rewrite length_take, repeat_length. lia.
Qed.

Lemma read_bytes_length buf n src :
  0 <= n -> read_bytes buf n = Some src -> length src = Z.to_nat n.
Proof.
  intros Hn. unfold read_bytes. destruct buf as [bs|].
  - destruct (n <=? Z.of_nat (length bs)) eqn:Hle; [|discriminate].
    intros [= <-]. rewrite length_take. lia.
  - destruct (n =? 0) eqn:Hz; [|discriminate]. intros [= <-].
    apply Z.eqb_eq in Hz. subst n. reflexivity.
Qed.

(** Filling a freshly made byte array through any pointer that can be read
    for [n] bytes. *)
Lemma SetByteArrayRegion_fresh_read w h n buf src :
  heap w = h ++ [JBytes (repeat x00 (Z.to_nat n))] ->
  0 <= n ->
  read_bytes buf n = Some src ->
  SetByteArrayRegion (Some (length h)) 0 n buf w
  = Ret tt (record (EvSetRegion (length h) 0 n)
              (with_heap (h ++ [JBytes src]) w)).
Proof.
  intros Hh Hn Hread. unfold SetByteArrayRegion, deref.
  rewrite Hh, lookup_last, repeat_length.
  replace ((0 <? 0) || (n <? 0) || (Z.of_nat (Z.to_nat n) <? 0 + n))
    with false
    by (symmetry; rewrite !orb_false_iff, !Z.ltb_ge; lia).
  rewrite Hread.
  rewrite splice_whole, insert_last; [reflexivity|].
  rewrite repeat_length. eapply read_bytes_length; eassumption.
Qed.

Lemma floats_of_bytes_of_floats (v : list Z) (rest : list byte) :
  Forall is_float32 v ->
  floats_of_bytes host (length v) (bytes_of_floats host v ++ rest) = Some v.
Proof.
  induction 1 as [|f v Hf _ IH]; [reflexivity|].
  simpl. pose proof (load_store_float host f Hf) as Hls.
  destruct (store_float host f) as [|b0 [|b1 [|b2 [|b3 [|b4 tl]]]]];
    try contradiction.
  simpl. rewrite IH, Hls. reflexivity.
Qed.

Lemma length_bytes_of_floats (v : list Z) :
  length (bytes_of_floats host v) = (4 * length v)%nat.
Proof.
  induction v as [|f v IH]; [reflexivity|].
  unfold bytes_of_floats in *. simpl flat_map. rewrite length_app, IH.
  destruct host; simpl; lia.
Qed.

(** Filling a freshly made float array from a buffer that holds floats. *)
Lemma SetFloatArrayRegion_fresh w h n bs fs :
  heap w = h ++ [JFloats (repeat 0 (Z.to_nat n))] ->
  0 <= n ->
  floats_of_bytes host (Z.to_nat n) bs = Some fs ->
  length fs = Z.to_nat n ->
  SetFloatArrayRegion host (Some (length h)) 0 n (Some bs) w
  = Ret tt (record (EvSetRegion (length h) 0 n)
              (with_heap (h ++ [JFloats fs]) w)).
Proof.
  intros Hh Hn Hfs Hlen. unfold SetFloatArrayRegion, deref.
  rewrite Hh, lookup_last, repeat_length.
  replace ((0 <? 0) || (n <? 0) || (Z.of_nat (Z.to_nat n) <? 0 + n))
    with false
    by (symmetry; rewrite !orb_false_iff, !Z.ltb_ge; lia).
  unfold read_floats. rewrite Hfs.
  rewrite splice_whole, insert_last; [reflexivity|].
  rewrite repeat_length. exact Hlen.
Qed.

Lemma floats_of_bytes_length n bs fs :
  floats_of_bytes host n bs = Some fs -> length fs = n.
Proof.
  revert bs fs. induction n as [|n IH]; intros bs fs; simpl.
  - intros [= <-]. reflexivity.
  - destruct bs as [|b0 [|b1 [|b2 [|b3 rest]]]]; try discriminate.
    destruct (floats_of_bytes host n rest) as [fs'|] eqn:Hrest;
      [|discriminate].
    intros [= <-]. simpl. f_equal. eapply IH; exact Hrest.
Qed.

(** A buffer of at least [4 n] bytes can be read as [n] floats. *)
Lemma floats_of_bytes_total n bs :
  (4 * n <= length bs)%nat -> is_Some (floats_of_bytes host n bs).
Proof.
  revert bs. induction n as [|n IH]; intros bs Hlen; simpl; [eauto|].
  destruct bs as [|b0 [|b1 [|b2 [|b3 rest]]]]; simpl in Hlen; try lia.
  destruct (IH rest) as [fs Hfs]; [lia|]. rewrite Hfs. eauto.
Qed.

Lemma ReleaseByteArrayElements_abort w arr bs :
  deref w arr = Some (JBytes bs) ->
  ReleaseByteArrayElements arr (Some bs) JNI_ABORT w = Ret tt w.
Proof.
  intros H. destruct (deref_Some w arr _ H) as (l & -> & Hl & _).
  unfold ReleaseByteArrayElements. rewrite H, Nat.eqb_refl. reflexivity.
Qed.

Lemma ReleaseByteArrayElements_copy_back w arr bs :
  deref w arr = Some (JBytes bs) ->
  ReleaseByteArrayElements arr (Some bs) 0 w = Ret tt w.
Proof.
  intros H. destruct (deref_Some w arr _ H) as (l & -> & Hl & _).
  unfold ReleaseByteArrayElements. rewrite H, Nat.eqb_refl. simpl.
  rewrite list_insert_id by exact Hl. destruct w; reflexivity.
Qed.

Lemma ReleaseFloatArrayElements_abort w arr fs :
  deref w arr = Some (JFloats fs) ->
  ReleaseFloatArrayElements host arr (Some (bytes_of_floats host fs))
    JNI_ABORT w = Ret tt w.
Proof.
  intros H. destruct (deref_Some w arr _ H) as (l & -> & Hl & _).
  unfold ReleaseFloatArrayElements.
  rewrite H, length_bytes_of_floats, Nat.eqb_refl. reflexivity.
Qed.

Lemma ReleaseFloatArrayElements_copy_back w arr fs :
  deref w arr = Some (JFloats fs) -> Forall is_float32 fs ->
  ReleaseFloatArrayElements host arr (Some (bytes_of_floats host fs)) 0 w
  = Ret tt w.
Proof.
  intros H Hfs. destruct (deref_Some w arr _ H) as (l & -> & Hl & _).
  unfold ReleaseFloatArrayElements.
  rewrite H, length_bytes_of_floats, Nat.eqb_refl. simpl.
  pose proof (floats_of_bytes_of_floats fs [] Hfs) as Hrt.
  rewrite app_nil_r in Hrt. rewrite Hrt.
  rewrite list_insert_id by exact Hl. destruct w; reflexivity.
Qed.

End Steps.

Arguments to_jsize : simpl never.
Arguments size_t_mul : simpl never.
Arguments size_t_div : simpl never.
Arguments size_t_rem : simpl never.

(** ** Sizes *)

Lemma byte_length_exact (n : Z) :
  0 <= n -> 4 * n <= jsize_max ->
  to_jsize (size_t_mul n sizeof_float) = 4 * n.
Proof.
  unfold to_jsize, size_t_mul, to_size_t, sizeof_float, size_t_bits, jsize_max.
  intros Hn Hmax.
  change (2 ^ 64) with 18446744073709551616.
  change (2 ^ 32) with 4294967296. change (2 ^ 31) with 2147483648 in *.
  Z.div_mod_to_equations. lia.
Qed.

Lemma float_count_exact (n : Z) :
  0 <= n <= jsize_max ->
  to_jsize (size_t_div n sizeof_float) = n / 4.
Proof.
  unfold to_jsize, size_t_div, to_size_t, sizeof_float, size_t_bits, jsize_max.
  intros Hn.
  change (2 ^ 64) with 18446744073709551616.
  change (2 ^ 32) with 4294967296. change (2 ^ 31) with 2147483648 in *.
  Z.div_mod_to_equations. lia.
Qed.

Lemma byte_length_rem (n : Z) : size_t_rem n sizeof_float = n mod 4.
Proof.
  unfold size_t_rem, to_size_t, sizeof_float, size_t_bits.
  change (2 ^ 64) with 18446744073709551616.
  Z.div_mod_to_equations. lia.
Qed.

(** On an ABI with a 32-bit [size_t] the byte length that reaches
    [NewByteArray] is the same. *)
Lemma byte_length_any_abi (n : Z) :
  to_jsize ((n mod 2 ^ 32 * 4) mod 2 ^ 32)
  = to_jsize (size_t_mul n sizeof_float).
Proof.
  unfold to_jsize, size_t_mul, to_size_t, sizeof_float, size_t_bits.
  change (2 ^ 64) with 18446744073709551616.
  change (2 ^ 32) with 4294967296. change (2 ^ 31) with 2147483648 in *.
  Z.div_mod_to_equations. lia.
Qed.

(** ** What each Array Marshaller function does *)

Ltac world_simpl :=
  cbn [heap alloc_plan engine trace consume with_plan with_heap with_engine
       record is_null negb] in *.

(** Rewrites the copy into the array just made, the last object of the heap
    [h] extended by it. *)
Ltac fill_bytes h n :=
  match goal with
  | |- context [SetByteArrayRegion _ _ _ _ ?w0] =>
      rewrite (SetByteArrayRegion_fresh w0 h n _ eq_refl)
  end.

Ltac fill_floats host h n fs :=
  match goal with
  | |- context [SetFloatArrayRegion _ _ _ _ _ ?w0] =>
      rewrite (SetFloatArrayRegion_fresh host w0 h n _ fs eq_refl)
  end.

(** One step of a run: the call at the head of the goal is replaced by its
    result, given by the equation [H]. *)
Ltac run_with H :=
  rewrite bind_run, H; cbv beta iota; world_simpl.

Section Marshaller.
Context {E : Type}.
Variable host : byte_order.
Implicit Types (w : World E) (v : list Z) (bs : list byte).

Lemma cpp_SerializeFloat32_run w vec v n :
  deref w vec = Some (JFloats v) -> granted w ->
  n = to_jsize (size_t_mul (Z.of_nat (length v)) sizeof_float) ->
  0 <= n <= 4 * Z.of_nat (length v) ->
  makes w (JBytes (take (Z.to_nat n) (bytes_of_floats host v))) n
    (JniCpp.Java_com_sqlite_vec_SQLiteVec_nativeSerializeFloat32 host vec w).
Proof.
  intros Hv Hg Hn Hrange.
  unfold JniCpp.Java_com_sqlite_vec_SQLiteVec_nativeSerializeFloat32.
  rewrite bind_run, (GetArrayLength_run w vec _ Hv). cbv beta iota.
  rewrite bind_run, (GetFloatArrayElements_run host w vec v Hv Hg).
  cbv beta iota. world_simpl. cbv zeta. cbn [array_length]. rewrite <- Hn.
  rewrite bind_run,
    (NewByteArray_run _ n (proj1 Hrange) (granted_consume w Hg)).
  cbv beta iota. world_simpl.
  rewrite bind_run.
  fill_bytes (heap w) n; [|rewrite length_bytes_of_floats; lia].
  cbv beta iota. world_simpl.
  rewrite bind_run.
  rewrite (ReleaseFloatArrayElements_abort host _ vec v)
    by (eapply deref_app; [reflexivity | exact Hv]).
  cbv beta iota. rewrite ret_run.
  eexists. split; [reflexivity|]. world_simpl.
  repeat split. do 2 apply granted_consume. exact Hg.
Qed.

Lemma take_bytes_of_floats v :
  take (Z.to_nat (4 * Z.of_nat (length v))) (bytes_of_floats host v)
  = bytes_of_floats host v.
Proof. apply take_ge. rewrite length_bytes_of_floats. lia. Qed.

Lemma cpp_SerializeFloat32_exact w vec v :
  deref w vec = Some (JFloats v) -> granted w ->
  4 * Z.of_nat (length v) <= jsize_max ->
  makes w (JBytes (bytes_of_floats host v)) (4 * Z.of_nat (length v))
    (JniCpp.Java_com_sqlite_vec_SQLiteVec_nativeSerializeFloat32 host vec w).
Proof.
  intros Hv Hg Hmax. rewrite <- (take_bytes_of_floats v) at 1.
  apply cpp_SerializeFloat32_run; try assumption; [|lia].
  symmetry. apply byte_length_exact; lia.
Qed.

Lemma c_SerializeFloat32_exact w vec v :
  deref w vec = Some (JFloats v) -> granted w -> Forall is_float32 v ->
  4 * Z.of_nat (length v) <= jsize_max ->
  makes w (JBytes (bytes_of_floats host v)) (4 * Z.of_nat (length v))
    (JniC.Java_com_sqlite_vec_SQLiteVec_nativeSerializeFloat32 host vec w).
Proof.
  intros Hv Hg Hwf Hmax.
  unfold JniC.Java_com_sqlite_vec_SQLiteVec_nativeSerializeFloat32.
  run_with (GetArrayLength_run w vec _ Hv).
  run_with (GetFloatArrayElements_run host w vec v Hv Hg).
  cbn [array_length]. rewrite byte_length_exact by lia.
  run_with (NewByteArray_run (consume w) (4 * Z.of_nat (length v))
              ltac:(lia) (granted_consume w Hg)).
  rewrite bind_run.
  fill_bytes (heap w) (4 * Z.of_nat (length v));
    [|rewrite length_bytes_of_floats; lia].
  cbv beta iota. world_simpl. rewrite bind_run.
  rewrite (ReleaseFloatArrayElements_copy_back host _ vec v)
    by first [exact Hwf | eapply deref_app; [reflexivity | exact Hv]].
  cbv beta iota. rewrite ret_run, take_bytes_of_floats.
  eexists. split; [reflexivity|]. world_simpl.
  repeat split. do 2 apply granted_consume. exact Hg.
Qed.

Lemma floats_in_fits bs : (4 * floats_in bs <= length bs)%nat.
Proof. unfold floats_in. Z.div_mod_to_equations. lia. Qed.

Lemma c_DeserializeFloat32_run w data bs :
  deref w data = Some (JBytes bs) -> granted w -> java_array (JBytes bs) ->
  exists fs,
    floats_of_bytes host (floats_in bs) bs = Some fs
    /\ makes w (JFloats fs) (Z.of_nat (length bs) / 4)
         (JniC.Java_com_sqlite_vec_SQLiteVec_nativeDeserializeFloat32
            host data w).
Proof.
  intros Hd Hg Hmax. unfold java_array in Hmax. cbn [array_length] in Hmax.
  destruct (floats_of_bytes_total host _ bs (floats_in_fits bs))
    as [fs Hfs].
  exists fs. split; [exact Hfs|].
  pose proof (floats_of_bytes_length host _ _ _ Hfs) as Hlen.
  assert (Hdiv : 0 <= Z.of_nat (length bs) / 4)
    by (Z.div_mod_to_equations; lia).
  unfold JniC.Java_com_sqlite_vec_SQLiteVec_nativeDeserializeFloat32.
  run_with (GetArrayLength_run w data _ Hd).
  run_with (GetByteArrayElements_run w data bs Hd Hg).
  cbv zeta. cbn [array_length]. rewrite float_count_exact by lia.
  run_with (NewFloatArray_run (consume w) _ Hdiv (granted_consume w Hg)).
  rewrite bind_run.
  fill_floats host (heap w) (Z.of_nat (length bs) / 4) fs;
    [|exact Hdiv|exact Hfs|exact Hlen].
  cbv beta iota. world_simpl. rewrite bind_run.
  rewrite (ReleaseByteArrayElements_copy_back _ data bs)
    by (eapply deref_app; [reflexivity | exact Hd]).
  cbv beta iota. rewrite ret_run.
  eexists. split; [reflexivity|]. world_simpl.
  repeat split. do 2 apply granted_consume. exact Hg.
Qed.

Lemma cpp_DeserializeFloat32_run w data bs :
  deref w data = Some (JBytes bs) -> granted w -> java_array (JBytes bs) ->
  Z.of_nat (length bs) mod 4 = 0 ->
  exists fs,
    floats_of_bytes host (floats_in bs) bs = Some fs
    /\ makes w (JFloats fs) (Z.of_nat (length bs) / 4)
         (JniCpp.Java_com_sqlite_vec_SQLiteVec_nativeDeserializeFloat32
            host data w).
Proof.
  intros Hd Hg Hmax Hmod. unfold java_array in Hmax.
  cbn [array_length] in Hmax.
  destruct (floats_of_bytes_total host _ bs (floats_in_fits bs))
    as [fs Hfs].
  exists fs. split; [exact Hfs|].
  pose proof (floats_of_bytes_length host _ _ _ Hfs) as Hlen.
  assert (Hdiv : 0 <= Z.of_nat (length bs) / 4)
    by (Z.div_mod_to_equations; lia).
  unfold JniCpp.Java_com_sqlite_vec_SQLiteVec_nativeDeserializeFloat32.
  run_with (GetArrayLength_run w data _ Hd).
  run_with (GetByteArrayElements_run w data bs Hd Hg).
  cbn [array_length]. rewrite byte_length_rem, Hmod. cbn [Z.eqb negb orb].
  cbv zeta. rewrite float_count_exact by lia.
  run_with (NewFloatArray_run (consume w) _ Hdiv (granted_consume w Hg)).
  rewrite bind_run.
  fill_floats host (heap w) (Z.of_nat (length bs) / 4) fs;
    [|exact Hdiv|exact Hfs|exact Hlen].
  cbv beta iota. world_simpl. rewrite bind_run.
  rewrite (ReleaseByteArrayElements_abort _ data bs)
    by (eapply deref_app; [reflexivity | exact Hd]).
  cbv beta iota. rewrite ret_run.
  eexists. split; [reflexivity|]. world_simpl.
  repeat split. do 2 apply granted_consume. exact Hg.
Qed.

(** A buffer whose length is not a multiple of 4 is turned down by the
    C++ source, whatever the runtime does. *)
Lemma cpp_DeserializeFloat32_reject w data bs :
  deref w data = Some (JBytes bs) ->
  Z.of_nat (length bs) mod 4 <> 0 ->
  exists w',
    JniCpp.Java_com_sqlite_vec_SQLiteVec_nativeDeserializeFloat32
      host data w = Ret None w'
    /\ heap w' = heap w /\ engine w' = engine w /\ trace w' = trace w.
Proof.
  intros Hd Hmod.
  unfold JniCpp.Java_com_sqlite_vec_SQLiteVec_nativeDeserializeFloat32.
  run_with (GetArrayLength_run w data _ Hd).
  rewrite bind_run. unfold GetByteArrayElements at 1. rewrite Hd.
  rewrite bind_run. destruct (jni_alloc_run w) as (b & p & ->).
  cbv beta iota. rewrite ret_run.
  cbn [array_length]. rewrite byte_length_rem.
  destruct (Z.of_nat (length bs) mod 4 =? 0) eqn:Hz; [lia|].
  destruct b; world_simpl; cbn [orb].
  - rewrite bind_run.
    rewrite (ReleaseByteArrayElements_abort _ data bs) by exact Hd.
    rewrite ret_run. eexists. split; [reflexivity|]. repeat split.
  - rewrite bind_run, !ret_run. eexists. split; [reflexivity|].
    repeat split.
Qed.

Lemma take_all_bytes bs : take (Z.to_nat (Z.of_nat (length bs))) bs = bs.
Proof. apply take_ge. lia. Qed.

Lemma c_SerializeInt8_run w vector bs :
  deref w vector = Some (JBytes bs) -> granted w ->
  makes w (JBytes bs) (Z.of_nat (length bs))
    (JniC.Java_com_sqlite_vec_SQLiteVec_nativeSerializeInt8 vector w).
Proof.
  intros Hd Hg.
  unfold JniC.Java_com_sqlite_vec_SQLiteVec_nativeSerializeInt8.
  run_with (GetArrayLength_run w vector _ Hd).
  run_with (GetByteArrayElements_run w vector bs Hd Hg).
  cbn [array_length].
  run_with (NewByteArray_run (consume w) (Z.of_nat (length bs))
              ltac:(lia) (granted_consume w Hg)).
  rewrite bind_run.
  fill_bytes (heap w) (Z.of_nat (length bs)); [|lia].
  cbv beta iota. world_simpl. rewrite bind_run.
  rewrite (ReleaseByteArrayElements_copy_back _ vector bs)
    by (eapply deref_app; [reflexivity | exact Hd]).
  cbv beta iota. rewrite ret_run, take_all_bytes.
  eexists. split; [reflexivity|]. world_simpl.
  repeat split. do 2 apply granted_consume. exact Hg.
Qed.

Lemma c_DeserializeInt8_run w data bs :
  deref w data = Some (JBytes bs) -> granted w ->
  makes w (JBytes bs) (Z.of_nat (length bs))
    (JniC.Java_com_sqlite_vec_SQLiteVec_nativeDeserializeInt8 data w).
Proof. exact (c_SerializeInt8_run w data bs). Qed.

Lemma cpp_SerializeInt8_run w vector bs :
  deref w vector = Some (JBytes bs) -> granted w ->
  makes w (JBytes bs) (Z.of_nat (length bs))
    (JniCpp.Java_com_sqlite_vec_SQLiteVec_nativeSerializeInt8 vector w).
Proof.
  intros Hd Hg.
  unfold JniCpp.Java_com_sqlite_vec_SQLiteVec_nativeSerializeInt8.
  run_with (GetArrayLength_run w vector _ Hd).
  cbn [array_length].
  run_with (NewByteArray_run w (Z.of_nat (length bs)) ltac:(lia) Hg).
  rewrite bind_run.
  match goal with
  | |- context [(GetByteArrayElements vector ≫= _) ?w0] =>
      rewrite bind_run, (GetByteArrayElements_run w0 vector bs)
  end; [|eapply deref_app; [reflexivity | exact Hd]
        |apply granted_consume; exact Hg].
  cbv beta iota. world_simpl. rewrite bind_run.
  fill_bytes (heap w) (Z.of_nat (length bs)); [|lia].
  cbv beta iota. world_simpl.
  rewrite (ReleaseByteArrayElements_abort _ vector bs)
    by (eapply deref_app; [reflexivity | exact Hd]).
  rewrite ret_run, take_all_bytes.
  eexists. split; [reflexivity|]. world_simpl.
  repeat split. do 2 apply granted_consume. exact Hg.
Qed.

End Marshaller.

(** ** Looking back from a call that returned

    The equations above follow a run forward under assumptions about the
    runtime.  The lemmas of this section go the other way: whatever the
    runtime and the engine did, a call that returned has left a world
    related to the one it started in. *)

Section Effects.
Context {E : Type}.
Variable host : byte_order.
Implicit Types (w : World E) (arr : jobject) (bs : list byte).

Lemma same_objects_refl w : same_objects w w.
Proof. repeat split. Qed.

Lemma bind_inv {A B} (m : M E A) (f : A -> M E B) w b w' :
  (m ≫= f) w = Ret b w' ->
  exists a w1, m w = Ret a w1 /\ f a w1 = Ret b w'.
Proof.
  rewrite bind_run. destruct (m w) as [a w1|]; [|discriminate].
  intros H. exists a, w1. split; [reflexivity | exact H].
Qed.

Lemma ret_inv {A} (a b : A) w w' :
  (mret a : M E A) w = Ret b w' -> b = a /\ w' = w.
Proof. rewrite ret_run. intros [= -> ->]. split; reflexivity. Qed.

Lemma undefined_inv {A} (b : A) w w' : undefined w = Ret b w' -> False.
Proof. discriminate. Qed.

Lemma jni_alloc_inv w b w' :
  jni_alloc w = Ret b w' -> same_objects w w'.
Proof.
  destruct (jni_alloc_run w) as (b0 & p & ->). intros [= _ <-].
  repeat split.
Qed.

Lemma GetArrayLength_inv w arr n w' :
  GetArrayLength arr w = Ret n w' ->
  w' = w /\ exists a, deref w arr = Some a /\ n = array_length a.
Proof.
  unfold GetArrayLength. destruct (deref w arr) as [a|]; [|discriminate].
  intros [= <- <-]. split; [reflexivity|]. exists a. split; reflexivity.
Qed.

Lemma GetByteArrayElements_inv w arr buf w' :
  GetByteArrayElements arr w = Ret buf w' ->
  same_objects w w'
  /\ exists bs, deref w arr = Some (JBytes bs)
                /\ (buf = None \/ buf = Some bs).
Proof.
  unfold GetByteArrayElements.
  destruct (deref w arr) as [[bs|fs]|]; try discriminate.
  intros H. apply bind_inv in H as (b & w1 & Ha & H).
  apply jni_alloc_inv in Ha. apply ret_inv in H as [-> ->].
  split; [exact Ha|]. exists bs. split; [reflexivity|].
  destruct b; [right | left]; reflexivity.
Qed.

Lemma GetFloatArrayElements_inv w arr buf w' :
  GetFloatArrayElements host arr w = Ret buf w' ->
  same_objects w w'
  /\ exists fs, deref w arr = Some (JFloats fs)
                /\ (buf = None \/ buf = Some (bytes_of_floats host fs)).
Proof.
  unfold GetFloatArrayElements.
  destruct (deref w arr) as [[bs|fs]|]; try discriminate.
  intros H. apply bind_inv in H as (b & w1 & Ha & H).
  apply jni_alloc_inv in Ha. apply ret_inv in H as [-> ->].
  split; [exact Ha|]. exists fs. split; [reflexivity|].
  destruct b; [right | left]; reflexivity.
Qed.

Lemma new_object_inv w a r w' :
  new_object a w = Ret r w' ->
  r = Some (length (heap w)) /\ heap w' = heap w ++ [a]
  /\ engine w' = engine w /\ trace w' = trace w.
Proof. unfold new_object. intros [= <- <-]. repeat split. Qed.

Lemma NewByteArray_inv w n r w' :
  NewByteArray n w = Ret r w' -> allocated w w' r.
Proof.
  unfold NewByteArray, allocated. destruct (n <? 0).
  - intros H. apply ret_inv in H as [-> ->]. repeat split. left. easy.
  - intros H. apply bind_inv in H as (b & w1 & Ha & H).
    apply jni_alloc_inv in Ha as (Hh & He & Ht). destruct b.
    + apply new_object_inv in H as (-> & Hh' & He' & Ht').
      rewrite He', Ht', He, Ht, Hh', Hh. repeat split. right. eauto.
    + apply ret_inv in H as [-> ->]. repeat split; try assumption.
      left. easy.
Qed.

Lemma NewFloatArray_inv w n r w' :
  NewFloatArray n w = Ret r w' -> allocated w w' r.
Proof.
  unfold NewFloatArray, allocated. destruct (n <? 0).
  - intros H. apply ret_inv in H as [-> ->]. repeat split. left. easy.
  - intros H. apply bind_inv in H as (b & w1 & Ha & H).
    apply jni_alloc_inv in Ha as (Hh & He & Ht). destruct b.
    + apply new_object_inv in H as (-> & Hh' & He' & Ht').
      rewrite He', Ht', He, Ht, Hh', Hh. repeat split. right. eauto.
    + apply ret_inv in H as [-> ->]. repeat split; try assumption.
      left. easy.
Qed.

Lemma SetByteArrayRegion_inv w arr start len buf u w' :
  SetByteArrayRegion arr start len buf w = Ret u w' ->
  copied_into w w' arr start len.
Proof.
  unfold SetByteArrayRegion, copied_into. destruct u.
  destruct arr as [l|]; [|discriminate].
  destruct (deref w (Some l)) as [[old|old]|]; try discriminate.
  destruct ((start <? 0) || (len <? 0) || _).
  - intros [= <-]. split; [reflexivity|]. exists l. split; [reflexivity|].
    left. split; reflexivity.
  - destruct (read_bytes buf len) as [src|]; [|discriminate].
    intros [= <-]. split; [reflexivity|]. exists l. split; [reflexivity|].
    right. eexists. split; reflexivity.
Qed.

Lemma SetFloatArrayRegion_inv w arr start len buf u w' :
  SetFloatArrayRegion host arr start len buf w = Ret u w' ->
  copied_into w w' arr start len.
Proof.
  unfold SetFloatArrayRegion, copied_into. destruct u.
  destruct arr as [l|]; [|discriminate].
  destruct (deref w (Some l)) as [[old|old]|]; try discriminate.
  destruct ((start <? 0) || (len <? 0) || _).
  - intros [= <-]. split; [reflexivity|]. exists l. split; [reflexivity|].
    left. split; reflexivity.
  - destruct (read_floats host buf len) as [src|]; [|discriminate].
    intros [= <-]. split; [reflexivity|]. exists l. split; [reflexivity|].
    right. eexists. split; reflexivity.
Qed.

(** Giving a buffer back changes nothing but, when the mode asks for it,
    the array the buffer is copied back to. *)
Lemma ReleaseByteArrayElements_inv w arr elems mode u w' :
  ReleaseByteArrayElements arr elems mode w = Ret u w' ->
  engine w' = engine w /\ trace w' = trace w
  /\ (heap w' = heap w
      \/ exists l bs, arr = Some l /\ elems = Some bs
                      /\ heap w' = <[l := JBytes bs]> (heap w)).
Proof.
  unfold ReleaseByteArrayElements. destruct u.
  destruct arr as [l|]; [|discriminate].
  destruct (deref w (Some l)) as [[old|old]|]; try discriminate.
  destruct elems as [bs|]; [|discriminate].
  destruct (negb _); [discriminate|].
  destruct (mode =? JNI_ABORT); intros [= <-]; repeat split.
  - left. reflexivity.
  - right. exists l, bs. repeat split.
Qed.

Lemma ReleaseFloatArrayElements_inv w arr elems mode u w' :
  ReleaseFloatArrayElements host arr elems mode w = Ret u w' ->
  engine w' = engine w /\ trace w' = trace w
  /\ (heap w' = heap w
      \/ exists l bs old fs,
           arr = Some l /\ elems = Some bs
           /\ heap w !! l = Some (JFloats old)
           /\ floats_of_bytes host (length old) bs = Some fs
           /\ heap w' = <[l := JFloats fs]> (heap w)).
Proof.
  unfold ReleaseFloatArrayElements. destruct u.
  destruct arr as [l|]; [|discriminate].
  destruct (deref w (Some l)) as [[old|old]|] eqn:Hd; try discriminate.
  destruct elems as [bs|]; [|discriminate].
  destruct (negb _); [discriminate|].
  destruct (mode =? JNI_ABORT).
  - intros [= <-]. repeat split. left. reflexivity.
  - destruct (floats_of_bytes host (length old) bs) as [fs|] eqn:Hfs;
      [|discriminate].
    intros [= <-]. repeat split. right. exists l, bs, old, fs.
    repeat split; assumption.
Qed.

Lemma GetStringUTFChars_inv w s chars w' :
  GetStringUTFChars s w = Ret chars w' ->
  same_objects w w' /\ (chars = None \/ chars = Some (mutf8 s)).
Proof.
  unfold GetStringUTFChars. intros H.
  apply bind_inv in H as (b & w1 & Ha & H).
  apply jni_alloc_inv in Ha. apply ret_inv in H as [-> ->].
  split; [exact Ha|]. destruct b; [right | left]; reflexivity.
Qed.

Lemma ReleaseStringUTFChars_inv w s chars u w' :
  ReleaseStringUTFChars s chars w = Ret u w' -> w' = w.
Proof.
  unfold ReleaseStringUTFChars. destruct chars; [|discriminate].
  intros H. apply ret_inv in H as [_ ->]. reflexivity.
Qed.

Lemma emit_inv w ev u w' :
  emit ev w = Ret u w' ->
  heap w' = heap w /\ engine w' = engine w /\ trace w' = trace w ++ [ev].
Proof. unfold emit. destruct u. intros [= <-]. repeat split. Qed.

(** A call into the engine leaves the Java heap alone and is recorded. *)
Lemma call_inv {A} (f : E -> A * E) (ev : A -> Event) w a w' :
  call f ev w = Ret a w' ->
  heap w' = heap w /\ trace w' = trace w ++ [ev a]
  /\ f (engine w) = (a, engine w').
Proof.
  unfold call. destruct (f (engine w)) as [a0 e]. intros [= <- <-].
  repeat split.
Qed.

End Effects.

(** ** The input array of a marshaller call *)

Section Frame.
Context {E : Type}.
Variable host : byte_order.
Implicit Types (w : World E) (l : loc) (a : jarray).

Lemma same_objects_keeps w w' l a :
  same_objects w w' -> heap w !! l = Some a -> heap w' !! l = Some a.
Proof. intros (-> & _ & _). trivial. Qed.

Lemma allocated_keeps w w' r l a :
  allocated w w' r -> heap w !! l = Some a ->
  heap w' !! l = Some a /\ r <> Some l.
Proof.
  intros (_ & _ & [[-> ->] | (x & -> & ->)]) Hl; [easy|].
  split; [apply lookup_app_l_Some; exact Hl|].
  apply lookup_lt_Some in Hl. intros [= Heq]. lia.
Qed.

Lemma copied_into_keeps w w' r start len l a :
  copied_into w w' r start len -> r <> Some l ->
  heap w !! l = Some a -> heap w' !! l = Some a.
Proof.
  intros (_ & l0 & -> & [[-> _] | (x & -> & _)]) Hne Hl; [exact Hl|].
  rewrite list_lookup_insert_ne by congruence. exact Hl.
Qed.

(** A skipped or executed copy into the array just made. *)
Lemma guarded_copy_keeps (m : M E unit) w w' r start len u l a :
  (if negb (is_null r) then m else mret tt) w = Ret u w' ->
  (m w = Ret u w' -> copied_into w w' r start len) ->
  r <> Some l -> heap w !! l = Some a -> heap w' !! l = Some a.
Proof.
  destruct r as [l0|]; simpl.
  - intros H Hm. apply (copied_into_keeps _ _ _ start len). exact (Hm H).
  - intros H _ _. apply ret_inv in H as [_ ->]. trivial.
Qed.

Lemma release_bytes_keeps w w' l elems mode u bs :
  ReleaseByteArrayElements (Some l) elems mode w = Ret u w' ->
  elems = None \/ elems = Some bs ->
  heap w !! l = Some (JBytes bs) -> heap w' !! l = Some (JBytes bs).
Proof.
  intros H Helems Hl.
  apply ReleaseByteArrayElements_inv in H
    as (_ & _ & [-> | (l0 & bs0 & [= <-] & -> & ->)]); [exact Hl|].
  destruct Helems as [|[= ->]]; [discriminate|].
  apply list_lookup_insert_eq. eapply lookup_lt_Some; exact Hl.
Qed.

Lemma release_floats_keeps w w' l elems mode u v :
  ReleaseFloatArrayElements host (Some l) elems mode w = Ret u w' ->
  elems = None \/ elems = Some (bytes_of_floats host v) ->
  Forall is_float32 v ->
  heap w !! l = Some (JFloats v) -> heap w' !! l = Some (JFloats v).
Proof.
  intros H Helems Hwf Hl.
  apply ReleaseFloatArrayElements_inv in H
    as (_ & _ & [-> | (l0 & bs0 & old & fs & [= <-] & -> & Hold & Hfs & ->)]);
    [exact Hl|].
  destruct Helems as [|[= ->]]; [discriminate|].
  rewrite Hl in Hold. injection Hold as <-.
  pose proof (floats_of_bytes_of_floats host v [] Hwf) as Hrt.
  rewrite app_nil_r, Hfs in Hrt. injection Hrt as ->.
  apply list_lookup_insert_eq. eapply lookup_lt_Some; exact Hl.
Qed.

End Frame.

(** Peels the next call off a run that returned. *)
Tactic Notation "next_call" hyp(H) ident(x) ident(w1) ident(Hx) :=
  apply bind_inv in H as (x & w1 & Hx & H).

Section FrameOfMarshallers.
Context {E : Type}.
Variable host : byte_order.
Implicit Types (w : World E) (l : loc) (v : list Z) (bs : list byte).

Lemma c_SerializeFloat32_keeps w l v r w' :
  heap w !! l = Some (JFloats v) -> Forall is_float32 v ->
  JniC.Java_com_sqlite_vec_SQLiteVec_nativeSerializeFloat32 host (Some l) w
  = Ret r w' ->
  heap w' !! l = Some (JFloats v).
Proof.
  intros Hl Hwf H.
  unfold JniC.Java_com_sqlite_vec_SQLiteVec_nativeSerializeFloat32 in H.
  next_call H len w1 H1. apply GetArrayLength_inv in H1 as [-> _].
  next_call H elems w2 H2.
  apply GetFloatArrayElements_inv in H2 as (Hs & fs & Hd & Helems).
  simpl in Hd. rewrite Hl in Hd. injection Hd as <-.
  apply (same_objects_keeps _ _ l _ Hs) in Hl.
  next_call H result w3 H3. apply NewByteArray_inv in H3.
  destruct (allocated_keeps _ _ _ l _ H3 Hl) as [Hl3 Hne].
  next_call H u w4 H4. apply SetByteArrayRegion_inv in H4.
  pose proof (copied_into_keeps _ _ _ _ _ l _ H4 Hne Hl3) as Hl4.
  next_call H u' w5 H5.
  pose proof (release_floats_keeps host _ _ _ _ _ _ _ H5 Helems Hwf Hl4)
    as Hl5.
  apply ret_inv in H as [_ ->]. exact Hl5.
Qed.

Lemma cpp_SerializeFloat32_keeps w l v r w' :
  heap w !! l = Some (JFloats v) -> Forall is_float32 v ->
  JniCpp.Java_com_sqlite_vec_SQLiteVec_nativeSerializeFloat32 host (Some l) w
  = Ret r w' ->
  heap w' !! l = Some (JFloats v).
Proof.
  intros Hl Hwf H.
  unfold JniCpp.Java_com_sqlite_vec_SQLiteVec_nativeSerializeFloat32 in H.
  next_call H len w1 H1. apply GetArrayLength_inv in H1 as [-> _].
  next_call H elems w2 H2.
  apply GetFloatArrayElements_inv in H2 as (Hs & fs & Hd & Helems).
  simpl in Hd. rewrite Hl in Hd. injection Hd as <-.
  apply (same_objects_keeps _ _ l _ Hs) in Hl.
  destruct (is_null elems).
  { apply ret_inv in H as [_ ->]. exact Hl. }
  cbv zeta in H.
  next_call H result w3 H3. apply NewByteArray_inv in H3.
  destruct (allocated_keeps _ _ _ l _ H3 Hl) as [Hl3 Hne].
  next_call H u w4 H4.
  pose proof (guarded_copy_keeps _ _ _ _ _ _ _ l _ H4
                (SetByteArrayRegion_inv _ _ _ _ _ _ _) Hne Hl3) as Hl4.
  next_call H u' w5 H5.
  pose proof (release_floats_keeps host _ _ _ _ _ _ _ H5 Helems Hwf Hl4)
    as Hl5.
  apply ret_inv in H as [_ ->]. exact Hl5.
Qed.

Lemma c_DeserializeFloat32_keeps w l bs r w' :
  heap w !! l = Some (JBytes bs) ->
  JniC.Java_com_sqlite_vec_SQLiteVec_nativeDeserializeFloat32 host (Some l) w
  = Ret r w' ->
  heap w' !! l = Some (JBytes bs).
Proof.
  intros Hl H.
  unfold JniC.Java_com_sqlite_vec_SQLiteVec_nativeDeserializeFloat32 in H.
  next_call H len w1 H1. apply GetArrayLength_inv in H1 as [-> _].
  next_call H elems w2 H2.
  apply GetByteArrayElements_inv in H2 as (Hs & bs0 & Hd & Helems).
  simpl in Hd. rewrite Hl in Hd. injection Hd as <-.
  apply (same_objects_keeps _ _ l _ Hs) in Hl.
  cbv zeta in H.
  next_call H result w3 H3. apply NewFloatArray_inv in H3.
  destruct (allocated_keeps _ _ _ l _ H3 Hl) as [Hl3 Hne].
  next_call H u w4 H4. apply SetFloatArrayRegion_inv in H4.
  pose proof (copied_into_keeps _ _ _ _ _ l _ H4 Hne Hl3) as Hl4.
  next_call H u' w5 H5.
  pose proof (release_bytes_keeps _ _ _ _ _ _ _ H5 Helems Hl4) as Hl5.
  apply ret_inv in H as [_ ->]. exact Hl5.
Qed.

Lemma cpp_DeserializeFloat32_keeps w l bs r w' :
  heap w !! l = Some (JBytes bs) ->
  JniCpp.Java_com_sqlite_vec_SQLiteVec_nativeDeserializeFloat32 host
    (Some l) w = Ret r w' ->
  heap w' !! l = Some (JBytes bs).
Proof.
  intros Hl H.
  unfold JniCpp.Java_com_sqlite_vec_SQLiteVec_nativeDeserializeFloat32 in H.
  next_call H len w1 H1. apply GetArrayLength_inv in H1 as [-> _].
  next_call H elems w2 H2.
  apply GetByteArrayElements_inv in H2 as (Hs & bs0 & Hd & Helems).
  simpl in Hd. rewrite Hl in Hd. injection Hd as <-.
  apply (same_objects_keeps _ _ l _ Hs) in Hl.
  destruct (is_null elems || _).
  - next_call H u w3 H3. apply ret_inv in H as [_ ->].
    destruct (negb (is_null elems)).
    + exact (release_bytes_keeps _ _ _ _ _ _ _ H3 Helems Hl).
    + apply ret_inv in H3 as [_ ->]. exact Hl.
  - cbv zeta in H.
    next_call H result w3 H3. apply NewFloatArray_inv in H3.
    destruct (allocated_keeps _ _ _ l _ H3 Hl) as [Hl3 Hne].
    next_call H u w4 H4.
    pose proof (guarded_copy_keeps _ _ _ _ _ _ _ l _ H4
                  (SetFloatArrayRegion_inv host _ _ _ _ _ _ _) Hne Hl3)
      as Hl4.
    next_call H u' w5 H5.
    pose proof (release_bytes_keeps _ _ _ _ _ _ _ H5 Helems Hl4) as Hl5.
    apply ret_inv in H as [_ ->]. exact Hl5.
Qed.

Lemma c_SerializeInt8_keeps w l bs r w' :
  heap w !! l = Some (JBytes bs) ->
  JniC.Java_com_sqlite_vec_SQLiteVec_nativeSerializeInt8 (Some l) w
  = Ret r w' ->
  heap w' !! l = Some (JBytes bs).
Proof.
  intros Hl H.
  unfold JniC.Java_com_sqlite_vec_SQLiteVec_nativeSerializeInt8 in H.
  next_call H len w1 H1. apply GetArrayLength_inv in H1 as [-> _].
  next_call H elems w2 H2.
  apply GetByteArrayElements_inv in H2 as (Hs & bs0 & Hd & Helems).
  simpl in Hd. rewrite Hl in Hd. injection Hd as <-.
  apply (same_objects_keeps _ _ l _ Hs) in Hl.
  next_call H result w3 H3. apply NewByteArray_inv in H3.
  destruct (allocated_keeps _ _ _ l _ H3 Hl) as [Hl3 Hne].
  next_call H u w4 H4. apply SetByteArrayRegion_inv in H4.
  pose proof (copied_into_keeps _ _ _ _ _ l _ H4 Hne Hl3) as Hl4.
  next_call H u' w5 H5.
  pose proof (release_bytes_keeps _ _ _ _ _ _ _ H5 Helems Hl4) as Hl5.
  apply ret_inv in H as [_ ->]. exact Hl5.
Qed.

Lemma cpp_SerializeInt8_keeps w l bs r w' :
  heap w !! l = Some (JBytes bs) ->
  JniCpp.Java_com_sqlite_vec_SQLiteVec_nativeSerializeInt8 (Some l) w
  = Ret r w' ->
  heap w' !! l = Some (JBytes bs).
Proof.
  intros Hl H.
  unfold JniCpp.Java_com_sqlite_vec_SQLiteVec_nativeSerializeInt8 in H.
  next_call H len w1 H1. apply GetArrayLength_inv in H1 as [-> _].
  next_call H result w3 H3. apply NewByteArray_inv in H3.
  destruct (allocated_keeps _ _ _ l _ H3 Hl) as [Hl3 Hne].
  next_call H u w4 H4. apply ret_inv in H as [_ ->].
  destruct (negb (is_null result));
    [|apply ret_inv in H4 as [_ ->]; exact Hl3].
  next_call H4 elems w5 H5.
  apply GetByteArrayElements_inv in H5 as (Hs & bs0 & Hd & Helems).
  simpl in Hd. rewrite Hl3 in Hd. injection Hd as <-.
  apply (same_objects_keeps _ _ l _ Hs) in Hl3.
  destruct (negb (is_null elems));
    [|apply ret_inv in H4 as [_ ->]; exact Hl3].
  next_call H4 u' w6 H6. apply SetByteArrayRegion_inv in H6.
  pose proof (copied_into_keeps _ _ _ _ _ l _ H6 Hne Hl3) as Hl6.
  exact (release_bytes_keeps _ _ _ _ _ _ _ H4 Helems Hl6).
Qed.

End FrameOfMarshallers.

(** C10.  Every Array Marshaller operation leaves its input array
    unchanged: whichever source is linked and whatever the runtime does
    during the call, when the call returns the array passed in holds what
    it held before the call. *)
Theorem marshaller_input_unchanged {E} (host : byte_order) (w : World E)
    (op : marshaller) (input : loc) (a : jarray) (r : jobject)
    (w' : World E) :
  heap w !! input = Some a ->
  takes op a ->
  run_marshaller host op (Some input) w = Ret r w' ->
  heap w' !! input = Some a.
Proof.
  intros Hin Htakes Hrun.
  destruct op as [[|]|[|]|[|]|]; destruct a as [bs|v]; simpl in Htakes;
    try contradiction; simpl in Hrun.
  - eapply c_SerializeFloat32_keeps; eassumption.
  - eapply cpp_SerializeFloat32_keeps; eassumption.
  - eapply c_DeserializeFloat32_keeps; eassumption.
  - eapply cpp_DeserializeFloat32_keeps; eassumption.
  - eapply c_SerializeInt8_keeps; eassumption.
  - eapply cpp_SerializeInt8_keeps; eassumption.
  - eapply c_SerializeInt8_keeps; eassumption.
Qed.

Lemma marshaller_input_unchanged_witness :
  exists r w',
    run_marshaller LittleEndian (SerializeFloat32 SourceC) (Some 0%nat)
      (Toy.world [JFloats example_vector] Toy.healthy) = Ret r w'
    /\ heap w' !! 0%nat = Some (JFloats example_vector).
Proof.
  do 2 eexists. split; [vm_compute; reflexivity|].
  eapply (marshaller_input_unchanged LittleEndian
            (Toy.world [JFloats example_vector] Toy.healthy)
            (SerializeFloat32 SourceC) 0%nat (JFloats example_vector)).
  - reflexivity.
  - unfold example_vector, is_float32. repeat constructor; lia.
  - vm_compute. reflexivity.
Defined.

(** The calls do return: given an input of the declared type whose
    serialized or deserialized form fits [jsize], and a runtime that grants
    the memory asked for, every Array Marshaller operation returns. *)
Lemma marshaller_returns {E} (host : byte_order) (w : World E)
    (op : marshaller) (input : loc) (a : jarray) :
  heap w !! input = Some a ->
  takes op a ->
  4 * array_length a <= jsize_max ->
  granted w ->
  exists r w', run_marshaller host op (Some input) w = Ret r w'.
Proof.
  intros Hin Htakes Hfit Hg.
  assert (Hmakes : forall b n o, makes w b n o -> exists r w', o = Ret r w').
  { intros b n o (w' & -> & _). eauto. }
  assert (Hjava : java_array a)
    by (unfold java_array; destruct a; cbn [array_length] in *; lia).
  destruct op as [[|]|[|]|[|]|]; destruct a as [bs|v]; simpl in Htakes;
    try contradiction; cbn [array_length] in Hfit; simpl.
  - eapply Hmakes. apply c_SerializeFloat32_exact; eassumption.
  - eapply Hmakes. apply cpp_SerializeFloat32_exact; eassumption.
  - destruct (c_DeserializeFloat32_run host w (Some input) bs Hin Hg Hjava)
      as (fs & _ & Hm). eapply Hmakes. exact Hm.
  - destruct (Z.eq_dec (Z.of_nat (length bs) mod 4) 0) as [Hmod|Hmod].
    + destruct (cpp_DeserializeFloat32_run host w (Some input) bs Hin Hg
                  Hjava Hmod) as (fs & _ & Hm).
      eapply Hmakes. exact Hm.
    + destruct (cpp_DeserializeFloat32_reject host w (Some input) bs Hin Hmod)
        as (w' & Hrun & _).
      eauto.
  - eapply Hmakes. apply c_SerializeInt8_run; eassumption.
  - eapply Hmakes. apply cpp_SerializeInt8_run; eassumption.
  - eapply Hmakes. apply c_DeserializeInt8_run; eassumption.
Qed.

(** ** Round trips through the Array Marshaller *)

Section RoundTrip.
Context {E : Type}.
Variable host : byte_order.
Implicit Types (w : World E) (v : list Z) (bs : list byte).

Lemma makes_lookup w a n (o : outcome (World E) jobject) :
  makes w a n o ->
  exists out w',
    o = Ret (Some out) w' /\ heap w' !! out = Some a
    /\ out = length (heap w) /\ granted w'.
Proof.
  intros (w' & -> & Hh & Hg & _). exists (length (heap w)), w'.
  rewrite Hh, lookup_last. repeat split. exact Hg.
Qed.

Lemma SerializeFloat32_makes src w input v :
  heap w !! input = Some (JFloats v) -> Forall is_float32 v ->
  4 * Z.of_nat (length v) <= jsize_max -> granted w ->
  makes w (JBytes (bytes_of_floats host v)) (4 * Z.of_nat (length v))
    (run_marshaller host (SerializeFloat32 src) (Some input) w).
Proof.
  intros Hin Hwf Hfit Hg. destruct src; simpl.
  - apply c_SerializeFloat32_exact; assumption.
  - apply cpp_SerializeFloat32_exact; assumption.
Qed.

Lemma DeserializeFloat32_makes src w input v :
  heap w !! input = Some (JBytes (bytes_of_floats host v)) ->
  Forall is_float32 v ->
  4 * Z.of_nat (length v) <= jsize_max -> granted w ->
  makes w (JFloats v) (Z.of_nat (length v))
    (run_marshaller host (DeserializeFloat32 src) (Some input) w).
Proof.
  intros Hin Hwf Hfit Hg.
  set (bs := bytes_of_floats host v) in *.
  assert (Hlen : Z.of_nat (length bs) = 4 * Z.of_nat (length v))
    by (unfold bs; rewrite length_bytes_of_floats; lia).
  assert (Hcount : floats_in bs = length v)
    by (unfold floats_in; rewrite Hlen; Z.div_mod_to_equations; lia).
  assert (Hdiv : Z.of_nat (length bs) / 4 = Z.of_nat (length v))
    by (rewrite Hlen; Z.div_mod_to_equations; lia).
  assert (Hread : floats_of_bytes host (floats_in bs) bs = Some v).
  { rewrite Hcount. unfold bs.
    rewrite <- (app_nil_r (bytes_of_floats host v)).
    apply floats_of_bytes_of_floats. exact Hwf. }
  assert (Hjava : java_array (JBytes bs))
    by (unfold java_array; cbn [array_length]; lia).
  destruct src; simpl.
  - destruct (c_DeserializeFloat32_run host w (Some input) bs Hin Hg Hjava)
      as (fs & Hfs & Hmakes).
    rewrite Hread in Hfs. injection Hfs as <-. rewrite Hdiv in Hmakes.
    exact Hmakes.
  - destruct (cpp_DeserializeFloat32_run host w (Some input) bs Hin Hg Hjava)
      as (fs & Hfs & Hmakes).
    { rewrite Hlen. Z.div_mod_to_equations. lia. }
    rewrite Hread in Hfs. injection Hfs as <-. rewrite Hdiv in Hmakes.
    exact Hmakes.
Qed.

End RoundTrip.

(** C1, as amended.  For every float32 vector whose serialized form fits a
    Java byte array (fewer than 2^29 elements), on a host of either byte
    order and with either source linked: serializing returns a new buffer
    of exactly 4 bytes per element, the elements as they lie in the memory
    of the host, and deserializing that buffer returns a new vector equal
    to the first, element for element.  The runtime is assumed to grant the
    memory the calls ask for. *)
Theorem float32_round_trip {E} (host : byte_order) (w : World E)
    (ser_src de_src : source_file) (input : loc) (v : list Z) :
  heap w !! input = Some (JFloats v) ->
  Forall is_float32 v ->
  4 * Z.of_nat (length v) <= jsize_max ->
  granted w ->
  exists (buffer : loc) (w1 : World E) (output : loc) (w2 : World E),
    run_marshaller host (SerializeFloat32 ser_src) (Some input) w
    = Ret (Some buffer) w1
    /\ heap w1 !! buffer = Some (JBytes (bytes_of_floats host v))
    /\ length (bytes_of_floats host v) = (4 * length v)%nat
    /\ run_marshaller host (DeserializeFloat32 de_src) (Some buffer) w1
       = Ret (Some output) w2
    /\ heap w2 !! output = Some (JFloats v).
Proof.
  intros Hin Hwf Hfit Hg.
  destruct (makes_lookup _ _ _ _
              (SerializeFloat32_makes host ser_src w input v Hin Hwf Hfit Hg))
    as (buffer & w1 & Hser & Hbuf & _ & Hg1).
  destruct (makes_lookup _ _ _ _
              (DeserializeFloat32_makes host de_src w1 buffer v Hbuf Hwf Hfit
                 Hg1))
    as (output & w2 & Hde & Hout & _ & _).
  exists buffer, w1, output, w2.
  repeat split; try assumption. apply length_bytes_of_floats.
Qed.

Lemma float32_round_trip_witness :
  exists buffer w1 output w2,
    run_marshaller LittleEndian (SerializeFloat32 SourceCpp) (Some 0%nat)
      (Toy.world [JFloats example_vector] Toy.healthy)
    = Ret (Some buffer) w1
    /\ heap w1 !! buffer
       = Some (JBytes (bytes_of_floats LittleEndian example_vector))
    /\ length (bytes_of_floats LittleEndian example_vector)
       = (4 * length example_vector)%nat
    /\ run_marshaller LittleEndian (DeserializeFloat32 SourceC) (Some buffer)
         w1
       = Ret (Some output) w2
    /\ heap w2 !! output = Some (JFloats example_vector).
Proof.
  apply (float32_round_trip LittleEndian
           (Toy.world [JFloats example_vector] Toy.healthy)
           SourceCpp SourceC 0%nat example_vector).
  - reflexivity.
  - unfold example_vector, is_float32. repeat constructor; lia.
  - vm_compute. discriminate.
  - reflexivity.
Defined.

(** C1 fails on [large_vector]: the byte length [length * sizeof(float)]
    wraps to 0 in [jsize], the buffer returned is empty instead of holding
    4 bytes per element, and deserializing it gives the empty vector. *)
Lemma float32_round_trip_large_vector :
  let w := Toy.world [JFloats large_vector] Toy.healthy in
  exists w1 w2,
    run_marshaller LittleEndian (SerializeFloat32 SourceCpp) (Some 0%nat) w
    = Ret (Some 1%nat) w1
    /\ heap w1 !! 1%nat = Some (JBytes [])
    /\ run_marshaller LittleEndian (DeserializeFloat32 SourceCpp)
         (Some 1%nat) w1
       = Ret (Some 2%nat) w2
    /\ heap w2 !! 2%nat = Some (JFloats [])
    /\ large_vector <> [].
Proof.
  intros w.
  assert (Hwrap : 0 = to_jsize (size_t_mul (Z.of_nat (length large_vector))
                                  sizeof_float))
    by (rewrite large_vector_length; reflexivity).
  destruct (cpp_SerializeFloat32_run LittleEndian w (Some 0%nat) large_vector
              0 eq_refl eq_refl Hwrap ltac:(lia))
    as (w1 & Hser & Hh1 & Hg1 & _).
  change (take (Z.to_nat 0) (bytes_of_floats LittleEndian large_vector))
    with (@nil byte) in Hh1.
  assert (Hbuf : heap w1 !! 1%nat = Some (JBytes []))
    by (rewrite Hh1; reflexivity).
  destruct (cpp_DeserializeFloat32_run LittleEndian w1 (Some 1%nat) []
              Hbuf Hg1 ltac:(unfold java_array, jsize_max; simpl; lia)
              eq_refl)
    as (fs & Hfs & w2 & Hde & Hh2 & _).
  injection Hfs as <-.
  exists w1, w2. rewrite Hh1 in Hde. cbn [length app] in Hde.
  split; [exact Hser|]. split; [exact Hbuf|]. split; [exact Hde|].
  split; [rewrite Hh2, Hh1; reflexivity|].
  intros Hnil. pose proof large_vector_length as Hlen.
  rewrite Hnil in Hlen. discriminate.
Qed.

(** ** Int8 vectors *)

(** Where the runtime grants the memory the call asks for, [SerializeInt8]
    and [DeserializeInt8] are identity copies: each returns a new byte
    array holding exactly the bytes of its input, so of the same length. *)
Theorem int8_identity_copy {E} (host : byte_order) (w : World E)
    (op : marshaller) (input : loc) (bs : list byte) :
  int8_marshaller op ->
  heap w !! input = Some (JBytes bs) ->
  granted w ->
  exists (output : loc) (w' : World E),
    run_marshaller host op (Some input) w = Ret (Some output) w'
    /\ heap w' !! output = Some (JBytes bs)
    /\ output <> input
    /\ heap w' !! input = Some (JBytes bs).
Proof.
  intros Hop Hin Hg.
  assert (Hmakes : makes w (JBytes bs) (Z.of_nat (length bs))
                     (run_marshaller host op (Some input) w)).
  { destruct op as [src|src|[|]|]; simpl in Hop; try contradiction; simpl.
    - apply c_SerializeInt8_run; assumption.
    - apply cpp_SerializeInt8_run; assumption.
    - apply c_DeserializeInt8_run; assumption. }
  destruct Hmakes as (w' & Hrun & Hh & _).
  exists (length (heap w)), w'. rewrite Hh, lookup_last.
  apply lookup_lt_Some in Hin as Hlt.
  repeat split; [exact Hrun | lia |].
  apply lookup_app_l_Some. exact Hin.
Qed.

Lemma int8_identity_copy_witness :
  exists output w',
    run_marshaller LittleEndian (SerializeInt8 SourceCpp) (Some 0%nat)
      (Toy.world [JBytes [x01; xff; x80]] Toy.healthy)
    = Ret (Some output) w'
    /\ heap w' !! output = Some (JBytes [x01; xff; x80])
    /\ output <> 0%nat
    /\ heap w' !! 0%nat = Some (JBytes [x01; xff; x80]).
Proof.
  apply (int8_identity_copy LittleEndian
           (Toy.world [JBytes [x01; xff; x80]] Toy.healthy)
           (SerializeInt8 SourceCpp) 0%nat [x01; xff; x80]).
  - exact I.
  - reflexivity.
  - reflexivity.
Defined.

(** C6 fails of the C++ source.  [nativeSerializeInt8] makes the array of
    the result before it asks for the buffer of the input, and returns that
    array whether or not it was filled.  Given the vector
    [0x01; 0xff; 0x80] when the runtime grants the array and refuses the
    buffer, the function returns a new array of three zero bytes: not a
    copy of the vector, and not null either. *)
Lemma cpp_SerializeInt8_not_a_copy :
  exists w',
    run_marshaller LittleEndian (SerializeInt8 SourceCpp) (Some 0%nat)
      (mkWorld [JBytes [x01; xff; x80]] [true; false] Toy.healthy [])
    = Ret (Some 1%nat) w'
    /\ heap w' !! 1%nat = Some (JBytes [x00; x00; x00])
    /\ heap w' !! 0%nat = Some (JBytes [x01; xff; x80])
    /\ [x00; x00; x00] <> [x01; xff; x80].
Proof.
  eexists. split; [vm_compute; reflexivity|].
  split; [reflexivity|]. split; [reflexivity | discriminate].
Qed.

(** ** Buffers that do not hold a whole number of floats *)

(** The C++ source returns null for every buffer whose length is not a
    multiple of 4, whatever the runtime does, and makes no array. *)
Lemma cpp_DeserializeFloat32_absent {E} (host : byte_order) (w : World E)
    (data : loc) (bs : list byte) :
  heap w !! data = Some (JBytes bs) ->
  Z.of_nat (length bs) mod 4 <> 0 ->
  exists w',
    run_marshaller host (DeserializeFloat32 SourceCpp) (Some data) w
    = Ret None w'
    /\ heap w' = heap w.
Proof.
  intros Hd Hmod.
  destruct (cpp_DeserializeFloat32_reject host w (Some data) bs Hd Hmod)
    as (w' & Hrun & Hh & _).
  exists w'. split; assumption.
Qed.

(** C2 fails of the C source.  Given [ragged_buffer], the C function
    [nativeDeserializeFloat32] does not return null: it returns a new
    vector built from the truncated count 5 / 4 = 1, here [1.0]. *)
Lemma c_DeserializeFloat32_ragged :
  exists w',
    run_marshaller LittleEndian (DeserializeFloat32 SourceC) (Some 0%nat)
      (Toy.world [JBytes ragged_buffer] Toy.healthy)
    = Ret (Some 1%nat) w'
    /\ heap w' !! 1%nat = Some (JFloats [1065353216])
    /\ Z.of_nat (length ragged_buffer) mod 4 <> 0.
Proof.
  eexists. split; [vm_compute; reflexivity|].
  split; [reflexivity | vm_compute; discriminate].
Qed.

(** ** The two sources side by side *)

(** C3 fails of the C source.  On [ragged_buffer] the operation
    [DeserializeFloat32], which both sources export, returns a one-element
    vector when the C source is linked and null when the C++ source is:
    the C source lacks the check of the length that the C++ source
    makes. *)
Lemma sources_disagree_on_ragged_buffer :
  let w := Toy.world [JBytes ragged_buffer] Toy.healthy in
  let c := CallDeserializeFloat32 (Some 0%nat) in
  (exists w1, run_shared Toy.toy LittleEndian "v0.1.6" SourceC c w
              = Ret (RArray (Some 1%nat)) w1
              /\ heap w1 !! 1%nat = Some (JFloats [1065353216]))
  /\ (exists w2, run_shared Toy.toy LittleEndian "v0.1.6" SourceCpp c w
                 = Ret (RArray None) w2).
Proof.
  intros w c. split.
  - eexists. split; vm_compute; reflexivity.
  - eexists. vm_compute. reflexivity.
Qed.

(** Where the marshaller operations exported by both sources return a new
    array under the exact run lemmas, they return the same one: the same
    reference, the same heap and the same recorded copy. *)
Lemma sources_agree_when_both_make {E} (w : World E) (a : jarray) (n : Z)
    (o1 o2 : outcome (World E) jobject) :
  makes w a n o1 -> makes w a n o2 ->
  exists r w1 w2,
    o1 = Ret r w1 /\ o2 = Ret r w2
    /\ heap w1 = heap w2 /\ engine w1 = engine w2 /\ trace w1 = trace w2.
Proof.
  intros (w1 & -> & Hh1 & _ & He1 & Ht1) (w2 & -> & Hh2 & _ & He2 & Ht2).
  exists (Some (length (heap w))), w1, w2.
  rewrite Hh1, Hh2, He1, He2, Ht1, Ht2. repeat split.
Qed.

(** ** Initializing the extension *)

Section Init.
Context {E : Type}.
Variable eng : Engine E.
Implicit Types (w : World E).

(** On a null handle the C++ function [nativeInit] returns
    [SQLITE_ERROR], a failure status, having written one line to the log
    and called nothing else. *)
Lemma cpp_nativeInit_null w :
  JniCpp.Java_com_sqlite_vec_SQLiteVec_nativeInit eng 0 w
  = Ret SQLITE_ERROR
      (record (EvLog ANDROID_LOG_ERROR LOG_TAG "Invalid database handle") w)
  /\ SQLITE_ERROR <> SQLITE_OK
  /\ is_engine_call
       (EvLog ANDROID_LOG_ERROR LOG_TAG "Invalid database handle") = false.
Proof. split; [reflexivity|]. split; [discriminate | reflexivity]. Qed.

(** With a handle that is not null both sources hand the call to the
    extension and return its status; they leave the same engine state
    and differ only in what they log. *)
Lemma sources_agree_on_nativeInit w db :
  db <> 0 ->
  exists rc w1 w2,
    JniC.Java_com_sqlite_vec_SQLiteVec_nativeInit eng db w = Ret rc w1
    /\ JniCpp.Java_com_sqlite_vec_SQLiteVec_nativeInit eng db w = Ret rc w2
    /\ heap w1 = heap w2 /\ engine w1 = engine w2
    /\ filter (fun ev => is_engine_call ev) (trace w1)
       = filter (fun ev => is_engine_call ev) (trace w2).
Proof.
  intros Hdb.
  unfold JniC.Java_com_sqlite_vec_SQLiteVec_nativeInit,
    JniCpp.Java_com_sqlite_vec_SQLiteVec_nativeInit.
  destruct (db =? 0) eqn:Hz; [lia|].
  cbv zeta. rewrite !bind_run. unfold sqlite3_vec_init, call.
  destruct (eng_vec_init eng db (engine w)) as [[rc msg] e1].
  cbv beta iota. cbn [fst snd].
  destruct (rc =? SQLITE_OK); cbn [negb andb].
  - do 3 eexists. split; [reflexivity|]. split; [reflexivity|].
    world_simpl. rewrite !filter_app. simpl. rewrite !app_nil_r.
    repeat split.
  - destruct msg as [msg|]; cbn [is_null negb].
    + unfold sqlite3_free, call, LOGE, emit. rewrite !bind_run.
      world_simpl. destruct (eng_free eng (Some msg) e1) as [u e2].
      do 3 eexists. split; [reflexivity|]. split; [reflexivity|].
      world_simpl. rewrite !filter_app. simpl. repeat split.
    + do 3 eexists. split; [reflexivity|]. split; [reflexivity|].
      world_simpl. rewrite !filter_app. simpl. rewrite !app_nil_r.
      repeat split.
Qed.

End Init.

(** C5 fails of the C source.  Given a null handle, the C function
    [nativeInit] has no guard: it calls the registration entry point of the
    extension with the null handle and returns whatever that call
    returns. *)
Lemma c_nativeInit_null_reaches_extension {E} (eng : Engine E) (w : World E) :
  exists (w' : World E) (rest : list Event),
    JniC.Java_com_sqlite_vec_SQLiteVec_nativeInit eng 0 w
    = Ret (eng_vec_init eng 0 (engine w)).1.1 w'
    /\ trace w'
       = trace w
         ++ EvVecInit 0 (eng_vec_init eng 0 (engine w)).1.1
              (eng_vec_init eng 0 (engine w)).1.2 :: rest
    /\ is_engine_call
         (EvVecInit 0 (eng_vec_init eng 0 (engine w)).1.1
            (eng_vec_init eng 0 (engine w)).1.2) = true.
Proof.
  unfold JniC.Java_com_sqlite_vec_SQLiteVec_nativeInit.
  unfold sqlite3_vec_init, sqlite3_free, call, LOGE, emit.
  cbv zeta. unfold mbind, M_bind, mret, M_ret.
  destruct (eng_vec_init eng 0 (engine w)) as [[rc msg] e1].
  cbn [fst snd]. world_simpl.
  destruct (negb (rc =? SQLITE_OK) && negb (is_null msg)).
  - world_simpl. destruct (eng_free eng msg e1) as [u e2].
    do 2 eexists. split; [reflexivity|]. world_simpl.
    rewrite <- !app_assoc. simpl. split; reflexivity.
  - do 2 eexists. split; [reflexivity|].
    world_simpl. split; reflexivity.
Qed.

(** Against the small engine, with the extension answering [SQLITE_OK]: the
    C source reports success on the null handle, the C++ source failure. *)
Example nativeInit_null_on_toy :
  (exists w', JniC.Java_com_sqlite_vec_SQLiteVec_nativeInit Toy.toy 0
                (Toy.world [] Toy.healthy) = Ret SQLITE_OK w'
              /\ trace w' = [EvVecInit 0 0 None])
  /\ (exists w', JniCpp.Java_com_sqlite_vec_SQLiteVec_nativeInit Toy.toy 0
                   (Toy.world [] Toy.healthy) = Ret SQLITE_ERROR w'
                 /\ filter (fun ev => is_engine_call ev) (trace w') = []).
Proof. split; eexists; split; reflexivity. Qed.

(** ** Metric names *)

Section MetricNames.

Lemma high_bit_set (k x : Z) :
  Z.testbit k 7 = true -> 128 <= Z.lor k x mod 256.
Proof.
  intros Hk.
  assert (Hbit : Z.testbit (Z.lor k x mod 2 ^ 8) 7 = true).
  { rewrite Z.mod_pow2_bits_low by lia. rewrite Z.lor_spec, Hk.
    reflexivity. }
  apply Z.testbit_true in Hbit; [|lia].
  change (2 ^ 8) with 256 in Hbit. change (2 ^ 7) with 128 in Hbit.
  Z.div_mod_to_equations. lia.
Qed.

(** The first byte of an encoded code unit is the unit itself when the
    unit is an ASCII character other than 0, and has its high bit set
    otherwise; it is never the byte 0. *)
Lemma mutf8_unit_head (u : Z) :
  exists b rest,
    mutf8_unit u = b :: rest
    /\ ((1 <= u <= 127 /\ Z_of_byte b = u /\ rest = [])
        \/ 128 <= Z_of_byte b).
Proof.
  unfold mutf8_unit.
  destruct ((1 <=? u) && (u <=? 127)) eqn:Hascii.
  - apply andb_true_iff in Hascii as [H1 H2].
    apply Z.leb_le in H1, H2.
    exists (byte_of_Z u), []. split; [reflexivity|]. left.
    rewrite Z_of_byte_of_Z, Z.mod_small by lia.
    split; [lia|]. split; reflexivity.
  - destruct (u <=? 2047); do 2 eexists; (split; [reflexivity|]); right;
      rewrite Z_of_byte_of_Z; apply high_bit_set; reflexivity.
Qed.

(** Against a literal made of ASCII characters, [strcmp] finds the
    characters of a Java string equal only when the string is the
    literal. *)
Lemma strcmp_mutf8_ascii (chars : list byte) (s : jstring) :
  Forall (fun c => 1 <= Z_of_byte c <= 127) chars ->
  strcmp (mutf8 s) chars = 0 ->
  s = map Z_of_byte chars.
Proof.
  intros Hascii. revert s.
  induction Hascii as [|d chars Hd _ IH]; intros s Hcmp.
  - destruct s as [|u s]; [reflexivity|]. exfalso.
    unfold mutf8 in Hcmp. simpl flat_map in Hcmp.
    destruct (mutf8_unit_head u) as (b & rest & Hu & Hb).
    rewrite Hu in Hcmp. simpl in Hcmp. lia.
  - destruct s as [|u s].
    + exfalso. simpl in Hcmp. lia.
    + unfold mutf8 in Hcmp. simpl flat_map in Hcmp.
      destruct (mutf8_unit_head u) as (b & rest & Hu & Hb).
      rewrite Hu in Hcmp. simpl in Hcmp.
      destruct ((Z_of_byte b =? 0) || negb (Z_of_byte b =? Z_of_byte d))
        eqn:Hdiff.
      * exfalso. apply orb_true_iff in Hdiff as [H0 | Hne]; [lia|].
        apply negb_true_iff in Hne. lia.
      * apply orb_false_iff in Hdiff as [_ Heq].
        apply negb_false_iff in Heq. apply Z.eqb_eq in Heq.
        destruct Hb as [(_ & Hbu & ->) | Hhigh]; [|lia].
        simpl in Hcmp. simpl. f_equal; [lia|]. apply IH. exact Hcmp.
Qed.

(** Every metric name but "l2" selects the cosine statement. *)
Lemma distance_sql_default (metric : jstring) :
  metric <> java_string "l2" ->
  JniCpp.distance_sql (mutf8 metric)
  = "SELECT vec_distance_cosine(?, ?)"%string.
Proof.
  intros Hne. unfold JniCpp.distance_sql.
  destruct (strcmp (mutf8 metric) (lit "cosine") =? 0); [reflexivity|].
  destruct (strcmp (mutf8 metric) (lit "l2") =? 0) eqn:Hl2; [|reflexivity].
  exfalso. apply Hne. apply Z.eqb_eq in Hl2.
  apply strcmp_mutf8_ascii; [|exact Hl2].
  repeat constructor; vm_compute; discriminate.
Qed.

End MetricNames.

(** C4.  For every connection, every pair of vector buffers and every
    metric string other than "l2" (so for every string that is neither
    "cosine" nor "l2", the empty string among them), [Distance] with that
    metric does exactly what [Distance] with the metric "cosine" does: the
    same statement is prepared, the same calls reach the engine and the
    same value is returned.  The unknown name is not reported anywhere. *)
Theorem distance_unknown_metric_is_cosine {E} (eng : Engine E) (w : World E)
    (db : Z) (vector1 vector2 : jobject) (metric : jstring) :
  metric <> java_string "l2" ->
  JniCpp.Java_com_sqlite_vec_SQLiteVec_nativeDistance eng db vector1 vector2
    metric w
  = JniCpp.Java_com_sqlite_vec_SQLiteVec_nativeDistance eng db vector1 vector2
      (java_string "cosine") w.
Proof.
  intros Hne.
  unfold JniCpp.Java_com_sqlite_vec_SQLiteVec_nativeDistance. cbv zeta.
  destruct (db =? 0); [reflexivity|].
  rewrite !(bind_run (GetStringUTFChars _)). unfold GetStringUTFChars.
  rewrite !bind_run. destruct (jni_alloc w) as [b w1|]; [|reflexivity].
  rewrite !ret_run. destruct b; [|reflexivity].
  rewrite !bind_run, !ret_run.
  rewrite (distance_sql_default metric Hne).
  rewrite (distance_sql_default (java_string "cosine"))
    by (vm_compute; discriminate).
  reflexivity.
Qed.

Lemma distance_unknown_metric_is_cosine_witness :
  JniCpp.Java_com_sqlite_vec_SQLiteVec_nativeDistance Toy.toy 5
    (Some 0%nat) (Some 1%nat) (java_string "manhattan")
    (Toy.world [JBytes [x00; x00; x80; x3f]; JBytes [x00; x00; x80; x3f]]
       Toy.healthy)
  = JniCpp.Java_com_sqlite_vec_SQLiteVec_nativeDistance Toy.toy 5
      (Some 0%nat) (Some 1%nat) (java_string "cosine")
      (Toy.world [JBytes [x00; x00; x80; x3f]; JBytes [x00; x00; x80; x3f]]
         Toy.healthy).
Proof.
  apply (distance_unknown_metric_is_cosine Toy.toy).
  vm_compute. discriminate.
Defined.

(** ** The Query Adapter *)

Lemma plan_tail_granted (p : list bool) :
  forallb id p = true -> forallb id (tail p) = true.
Proof.
  destruct p as [|b p]; simpl; [trivial|].
  intros H. apply andb_true_iff in H as [_ Hp]. exact Hp.
Qed.

(** The runtime still grants every request after some were served. *)
Ltac still_granted :=
  unfold granted in *; world_simpl;
  repeat apply plan_tail_granted; assumption.

(** The call at the head of the run, in whatever world the run has
    reached, replaced by its result. *)
Ltac run_length arr a H :=
  match goal with
  | |- context [(GetArrayLength arr ≫= _) ?w0] =>
      rewrite bind_run, (GetArrayLength_run w0 arr a H)
  end; cbv beta iota.

Ltac run_pin arr bs H :=
  match goal with
  | |- context [(GetByteArrayElements arr ≫= _) ?w0] =>
      rewrite bind_run, (GetByteArrayElements_run w0 arr bs H)
        by still_granted
  end; cbv beta iota; world_simpl.

Ltac run_unpin arr bs H :=
  match goal with
  | |- context [(ReleaseByteArrayElements arr _ _ ≫= _) ?w0] =>
      rewrite bind_run, (ReleaseByteArrayElements_abort w0 arr bs H)
  end; cbv beta iota.

Ltac unfold_engine_calls :=
  unfold sqlite3_vec_init, sqlite3_free, sqlite3_prepare_v2, sqlite3_errmsg,
    sqlite3_bind_blob, sqlite3_step, sqlite3_column_double,
    sqlite3_column_int, sqlite3_column_blob, sqlite3_column_bytes,
    sqlite3_finalize, call in *.

(** A call into the engine: the answer of the engine is named. *)
Tactic Notation "run_engine" constr(f) "as" simple_intropattern(pat) :=
  rewrite bind_run; world_simpl;
  destruct f as pat; cbv beta iota; world_simpl; cbn [fst snd].

Section Distance.
Context {E : Type}.
Variable eng : Engine E.
Implicit Types (w : World E) (bs : list byte).

Lemma nativeDistance_run w db vector1 vector2 metric bs1 bs2 :
  deref w vector1 = Some (JBytes bs1) ->
  deref w vector2 = Some (JBytes bs2) ->
  granted w ->
  exists result w' events,
    JniCpp.Java_com_sqlite_vec_SQLiteVec_nativeDistance eng db
      vector1 vector2 metric w = Ret result w'
    /\ trace w' = trace w ++ events
    /\ heap w' = heap w
    /\ distance_run db bs1 bs2 events result.
Proof.
  intros H1 H2 Hg.
  unfold JniCpp.Java_com_sqlite_vec_SQLiteVec_nativeDistance. cbv zeta.
  unfold_engine_calls.
  destruct (db =? 0) eqn:Hdb.
  { apply Z.eqb_eq in Hdb. exists JniCpp.minus_one, w, [].
    rewrite ret_run, app_nil_r. repeat split. constructor. exact Hdb. }
  apply Z.eqb_neq in Hdb.
  rewrite bind_run. unfold GetStringUTFChars.
  rewrite bind_run, (jni_alloc_granted w Hg). cbv beta iota.
  rewrite ret_run, bind_run, ret_run, bind_run. cbn [ReleaseStringUTFChars].
  rewrite ret_run.
  run_engine (eng_prepare_v2 eng db (JniCpp.distance_sql (mutf8 metric))
                (engine w)) as [[rc stmt] e1].
  destruct (rc =? SQLITE_OK) eqn:Hrc; cbn [negb].
  - apply Z.eqb_eq in Hrc. subst rc.
    run_length vector1 (JBytes bs1) H1. cbn [array_length].
    run_pin vector1 bs1 H1.
    run_engine (eng_bind_blob eng stmt 1 (Some bs1)
                  (Z.of_nat (length bs1)) e1) as [rc1 e2].
    run_length vector2 (JBytes bs2) H2. cbn [array_length].
    run_pin vector2 bs2 H2.
    run_engine (eng_bind_blob eng stmt 2 (Some bs2)
                  (Z.of_nat (length bs2)) e2) as [rc2 e3].
    run_engine (eng_step eng stmt e3) as [rc e4].
    destruct (rc =? SQLITE_ROW) eqn:Hrow.
    + apply Z.eqb_eq in Hrow. subst rc.
      run_engine (eng_column_double eng stmt 0 e4) as [d e5].
      run_unpin vector1 bs1 H1. run_unpin vector2 bs2 H2.
      run_engine (eng_finalize eng stmt e5) as [rcf e6].
      rewrite ret_run. do 3 eexists. split; [reflexivity|].
      world_simpl. rewrite <- !app_assoc. simpl.
      split; [reflexivity|]. split; [reflexivity|].
      apply distance_row. exact Hdb.
    + apply Z.eqb_neq in Hrow.
      rewrite bind_run, ret_run.
      run_unpin vector1 bs1 H1. run_unpin vector2 bs2 H2.
      run_engine (eng_finalize eng stmt e4) as [rcf e5].
      rewrite ret_run. do 3 eexists. split; [reflexivity|].
      world_simpl. rewrite <- !app_assoc. simpl.
      split; [reflexivity|]. split; [reflexivity|].
      apply distance_no_row; assumption.
  - apply Z.eqb_neq in Hrc.
    run_engine (eng_errmsg eng db e1) as [msg e2].
    rewrite bind_run. unfold LOGE, emit. cbv beta iota. rewrite ret_run.
    do 3 eexists. split; [reflexivity|].
    world_simpl. rewrite <- !app_assoc. simpl.
    split; [reflexivity|]. split; [reflexivity|].
    apply distance_not_prepared; assumption.
Qed.

End Distance.



(** The example of the specification, against the small engine: the "l2"
    statement is prepared and the double of the row is returned. *)
Example distance_l2_on_toy :
  exists w',
    JniCpp.Java_com_sqlite_vec_SQLiteVec_nativeDistance Toy.toy 5
      (Some 0%nat) (Some 1%nat) (java_string "l2")
      (Toy.world [JBytes [x00; x00; x80; x3f]; JBytes [x00; x00; x80; x3f]]
         Toy.healthy)
    = Ret (S754_zero false) w'
    /\ trace w'
       = [EvPrepare 5 "SELECT vec_distance_l2(?, ?)" 0 77;
          EvBindBlob 77 1 (Some [x00; x00; x80; x3f]) 4 0;
          EvBindBlob 77 2 (Some [x00; x00; x80; x3f]) 4 0;
          EvStep 77 100;
          EvColumnDouble 77 0 (S754_zero false);
          EvFinalize 77 0].
Proof. eexists. split; vm_compute; reflexivity. Qed.

Section Normalize.
Context {E : Type}.
Variable eng : Engine E.
Implicit Types (w : World E) (bs : list byte).

Lemma nativeNormalize_run w db vector bs :
  deref w vector = Some (JBytes bs) ->
  granted w ->
  blob_contract eng ->
  exists result w' events,
    JniCpp.Java_com_sqlite_vec_SQLiteVec_nativeNormalize eng db vector w
    = Ret result w'
    /\ trace w' = trace w ++ events
    /\ normalize_run db bs (heap w) events result (heap w').
Proof.
  intros Hv Hg Hblob.
  unfold JniCpp.Java_com_sqlite_vec_SQLiteVec_nativeNormalize. cbv zeta.
  unfold_engine_calls.
  destruct (db =? 0) eqn:Hdb.
  { apply Z.eqb_eq in Hdb. exists None, w, [].
    rewrite ret_run, app_nil_r. repeat split. constructor. exact Hdb. }
  apply Z.eqb_neq in Hdb.
  run_engine (eng_prepare_v2 eng db "SELECT vec_normalize(?)" (engine w))
    as [[rc stmt] e1].
  destruct (rc =? SQLITE_OK) eqn:Hrc; cbn [negb].
  - apply Z.eqb_eq in Hrc. subst rc.
    run_length vector (JBytes bs) Hv. cbn [array_length].
    run_pin vector bs Hv.
    run_engine (eng_bind_blob eng stmt 1 (Some bs)
                  (Z.of_nat (length bs)) e1) as [rc1 e2].
    run_engine (eng_step eng stmt e2) as [rc e3].
    destruct (rc =? SQLITE_ROW) eqn:Hrow.
    + apply Z.eqb_eq in Hrow. subst rc.
      rewrite bind_run.
      pose proof (Hblob stmt 0 e3) as Hcontract.
      run_engine (eng_column_blob eng stmt 0 e3) as [blob e4].
      run_engine (eng_column_bytes eng stmt 0 e4) as [n e5].
      destruct Hcontract as [Hn [copy Hcopy]].
      match goal with
      | |- context [(NewByteArray n ≫= _) ?w0] =>
          rewrite bind_run, (NewByteArray_run w0 n Hn) by still_granted
      end.
      cbv beta iota. world_simpl. rewrite bind_run.
      match goal with
      | |- context [SetByteArrayRegion _ _ _ _ ?w0] =>
          rewrite (SetByteArrayRegion_fresh_read w0 (heap w) n blob copy
                     eq_refl Hn Hcopy)
      end.
      cbv beta iota. world_simpl. rewrite ret_run.
      match goal with
      | |- context [(ReleaseByteArrayElements vector _ _ ≫= _) ?w0] =>
          rewrite bind_run, (ReleaseByteArrayElements_abort w0 vector bs)
            by (eapply (deref_app w); [reflexivity | exact Hv])
      end.
      cbv beta iota.
      run_engine (eng_finalize eng stmt e5) as [rcf e6].
      rewrite ret_run. do 3 eexists. split; [reflexivity|].
      world_simpl. rewrite <- !app_assoc. simpl.
      split; [reflexivity|].
      apply normalize_row; assumption.
    + apply Z.eqb_neq in Hrow.
      rewrite bind_run, ret_run.
      run_unpin vector bs Hv.
      run_engine (eng_finalize eng stmt e3) as [rcf e4].
      rewrite ret_run. do 3 eexists. split; [reflexivity|].
      world_simpl. rewrite <- !app_assoc. simpl.
      split; [reflexivity|].
      apply normalize_no_row; assumption.
  - apply Z.eqb_neq in Hrc. rewrite ret_run.
    do 3 eexists. split; [reflexivity|]. world_simpl.
    split; [reflexivity|].
    apply normalize_not_prepared; assumption.
Qed.

End Normalize.




(** Against the small engine: the row path and the three failure paths. *)
Example normalize_on_toy :
  (exists w',
     JniCpp.Java_com_sqlite_vec_SQLiteVec_nativeNormalize Toy.toy 5
       (Some 0%nat) (Toy.world [JBytes [x00; x00; x00; x40]] Toy.healthy)
     = Ret (Some 1%nat) w'
     /\ heap w' !! 1%nat = Some (JBytes [x00; x00; x80; x3f]))
  /\ (exists w',
        JniCpp.Java_com_sqlite_vec_SQLiteVec_nativeNormalize Toy.toy 0
          (Some 0%nat) (Toy.world [JBytes [x00; x00; x00; x40]] Toy.healthy)
        = Ret None w')
  /\ (exists w',
        JniCpp.Java_com_sqlite_vec_SQLiteVec_nativeNormalize Toy.toy 5
          (Some 0%nat)
          (Toy.world [JBytes [x00; x00; x00; x40]] Toy.unprepared)
        = Ret None w')
  /\ (exists w',
        JniCpp.Java_com_sqlite_vec_SQLiteVec_nativeNormalize Toy.toy 5
          (Some 0%nat) (Toy.world [JBytes [x00; x00; x00; x40]] Toy.rowless)
        = Ret None w').
Proof.
  split; [eexists; split; vm_compute; reflexivity|].
  split; [|split]; eexists; vm_compute; reflexivity.
Qed.

(** ** Statements are scoped to the call that prepares them *)

Lemma scoped_within (stmt : Z) (middle rest : list Event) :
  forallb (within stmt) middle = true ->
  scoped [stmt] (middle ++ rest) = scoped [stmt] rest.
Proof.
  induction middle as [|ev middle IH]; [reflexivity|].
  simpl forallb. intros H. apply andb_true_iff in H as [Hev Hmid].
  specialize (IH Hmid).
  destruct ev; simpl in Hev; try discriminate; simpl;
    rewrite ?Hev; simpl; exact IH.
Qed.

Lemma scoped_bracket (db : Z) (sql : string) (stmt rcf : Z)
    (middle : list Event) :
  forallb (within stmt) middle = true ->
  scoped [] (EvPrepare db sql SQLITE_OK stmt :: middle ++ [EvFinalize stmt rcf])
  = true.
Proof.
  intros H. simpl. rewrite (scoped_within stmt middle _ H). simpl.
  rewrite !Z.eqb_refl. reflexivity.
Qed.

Lemma remove_first_other (s stmt : Z) (open : list Z) :
  In s open -> s <> stmt -> In s (remove_first stmt open).
Proof.
  induction open as [|x open IH]; simpl; [trivial|].
  intros [-> | Hin] Hne.
  - destruct (s =? stmt) eqn:Heq; [lia|]. left. reflexivity.
  - destruct (x =? stmt); [exact Hin|]. right. apply IH; assumption.
Qed.

(** In a run that passes the check, every statement held is finalized. *)
Lemma scoped_held_is_finalized (open : list Z) (events : list Event) :
  scoped open events = true ->
  forall s, In s open ->
  exists before rc after, events = before ++ EvFinalize s rc :: after.
Proof.
  revert open. induction events as [|ev events IH]; intros open Hs s Hin.
  - destruct open; [contradiction | discriminate].
  - assert (Hlater : forall open', scoped open' events = true ->
                       In s open' ->
                       exists before rc after,
                         ev :: events = before ++ EvFinalize s rc :: after).
    { intros open' Hs' Hin'.
      destruct (IH open' Hs' s Hin') as (before & rc & after & ->).
      exists (ev :: before), rc, after. reflexivity. }
    destruct ev; simpl in Hs;
      try (apply andb_true_iff in Hs as [_ Hs]);
      try (apply (Hlater open Hs Hin)).
    + apply (Hlater _ Hs). destruct (rc =? SQLITE_OK); [right|]; exact Hin.
    + destruct (Z.eq_dec s stmt) as [->|Hne].
      * exists [], rc, events. reflexivity.
      * apply (Hlater _ Hs). apply remove_first_other; assumption.
Qed.

(** In a run that passes the check, every statement prepared with success
    is finalized later in the run. *)
Lemma scoped_prepared_is_finalized (open : list Z) (events : list Event) :
  scoped open events = true ->
  forall before db sql stmt rest,
    events = before ++ EvPrepare db sql SQLITE_OK stmt :: rest ->
    exists middle rc after, rest = middle ++ EvFinalize stmt rc :: after.
Proof.
  intros Hs before. revert open events Hs.
  induction before as [|ev before IH];
    intros open events Hs db sql stmt rest ->.
  - simpl in Hs. apply (scoped_held_is_finalized _ _ Hs). left. reflexivity.
  - destruct ev; simpl in Hs;
      try (apply andb_true_iff in Hs as [_ Hs]);
      eapply IH; try exact Hs; reflexivity.
Qed.

(** The check turns down a statement left open, a statement of another
    call, and a statement used after it was finalized. *)
Example scoped_turns_down :
  scoped [] [EvPrepare 5 "SELECT 1" 0 77; EvStep 77 100] = false
  /\ scoped [] [EvStep 77 100; EvFinalize 77 0] = false
  /\ scoped [] [EvPrepare 5 "SELECT 1" 0 77; EvFinalize 77 0; EvStep 77 100]
     = false.
Proof. repeat split. Qed.

(** Carries the trace equation [T] across the step described by [Hs]. *)
Ltac advance T Hs :=
  rewrite T in Hs; try rewrite <- app_assoc in Hs; clear T; rename Hs into T.

Section Scoping.
Context {E : Type}.
Variable eng : Engine E.
Implicit Types (w : World E).

Lemma nativeDistance_releases w db vector1 vector2 metric r w' :
  JniCpp.Java_com_sqlite_vec_SQLiteVec_nativeDistance eng db vector1 vector2
    metric w = Ret r w' ->
  releases w w'.
Proof.
  unfold JniCpp.Java_com_sqlite_vec_SQLiteVec_nativeDistance. cbv zeta.
  intros H. assert (T : trace w = trace w ++ []) by (rewrite app_nil_r; easy).
  destruct (db =? 0).
  { apply ret_inv in H as [_ ->]. exists []. split; [exact T | reflexivity]. }
  next_call H chars w1 H1.
  apply GetStringUTFChars_inv in H1 as [(_ & _ & T1) _].
  advance T T1.
  next_call H sql w2 H2.
  destruct chars as [s|]; [|discriminate]. apply ret_inv in H2 as [-> ->].
  next_call H u w3 H3. apply ReleaseStringUTFChars_inv in H3 as ->.
  next_call H p w4 H4. apply call_inv in H4 as (_ & T4 & _).
  destruct p as [rc stmt]. cbn [fst snd] in T4. advance T T4.
  destruct (rc =? SQLITE_OK) eqn:Hrc; cbn [negb] in H.
  - apply Z.eqb_eq in Hrc. subst rc.
    next_call H len1 w5 H5. apply GetArrayLength_inv in H5 as [-> _].
    next_call H bytes1 w6 H6.
    apply GetByteArrayElements_inv in H6 as [(_ & _ & T6) _]. advance T T6.
    next_call H rc1 w7 H7. apply call_inv in H7 as (_ & T7 & _).
    advance T T7.
    next_call H len2 w8 H8. apply GetArrayLength_inv in H8 as [-> _].
    next_call H bytes2 w9 H9.
    apply GetByteArrayElements_inv in H9 as [(_ & _ & T9) _]. advance T T9.
    next_call H rc2 w10 H10. apply call_inv in H10 as (_ & T10 & _).
    advance T T10.
    next_call H rc w11 H11. apply call_inv in H11 as (_ & T11 & _).
    advance T T11.
    next_call H result w12 H12.
    next_call H u1 w13 H13.
    apply ReleaseByteArrayElements_inv in H13 as (_ & T13 & _).
    next_call H u2 w14 H14.
    apply ReleaseByteArrayElements_inv in H14 as (_ & T14 & _).
    next_call H rcf w15 H15. apply call_inv in H15 as (_ & T15 & _).
    apply ret_inv in H as [_ ->].
    destruct (rc =? SQLITE_ROW).
    + apply call_inv in H12 as (_ & T12 & _). advance T T12.
      advance T T13. advance T T14. advance T T15.
      eexists. split; [exact T|]. simpl app.
      apply (scoped_bracket db _ stmt rcf
               [EvBindBlob stmt 1 bytes1 len1 rc1;
                EvBindBlob stmt 2 bytes2 len2 rc2;
                EvStep stmt rc; EvColumnDouble stmt 0 result]).
      simpl. rewrite !Z.eqb_refl. reflexivity.
    + apply ret_inv in H12 as [_ ->].
      advance T T13. advance T T14. advance T T15.
      eexists. split; [exact T|]. simpl app.
      apply (scoped_bracket db _ stmt rcf
               [EvBindBlob stmt 1 bytes1 len1 rc1;
                EvBindBlob stmt 2 bytes2 len2 rc2;
                EvStep stmt rc]).
      simpl. rewrite !Z.eqb_refl. reflexivity.
  - next_call H msg w5 H5. apply call_inv in H5 as (_ & T5 & _).
    advance T T5.
    next_call H u0 w6 H6. apply emit_inv in H6 as (_ & _ & T6). advance T T6.
    apply ret_inv in H as [_ ->].
    eexists. split; [exact T|]. simpl. rewrite Hrc. reflexivity.
Qed.

Lemma nativeVectorLength_releases w db vector r w' :
  JniCpp.Java_com_sqlite_vec_SQLiteVec_nativeVectorLength eng db vector w
  = Ret r w' ->
  releases w w'.
Proof.
  unfold JniCpp.Java_com_sqlite_vec_SQLiteVec_nativeVectorLength. cbv zeta.
  intros H. assert (T : trace w = trace w ++ []) by (rewrite app_nil_r; easy).
  destruct (db =? 0).
  { apply ret_inv in H as [_ ->]. exists []. split; [exact T | reflexivity]. }
  next_call H p w1 H1. apply call_inv in H1 as (_ & T1 & _).
  destruct p as [rc stmt]. cbn [fst snd] in T1. advance T T1.
  destruct (rc =? SQLITE_OK) eqn:Hrc; cbn [negb] in H.
  - apply Z.eqb_eq in Hrc. subst rc.
    next_call H len w2 H2. apply GetArrayLength_inv in H2 as [-> _].
    next_call H bytes w3 H3.
    apply GetByteArrayElements_inv in H3 as [(_ & _ & T3) _]. advance T T3.
    next_call H rc1 w4 H4. apply call_inv in H4 as (_ & T4 & _).
    advance T T4.
    next_call H rc w5 H5. apply call_inv in H5 as (_ & T5 & _).
    advance T T5.
    next_call H result w6 H6.
    next_call H u1 w7 H7.
    apply ReleaseByteArrayElements_inv in H7 as (_ & T7 & _).
    next_call H rcf w8 H8. apply call_inv in H8 as (_ & T8 & _).
    apply ret_inv in H as [_ ->].
    destruct (rc =? SQLITE_ROW).
    + apply call_inv in H6 as (_ & T6 & _). advance T T6.
      advance T T7. advance T T8.
      eexists. split; [exact T|]. simpl app.
      apply (scoped_bracket db _ stmt rcf
               [EvBindBlob stmt 1 bytes len rc1; EvStep stmt rc;
                EvColumnInt stmt 0 result]).
      simpl. rewrite !Z.eqb_refl. reflexivity.
    + apply ret_inv in H6 as [_ ->].
      advance T T7. advance T T8.
      eexists. split; [exact T|]. simpl app.
      apply (scoped_bracket db _ stmt rcf
               [EvBindBlob stmt 1 bytes len rc1; EvStep stmt rc]).
      simpl. rewrite !Z.eqb_refl. reflexivity.
  - apply ret_inv in H as [_ ->].
    eexists. split; [exact T|]. simpl. rewrite Hrc. reflexivity.
Qed.

Lemma nativeNormalize_releases w db vector r w' :
  JniCpp.Java_com_sqlite_vec_SQLiteVec_nativeNormalize eng db vector w
  = Ret r w' ->
  releases w w'.
Proof.
  unfold JniCpp.Java_com_sqlite_vec_SQLiteVec_nativeNormalize. cbv zeta.
  intros H. assert (T : trace w = trace w ++ []) by (rewrite app_nil_r; easy).
  destruct (db =? 0).
  { apply ret_inv in H as [_ ->]. exists []. split; [exact T | reflexivity]. }
  next_call H p w1 H1. apply call_inv in H1 as (_ & T1 & _).
  destruct p as [rc stmt]. cbn [fst snd] in T1. advance T T1.
  destruct (rc =? SQLITE_OK) eqn:Hrc; cbn [negb] in H.
  - apply Z.eqb_eq in Hrc. subst rc.
    next_call H len w2 H2. apply GetArrayLength_inv in H2 as [-> _].
    next_call H bytes w3 H3.
    apply GetByteArrayElements_inv in H3 as [(_ & _ & T3) _]. advance T T3.
    next_call H rc1 w4 H4. apply call_inv in H4 as (_ & T4 & _).
    advance T T4.
    next_call H rc w5 H5. apply call_inv in H5 as (_ & T5 & _).
    advance T T5.
    next_call H result w6 H6.
    next_call H u1 w7 H7.
    apply ReleaseByteArrayElements_inv in H7 as (_ & T7 & _).
    next_call H rcf w8 H8. apply call_inv in H8 as (_ & T8 & _).
    apply ret_inv in H as [_ ->].
    destruct (rc =? SQLITE_ROW).
    + next_call H6 blob w9 H9. apply call_inv in H9 as (_ & T9 & _).
      advance T T9.
      next_call H6 n w10 H10. apply call_inv in H10 as (_ & T10 & _).
      advance T T10.
      next_call H6 made w11 H11.
      apply NewByteArray_inv in H11 as (_ & T11 & _). advance T T11.
      next_call H6 u2 w12 H12. apply ret_inv in H6 as [_ ->].
      destruct made as [l|]; cbn [is_null negb] in H12.
      * apply SetByteArrayRegion_inv in H12
          as (_ & l0 & _ & [[_ T12] | (a & _ & T12)]);
          advance T T12; advance T T7; advance T T8;
          (eexists; split; [exact T|]); simpl app.
        -- apply (scoped_bracket db _ stmt rcf
                    [EvBindBlob stmt 1 bytes len rc1; EvStep stmt rc;
                     EvColumnBlob stmt 0 blob; EvColumnBytes stmt 0 n]).
           simpl. rewrite !Z.eqb_refl. reflexivity.
        -- apply (scoped_bracket db _ stmt rcf
                    [EvBindBlob stmt 1 bytes len rc1; EvStep stmt rc;
                     EvColumnBlob stmt 0 blob; EvColumnBytes stmt 0 n;
                     EvSetRegion l0 0 n]).
           simpl. rewrite !Z.eqb_refl. reflexivity.
      * apply ret_inv in H12 as [_ ->].
        advance T T7. advance T T8.
        eexists. split; [exact T|]. simpl app.
        apply (scoped_bracket db _ stmt rcf
                 [EvBindBlob stmt 1 bytes len rc1; EvStep stmt rc;
                  EvColumnBlob stmt 0 blob; EvColumnBytes stmt 0 n]).
        simpl. rewrite !Z.eqb_refl. reflexivity.
    + apply ret_inv in H6 as [_ ->].
      advance T T7. advance T T8.
      eexists. split; [exact T|]. simpl app.
      apply (scoped_bracket db _ stmt rcf
               [EvBindBlob stmt 1 bytes len rc1; EvStep stmt rc]).
      simpl. rewrite !Z.eqb_refl. reflexivity.
  - apply ret_inv in H as [_ ->].
    eexists. split; [exact T|]. simpl. rewrite Hrc. reflexivity.
Qed.

Lemma nativeIsLoaded_releases w db r w' :
  JniC.Java_com_sqlite_vec_SQLiteVec_nativeIsLoaded eng db w = Ret r w' ->
  releases w w'.
Proof.
  unfold JniC.Java_com_sqlite_vec_SQLiteVec_nativeIsLoaded. cbv zeta.
  intros H. assert (T : trace w = trace w ++ []) by (rewrite app_nil_r; easy).
  next_call H p w1 H1. apply call_inv in H1 as (_ & T1 & _).
  destruct p as [rc stmt]. cbn [fst snd] in T1. advance T T1.
  destruct (rc =? SQLITE_OK) eqn:Hrc; cbn [negb] in H.
  - apply Z.eqb_eq in Hrc. subst rc.
    next_call H rc w2 H2. apply call_inv in H2 as (_ & T2 & _).
    advance T T2.
    next_call H rcf w3 H3. apply call_inv in H3 as (_ & T3 & _).
    advance T T3.
    apply ret_inv in H as [_ ->].
    eexists. split; [exact T|]. simpl app.
    apply (scoped_bracket db _ stmt rcf [EvStep stmt rc]).
    simpl. rewrite !Z.eqb_refl. reflexivity.
  - apply ret_inv in H as [_ ->].
    eexists. split; [exact T|]. simpl. rewrite Hrc. reflexivity.
Qed.

End Scoping.

(** The calls do return: given byte arrays as vector arguments, a runtime
    that grants the memory asked for and an engine that keeps the contract
    for BLOB columns, every Query Adapter operation returns. *)
Lemma query_returns {E} (eng : Engine E) (w : World E) (q : query) :
  served w q -> granted w -> blob_contract eng ->
  exists a w', run_query eng q w = Ret a w'.
Proof.
  intros Hserved Hg Hblob.
  destruct q as [db v1 v2 metric|db v|db v|db]; simpl in Hserved; simpl.
  - destruct Hserved as (bs1 & bs2 & H1 & H2).
    destruct (nativeDistance_run eng w db v1 v2 metric bs1 bs2 H1 H2 Hg)
      as (r & w' & _ & Hrun & _).
    rewrite bind_run, Hrun, ret_run. eauto.
  - destruct Hserved as (bs & Hv).
    unfold JniCpp.Java_com_sqlite_vec_SQLiteVec_nativeVectorLength.
    cbv zeta. unfold_engine_calls. rewrite bind_run.
    destruct (db =? 0); [rewrite !ret_run; eauto|].
    run_engine (eng_prepare_v2 eng db "SELECT vec_length(?)" (engine w))
      as [[rc stmt] e1].
    destruct (rc =? SQLITE_OK); cbn [negb]; [|rewrite !ret_run; eauto].
    run_length v (JBytes bs) Hv. cbn [array_length].
    run_pin v bs Hv.
    run_engine (eng_bind_blob eng stmt 1 (Some bs)
                  (Z.of_nat (length bs)) e1) as [rc1 e2].
    run_engine (eng_step eng stmt e2) as [rc2 e3].
    destruct (rc2 =? SQLITE_ROW).
    + run_engine (eng_column_int eng stmt 0 e3) as [n e4].
      run_unpin v bs Hv.
      run_engine (eng_finalize eng stmt e4) as [rcf e5].
      rewrite !ret_run. eauto.
    + rewrite bind_run, ret_run.
      run_unpin v bs Hv.
      run_engine (eng_finalize eng stmt e3) as [rcf e4].
      rewrite !ret_run. eauto.
  - destruct Hserved as (bs & Hv).
    destruct (nativeNormalize_run eng w db v bs Hv Hg Hblob)
      as (r & w' & _ & Hrun & _).
    rewrite bind_run, Hrun, ret_run. eauto.
  - unfold JniC.Java_com_sqlite_vec_SQLiteVec_nativeIsLoaded.
    cbv zeta. unfold_engine_calls. rewrite bind_run.
    run_engine (eng_prepare_v2 eng db "SELECT vec_version()" (engine w))
      as [[rc stmt] e1].
    destruct (rc =? SQLITE_OK); cbn [negb]; [|rewrite !ret_run; eauto].
    run_engine (eng_step eng stmt e1) as [rc2 e2].
    run_engine (eng_finalize eng stmt e2) as [rcf e3].
    rewrite !ret_run. eauto.
Qed.

(** C8.  Every Query Adapter operation that prepares a statement with
    success finalizes that statement before it returns, on every path by
    which it returns, and works on no statement but the one it prepared
    itself.  Of the engine calls the operation made, from its first to its
    last: they pass the check [scoped] starting and ending with no
    statement held, and every successful [sqlite3_prepare_v2] among them is
    followed by a [sqlite3_finalize] of the statement it gave.  This holds
    for every engine, whatever its answers. *)
Theorem query_statements_released {E} (eng : Engine E) (q : query)
    (w : World E) (a : answer) (w' : World E) :
  run_query eng q w = Ret a w' ->
  exists events : list Event,
    trace w' = trace w ++ events
    /\ scoped [] events = true
    /\ forall before db sql stmt rest,
         events = before ++ EvPrepare db sql SQLITE_OK stmt :: rest ->
         exists middle rc after, rest = middle ++ EvFinalize stmt rc :: after.
Proof.
  intros H.
  assert (Hrel : releases w w').
  { destruct q as [db v1 v2 metric|db v|db v|db]; simpl in H;
      next_call H r w1 H1; apply ret_inv in H as [_ ->].
    - exact (nativeDistance_releases eng _ _ _ _ _ _ _ H1).
    - exact (nativeVectorLength_releases eng _ _ _ _ _ H1).
    - exact (nativeNormalize_releases eng _ _ _ _ _ H1).
    - exact (nativeIsLoaded_releases eng _ _ _ _ H1). }
  destruct Hrel as (events & Ht & Hs). exists events.
  split; [exact Ht|]. split; [exact Hs|].
  exact (scoped_prepared_is_finalized [] events Hs).
Qed.

Lemma query_statements_released_witness :
  exists a w' events,
    run_query Toy.toy (Normalize 5 (Some 0%nat))
      (Toy.world [JBytes [x00; x00; x00; x40]] Toy.healthy) = Ret a w'
    /\ trace w'
       = trace (Toy.world [JBytes [x00; x00; x00; x40]] Toy.healthy)
         ++ events
    /\ scoped [] events = true.
Proof.
  do 2 eexists.
  assert (Hrun : run_query Toy.toy (Normalize 5 (Some 0%nat))
                   (Toy.world [JBytes [x00; x00; x00; x40]] Toy.healthy)
                 = Ret _ _) by (vm_compute; reflexivity).
  destruct (query_statements_released Toy.toy _ _ _ _ Hrun)
    as (events & Ht & Hs & _).
  exists events. split; [exact Hrun|]. split; [exact Ht | exact Hs].
Defined.

(** ** Where the two sources agree *)

Lemma run_shared_array {E} (w : World E) (a : jarray) (n : Z)
    (m1 m2 : M E jobject) :
  makes w a n (m1 w) -> makes w a n (m2 w) ->
  exists r w1 w2,
    (x ← m1; mret (RArray x)) w = Ret r w1
    /\ (x ← m2; mret (RArray x)) w = Ret r w2
    /\ heap w1 = heap w2 /\ engine w1 = engine w2.
Proof.
  intros H1 H2.
  destruct (sources_agree_when_both_make w a n _ _ H1 H2)
    as (r & w1 & w2 & Hr1 & Hr2 & Hh & He & _).
  exists (RArray r), w1, w2. rewrite !bind_run, Hr1, Hr2, !ret_run.
  split; [reflexivity|]. split; [reflexivity|]. split; assumption.
Qed.

(** Where the two sources do agree.  On every input within the guards of
    the C++ source, each operation exported by both sources returns the
    same result whichever source is linked, and leaves the same Java heap
    and the same engine state.  Outside the guards the C source lacks a
    check the C++ source makes, and does not return what the C++ source
    returns. *)
Theorem sources_agree_within_guards {E} (eng : Engine E) (host : byte_order)
    (version : string) (w : World E) (c : shared_call) :
  within_guards w c ->
  exists (r : shared_result) (w1 w2 : World E),
    run_shared eng host version SourceC c w = Ret r w1
    /\ run_shared eng host version SourceCpp c w = Ret r w2
    /\ heap w1 = heap w2
    /\ engine w1 = engine w2.
Proof.
  intros Hguard. destruct c as [db| |vector|data|vector]; simpl in Hguard.
  - destruct (sources_agree_on_nativeInit eng w db Hguard)
      as (rc & w1 & w2 & H1 & H2 & Hh & He & _).
    exists (RStatus rc), w1, w2. simpl.
    rewrite !bind_run, H1, H2, !ret_run.
    split; [reflexivity|]. split; [reflexivity|]. split; assumption.
  - simpl.
    destruct ((s ← JniC.Java_com_sqlite_vec_SQLiteVec_nativeGetVersion
                     version; mret (RString s)) w) as [r w1|] eqn:Hrun.
    + exists r, w1, w1. split; [reflexivity|]. split; [exact Hrun|].
      split; reflexivity.
    + exfalso. revert Hrun.
      unfold JniC.Java_com_sqlite_vec_SQLiteVec_nativeGetVersion,
        NewStringUTF.
      rewrite !bind_run. destruct (jni_alloc_run w) as (b & p & ->).
      rewrite !ret_run. discriminate.
  - destruct Hguard as (v & Hv & Hwf & Hfit & Hg).
    apply (run_shared_array w (JBytes (bytes_of_floats host v))
             (4 * Z.of_nat (length v))).
    + apply c_SerializeFloat32_exact; assumption.
    + apply cpp_SerializeFloat32_exact; assumption.
  - destruct Hguard as (bs & Hd & Hjava & Hmod & Hg).
    destruct (c_DeserializeFloat32_run host w data bs Hd Hg Hjava)
      as (fs & Hfs & Hc).
    destruct (cpp_DeserializeFloat32_run host w data bs Hd Hg Hjava Hmod)
      as (fs' & Hfs' & Hcpp).
    rewrite Hfs in Hfs'. injection Hfs' as <-.
    apply (run_shared_array w (JFloats fs) (Z.of_nat (length bs) / 4));
      assumption.
  - destruct Hguard as (bs & Hd & Hg).
    apply (run_shared_array w (JBytes bs) (Z.of_nat (length bs))).
    + apply c_SerializeInt8_run; assumption.
    + apply cpp_SerializeInt8_run; assumption.
Qed.

Lemma sources_agree_within_guards_witness :
  exists r w1 w2,
    run_shared Toy.toy LittleEndian "v0.1.6" SourceC
      (CallDeserializeFloat32 (Some 0%nat))
      (Toy.world [JBytes [x00; x00; x80; x3f]] Toy.healthy) = Ret r w1
    /\ run_shared Toy.toy LittleEndian "v0.1.6" SourceCpp
         (CallDeserializeFloat32 (Some 0%nat))
         (Toy.world [JBytes [x00; x00; x80; x3f]] Toy.healthy) = Ret r w2
    /\ heap w1 = heap w2
    /\ engine w1 = engine w2.
Proof.
  apply (sources_agree_within_guards Toy.toy LittleEndian "v0.1.6"
           (Toy.world [JBytes [x00; x00; x80; x3f]] Toy.healthy)
           (CallDeserializeFloat32 (Some 0%nat))).
  exists [x00; x00; x80; x3f].
  split; [reflexivity|]. split; [vm_compute; discriminate|].
  split; reflexivity.
Defined.

(** * Further properties *)

(** ** Buffers read as floats and written back *)

Lemma byte_of_Z_mod (z : Z) (b : byte) :
  z mod 256 = Z_of_byte b -> byte_of_Z z = b.
Proof.
  intros H. unfold byte_of_Z. rewrite H. unfold Z_of_byte.
  rewrite N2Z.id, Byte.of_to_N. reflexivity.
Qed.

Lemma float_of_le_range (b0 b1 b2 b3 : byte) :
  is_float32 (float_of_le b0 b1 b2 b3).
Proof.
  unfold is_float32, float_of_le.
  pose proof (Z_of_byte_range b0). pose proof (Z_of_byte_range b1).
  pose proof (Z_of_byte_range b2). pose proof (Z_of_byte_range b3).
  change (2 ^ 8) with 256. change (2 ^ 16) with 65536.
  change (2 ^ 24) with 16777216. change (2 ^ 32) with 4294967296.
  lia.
Qed.

Lemma float_le_bytes_of_le (b0 b1 b2 b3 : byte) :
  float_le_bytes (float_of_le b0 b1 b2 b3) = [b0; b1; b2; b3].
Proof.
  unfold float_le_bytes, float_of_le.
  pose proof (Z_of_byte_range b0). pose proof (Z_of_byte_range b1).
  pose proof (Z_of_byte_range b2). pose proof (Z_of_byte_range b3).
  change (2 ^ 8) with 256. change (2 ^ 16) with 65536.
  change (2 ^ 24) with 16777216.
  repeat f_equal; apply byte_of_Z_mod; Z.div_mod_to_equations; lia.
Qed.

Lemma store_load_float (host : byte_order) (b0 b1 b2 b3 : byte) :
  store_float host (load_float host b0 b1 b2 b3) = [b0; b1; b2; b3].
Proof.
  destruct host; cbn [store_float load_float];
    rewrite float_le_bytes_of_le; reflexivity.
Qed.

(** The floats read from a buffer spell, in memory, the bytes they were
    read from. *)
Lemma bytes_of_floats_of_bytes (host : byte_order) (n : nat)
    (bs : list byte) (fs : list Z) :
  floats_of_bytes host n bs = Some fs ->
  bytes_of_floats host fs = take (4 * n) bs /\ Forall is_float32 fs.
Proof.
  revert bs fs. induction n as [|n IH]; intros bs fs; simpl floats_of_bytes.
  - intros [= <-]. split; [reflexivity | constructor].
  - destruct bs as [|b0 [|b1 [|b2 [|b3 rest]]]]; try discriminate.
    destruct (floats_of_bytes host n rest) as [fs'|] eqn:Hrest;
      [|discriminate].
    intros [= <-]. destruct (IH rest fs' Hrest) as [Himg Hwf].
    split.
    + unfold bytes_of_floats in *. simpl flat_map.
      rewrite store_load_float, Himg.
      replace (4 * S n)%nat with (S (S (S (S (4 * n))))) by lia.
      reflexivity.
    + constructor; [|exact Hwf].
      destruct host; simpl; apply float_of_le_range.
Qed.

(** The image of a float on a host, read on a host of the other byte
    order, is the float with its bytes swapped. *)
Lemma floats_of_bytes_swapped (host : byte_order) (v : list Z)
    (rest : list byte) :
  floats_of_bytes (opposite host) (length v) (bytes_of_floats host v ++ rest)
  = Some (map byte_swap v).
Proof.
  induction v as [|f v IH]; [reflexivity|].
  unfold bytes_of_floats in *. simpl flat_map. rewrite <- app_assoc.
  remember (flat_map (store_float host) v ++ rest) as tl eqn:Htl.
  cbn [length].
  destruct host; unfold store_float, float_le_bytes;
    cbn [rev app opposite floats_of_bytes] in *; rewrite IH;
    reflexivity.
Qed.

(** X1.  The C function [nativeDeserializeFloat32] turns no buffer down:
    for a byte array of any length it returns a new vector of
    [length / 4] floats, rounded down, whose memory image is the leading
    [4 * (length / 4)] bytes of the buffer; the bytes after those are
    dropped without notice.  The runtime is assumed to grant the memory
    the call asks for. *)
Theorem c_DeserializeFloat32_leading_bytes {E} (host : byte_order)
    (w : World E) (data : loc) (bs : list byte) :
  heap w !! data = Some (JBytes bs) ->
  java_array (JBytes bs) ->
  granted w ->
  exists (output : loc) (w' : World E) (fs : list Z),
    run_marshaller host (DeserializeFloat32 SourceC) (Some data) w
    = Ret (Some output) w'
    /\ heap w' !! output = Some (JFloats fs)
    /\ Z.of_nat (length fs) = Z.of_nat (length bs) / 4
    /\ bytes_of_floats host fs = take (4 * length fs) bs.
Proof.
  intros Hd Hjava Hg.
  destruct (c_DeserializeFloat32_run host w (Some data) bs Hd Hg Hjava)
    as (fs & Hfs & Hmakes).
  destruct (makes_lookup _ _ _ _ Hmakes) as (output & w' & Hrun & Hout & _).
  pose proof (floats_of_bytes_length host _ _ _ Hfs) as Hlen.
  destruct (bytes_of_floats_of_bytes host _ _ _ Hfs) as [Himg _].
  exists output, w', fs. split; [exact Hrun|]. split; [exact Hout|].
  rewrite Hlen. split; [|exact Himg].
  unfold floats_in. apply Z2Nat.id. Z.div_mod_to_equations. lia.
Qed.

Lemma c_DeserializeFloat32_leading_bytes_witness :
  exists output w' fs,
    run_marshaller LittleEndian (DeserializeFloat32 SourceC) (Some 0%nat)
      (Toy.world [JBytes ragged_buffer] Toy.healthy)
    = Ret (Some output) w'
    /\ heap w' !! output = Some (JFloats fs)
    /\ Z.of_nat (length fs) = Z.of_nat (length ragged_buffer) / 4
    /\ bytes_of_floats LittleEndian fs = take (4 * length fs) ragged_buffer.
Proof.
  apply (c_DeserializeFloat32_leading_bytes LittleEndian
           (Toy.world [JBytes ragged_buffer] Toy.healthy) 0%nat
           ragged_buffer).
  - reflexivity.
  - vm_compute. discriminate.
  - reflexivity.
Defined.

(** X2.  The round trip in the other direction.  For every byte buffer
    whose length is a multiple of 4, on a host of either byte order and
    with either source linked: deserializing the buffer returns a new
    vector, and serializing that vector returns a new buffer holding the
    bytes of the first, byte for byte, whatever patterns they spell.  The
    runtime is assumed to grant the memory the calls ask for. *)
Theorem float32_buffer_round_trip {E} (host : byte_order) (w : World E)
    (de_src ser_src : source_file) (data : loc) (bs : list byte) :
  heap w !! data = Some (JBytes bs) ->
  java_array (JBytes bs) ->
  Z.of_nat (length bs) mod 4 = 0 ->
  granted w ->
  exists (vector : loc) (w1 : World E) (buffer : loc) (w2 : World E),
    run_marshaller host (DeserializeFloat32 de_src) (Some data) w
    = Ret (Some vector) w1
    /\ run_marshaller host (SerializeFloat32 ser_src) (Some vector) w1
       = Ret (Some buffer) w2
    /\ heap w2 !! buffer = Some (JBytes bs)
    /\ buffer <> data.
Proof.
  intros Hd Hjava Hmod Hg.
  assert (Hde : exists fs,
             floats_of_bytes host (floats_in bs) bs = Some fs
             /\ makes w (JFloats fs) (Z.of_nat (length bs) / 4)
                  (run_marshaller host (DeserializeFloat32 de_src)
                     (Some data) w)).
  { destruct de_src; simpl.
    - apply c_DeserializeFloat32_run; assumption.
    - apply cpp_DeserializeFloat32_run; assumption. }
  destruct Hde as (fs & Hfs & Hmakes).
  destruct (makes_lookup _ _ _ _ Hmakes)
    as (vector & w1 & Hrun1 & Hvec & Hfresh & Hg1).
  pose proof (floats_of_bytes_length host _ _ _ Hfs) as Hlen.
  destruct (bytes_of_floats_of_bytes host _ _ _ Hfs) as [Himg Hwf].
  assert (Hcount : Z.of_nat (floats_in bs) = Z.of_nat (length bs) / 4)
    by (unfold floats_in; apply Z2Nat.id; Z.div_mod_to_equations; lia).
  assert (Hwhole : bytes_of_floats host fs = bs).
  { rewrite Himg. apply take_ge. Z.div_mod_to_equations. lia. }
  unfold java_array in Hjava. cbn [array_length] in Hjava.
  assert (Hfit : 4 * Z.of_nat (length fs) <= jsize_max)
    by (rewrite Hlen, Hcount; Z.div_mod_to_equations; lia).
  pose proof (SerializeFloat32_makes host ser_src w1 vector fs Hvec Hwf Hfit
                Hg1) as Hmakes2.
  rewrite Hwhole in Hmakes2.
  destruct (makes_lookup _ _ _ _ Hmakes2)
    as (buffer & w2 & Hrun2 & Hbuf & Hfresh2 & _).
  exists vector, w1, buffer, w2.
  split; [exact Hrun1|]. split; [exact Hrun2|]. split; [exact Hbuf|].
  apply lookup_lt_Some in Hd.
  destruct Hmakes as (w1' & Heq & Hh1 & _). rewrite Hrun1 in Heq.
  injection Heq as _ <-.
  rewrite Hfresh2, Hh1, length_app. simpl. lia.
Qed.

Lemma float32_buffer_round_trip_witness :
  exists vector w1 buffer w2,
    run_marshaller BigEndian (DeserializeFloat32 SourceCpp) (Some 0%nat)
      (Toy.world [JBytes [x7f; xc0; x00; x01; x00; x00; x80; x3f]]
         Toy.healthy)
    = Ret (Some vector) w1
    /\ run_marshaller BigEndian (SerializeFloat32 SourceC) (Some vector) w1
       = Ret (Some buffer) w2
    /\ heap w2 !! buffer
       = Some (JBytes [x7f; xc0; x00; x01; x00; x00; x80; x3f])
    /\ buffer <> 0%nat.
Proof.
  apply (float32_buffer_round_trip BigEndian
           (Toy.world [JBytes [x7f; xc0; x00; x01; x00; x00; x80; x3f]]
              Toy.healthy)
           SourceCpp SourceC 0%nat
           [x7f; xc0; x00; x01; x00; x00; x80; x3f]).
  - reflexivity.
  - vm_compute. discriminate.
  - reflexivity.
  - reflexivity.
Defined.

(** X3.  The sources never convert byte order.  A buffer serialized on a
    host of one byte order and deserialized on a host of the other does
    not give the vector back: it gives, element for element, the patterns
    of the vector with their four bytes reversed.  Either source may be
    linked on either side; the runtime is assumed to grant the memory the
    calls ask for. *)
Theorem float32_across_byte_orders {E} (host : byte_order) (w : World E)
    (ser_src de_src : source_file) (input : loc) (v : list Z) :
  heap w !! input = Some (JFloats v) ->
  Forall is_float32 v ->
  4 * Z.of_nat (length v) <= jsize_max ->
  granted w ->
  exists (buffer : loc) (w1 : World E) (output : loc) (w2 : World E),
    run_marshaller host (SerializeFloat32 ser_src) (Some input) w
    = Ret (Some buffer) w1
    /\ run_marshaller (opposite host) (DeserializeFloat32 de_src)
         (Some buffer) w1
       = Ret (Some output) w2
    /\ heap w2 !! output = Some (JFloats (map byte_swap v)).
Proof.
  intros Hin Hwf Hfit Hg.
  destruct (makes_lookup _ _ _ _
              (SerializeFloat32_makes host ser_src w input v Hin Hwf Hfit Hg))
    as (buffer & w1 & Hser & Hbuf & _ & Hg1).
  set (bs := bytes_of_floats host v) in *.
  assert (Hlen : Z.of_nat (length bs) = 4 * Z.of_nat (length v))
    by (unfold bs; rewrite length_bytes_of_floats; lia).
  assert (Hcount : floats_in bs = length v)
    by (unfold floats_in; rewrite Hlen; Z.div_mod_to_equations; lia).
  assert (Hjava : java_array (JBytes bs))
    by (unfold java_array; cbn [array_length]; lia).
  assert (Hmod : Z.of_nat (length bs) mod 4 = 0)
    by (rewrite Hlen; Z.div_mod_to_equations; lia).
  assert (Hread : floats_of_bytes (opposite host) (floats_in bs) bs
                  = Some (map byte_swap v)).
  { rewrite Hcount. unfold bs.
    rewrite <- (app_nil_r (bytes_of_floats host v)).
    apply floats_of_bytes_swapped. }
  assert (Hde : exists fs,
             floats_of_bytes (opposite host) (floats_in bs) bs = Some fs
             /\ makes w1 (JFloats fs) (Z.of_nat (length bs) / 4)
                  (run_marshaller (opposite host) (DeserializeFloat32 de_src)
                     (Some buffer) w1)).
  { destruct de_src; simpl.
    - apply c_DeserializeFloat32_run; assumption.
    - apply cpp_DeserializeFloat32_run; assumption. }
  destruct Hde as (fs & Hfs & Hmakes).
  rewrite Hread in Hfs. injection Hfs as <-.
  destruct (makes_lookup _ _ _ _ Hmakes) as (output & w2 & Hde & Hout & _).
  exists buffer, w1, output, w2.
  split; [exact Hser|]. split; [exact Hde | exact Hout].
Qed.

Lemma float32_across_byte_orders_witness :
  exists buffer w1 output w2,
    run_marshaller LittleEndian (SerializeFloat32 SourceCpp) (Some 0%nat)
      (Toy.world [JFloats example_vector] Toy.healthy)
    = Ret (Some buffer) w1
    /\ run_marshaller (opposite LittleEndian) (DeserializeFloat32 SourceCpp)
         (Some buffer) w1
       = Ret (Some output) w2
    /\ heap w2 !! output = Some (JFloats (map byte_swap example_vector)).
Proof.
  apply (float32_across_byte_orders LittleEndian
           (Toy.world [JFloats example_vector] Toy.healthy)
           SourceCpp SourceCpp 0%nat example_vector).
  - reflexivity.
  - unfold example_vector, is_float32. repeat constructor; lia.
  - vm_compute. discriminate.
  - reflexivity.
Defined.

(** The float 1.0 with its bytes reversed is another pattern. *)
Example byte_swap_one : byte_swap 1065353216 = 32831.
Proof. reflexivity. Qed.

(** ** Initializing the extension, with a handle *)

(** X4.  [nativeInit] passes the status of the extension through.  With
    either source linked (and, for the C++ source, a handle that is not
    null): the call returns the status [sqlite3_vec_init] gave, unchanged;
    the message the extension handed out is given to [sqlite3_free] once,
    exactly when the status is a failure and the message is not null, and
    [sqlite3_free] is never called on a null pointer; nothing else reaches
    the engine and the Java heap is not touched. *)
Theorem nativeInit_status_and_message {E} (eng : Engine E)
    (host : byte_order) (version : string) (src : source_file)
    (w : World E) (db rc : Z) (msg : option string) (e : E) :
  eng_vec_init eng db (engine w) = ((rc, msg), e) ->
  (src = SourceCpp -> db <> 0) ->
  exists (w' : World E) (events : list Event),
    run_shared eng host version src (CallInit db) w = Ret (RStatus rc) w'
    /\ trace w' = trace w ++ events
    /\ filter (fun ev => is_engine_call ev) events
       = EvVecInit db rc msg
         :: (if negb (rc =? SQLITE_OK) && negb (is_null msg)
             then [EvFree msg] else [])
    /\ heap w' = heap w.
Proof.
  intros Hinit Hdb.
  assert (Hguard : src = SourceCpp -> (db =? 0) = false)
    by (intros Hsrc; apply Z.eqb_neq; auto).
  destruct src; simpl;
    unfold JniC.Java_com_sqlite_vec_SQLiteVec_nativeInit,
      JniCpp.Java_com_sqlite_vec_SQLiteVec_nativeInit;
    rewrite ?(Hguard eq_refl); cbv zeta;
    unfold sqlite3_vec_init, sqlite3_free, call, LOGE, LOGI, emit;
    unfold mbind, M_bind, mret, M_ret; rewrite Hinit; cbn [fst snd];
    world_simpl.
  - destruct (negb (rc =? SQLITE_OK) && negb (is_null msg)); world_simpl.
    + destruct (eng_free eng msg e) as [u e2].
      do 2 eexists. split; [reflexivity|]. world_simpl.
      rewrite <- !app_assoc. split; [reflexivity|]. split; reflexivity.
    + do 2 eexists. split; [reflexivity|]. world_simpl.
      split; [reflexivity|]. split; reflexivity.
  - destruct (rc =? SQLITE_OK); cbn [negb andb]; world_simpl.
    + do 2 eexists. split; [reflexivity|]. world_simpl.
      rewrite <- !app_assoc. split; [reflexivity|]. split; reflexivity.
    + destruct msg as [m|]; cbn [is_null negb]; world_simpl.
      * destruct (eng_free eng (Some m) e) as [u e2].
        do 2 eexists. split; [reflexivity|]. world_simpl.
        rewrite <- !app_assoc. split; [reflexivity|]. split; reflexivity.
      * do 2 eexists. split; [reflexivity|]. world_simpl.
        rewrite <- !app_assoc. split; [reflexivity|]. split; reflexivity.
Qed.

Lemma nativeInit_status_and_message_witness :
  exists w' events,
    run_shared Toy.toy LittleEndian "v0.1.6" SourceCpp (CallInit 5)
      (Toy.world [] Toy.unprepared) = Ret (RStatus 1) w'
    /\ trace w' = trace (Toy.world [] Toy.unprepared) ++ events
    /\ filter (fun ev => is_engine_call ev) events
       = EvVecInit 5 1 (Some "not authorized"%string)
         :: (if negb (1 =? SQLITE_OK)
                && negb (is_null (Some "not authorized"%string))
             then [EvFree (Some "not authorized"%string)] else [])
    /\ heap w' = heap (Toy.world [] Toy.unprepared).
Proof.
  apply (nativeInit_status_and_message Toy.toy LittleEndian "v0.1.6"
           SourceCpp (Toy.world [] Toy.unprepared) 5 1
           (Some "not authorized"%string) Toy.unprepared).
  - reflexivity.
  - intros _. lia.
Defined.

(** ** The probe and the length query *)




(** ** Every path by which a query returns *)

(** Carries the heap equation [Hh] across the step described by [Hs]. *)
Ltac carry Hh Hs :=
  let N := fresh in
  pose proof (eq_trans Hs Hh) as N; clear Hh Hs; rename N into Hh.

Section QueryPaths.
Context {E : Type}.
Variable eng : Engine E.
Implicit Types (w : World E).

(** A buffer released with [JNI_ABORT] was a buffer, and nothing moves. *)
Lemma ReleaseByteArrayElements_abort_inv w arr elems u w' :
  ReleaseByteArrayElements arr elems JNI_ABORT w = Ret u w' ->
  w' = w /\ exists bs, elems = Some bs.
Proof.
  unfold ReleaseByteArrayElements. destruct u.
  destruct arr as [l|]; [|discriminate].
  destruct (deref w (Some l)) as [[old|old]|]; try discriminate.
  destruct elems as [bs|]; [|discriminate].
  destruct (negb _); [discriminate|].
  rewrite Z.eqb_refl. intros [= <-]. split; [reflexivity | eauto].
Qed.

Lemma nativeDistance_paths w db vector1 vector2 metric r w' :
  JniCpp.Java_com_sqlite_vec_SQLiteVec_nativeDistance eng db vector1 vector2
    metric w = Ret r w' ->
  heap w' = heap w
  /\ exists events,
       trace w' = trace w ++ events /\ query_protocol events
       /\ (db <> 0 ->
           exists rc stmt rest,
             events = EvPrepare db (JniCpp.distance_sql (mutf8 metric))
                        rc stmt :: rest).
Proof.
  unfold JniCpp.Java_com_sqlite_vec_SQLiteVec_nativeDistance. cbv zeta.
  intros H. assert (T : trace w = trace w ++ []) by (rewrite app_nil_r; easy).
  assert (Hh : heap w = heap w) by reflexivity.
  destruct (db =? 0) eqn:Hdb.
  { apply ret_inv in H as [_ ->]. split; [exact Hh|].
    exists []. split; [exact T|]. split; [constructor|].
    apply Z.eqb_eq in Hdb. intros Hne. contradiction. }
  next_call H chars w1 H1.
  apply GetStringUTFChars_inv in H1 as [(Hh1 & _ & T1) Hchars].
  advance T T1. carry Hh Hh1.
  next_call H sql w2 H2.
  destruct chars as [s|]; [|discriminate]. apply ret_inv in H2 as [-> ->].
  destruct Hchars as [|[= ->]]; [discriminate|].
  next_call H u w3 H3. apply ReleaseStringUTFChars_inv in H3 as ->.
  next_call H p w4 H4. apply call_inv in H4 as (Hh4 & T4 & _).
  destruct p as [rc stmt]. cbn [fst snd] in T4. advance T T4.
  carry Hh Hh4.
  destruct (rc =? SQLITE_OK) eqn:Hrc; cbn [negb] in H.
  - apply Z.eqb_eq in Hrc. subst rc.
    next_call H len1 w5 H5. apply GetArrayLength_inv in H5 as [-> _].
    next_call H bytes1 w6 H6.
    apply GetByteArrayElements_inv in H6 as [(Hh6 & _ & T6) _].
    advance T T6. carry Hh Hh6.
    next_call H rc1 w7 H7. apply call_inv in H7 as (Hh7 & T7 & _).
    advance T T7. carry Hh Hh7.
    next_call H len2 w8 H8. apply GetArrayLength_inv in H8 as [-> _].
    next_call H bytes2 w9 H9.
    apply GetByteArrayElements_inv in H9 as [(Hh9 & _ & T9) _].
    advance T T9. carry Hh Hh9.
    next_call H rc2 w10 H10. apply call_inv in H10 as (Hh10 & T10 & _).
    advance T T10. carry Hh Hh10.
    next_call H rc w11 H11. apply call_inv in H11 as (Hh11 & T11 & _).
    advance T T11. carry Hh Hh11.
    next_call H result w12 H12.
    next_call H u1 w13 H13.
    apply ReleaseByteArrayElements_abort_inv in H13 as [-> _].
    next_call H u2 w14 H14.
    apply ReleaseByteArrayElements_abort_inv in H14 as [-> _].
    next_call H rcf w15 H15. apply call_inv in H15 as (Hh15 & T15 & _).
    apply ret_inv in H as [_ ->].
    destruct (rc =? SQLITE_ROW) eqn:Hrow.
    + apply call_inv in H12 as (Hh12 & T12 & _).
      advance T T12. carry Hh Hh12. advance T T15. carry Hh Hh15.
      split; [exact Hh|]. eexists. split; [exact T|]. simpl app.
      split; [|intros _; do 3 eexists; reflexivity].
      apply (protocol_stepped db _ stmt
               [EvBindBlob stmt 1 bytes1 len1 rc1;
                EvBindBlob stmt 2 bytes2 len2 rc2]
               rc [EvColumnDouble stmt 0 result] rcf).
      * simpl. rewrite !Z.eqb_refl. reflexivity.
      * simpl. rewrite !Z.eqb_refl. reflexivity.
      * apply Z.eqb_eq in Hrow. intros Hne. contradiction.
    + apply ret_inv in H12 as [_ ->].
      advance T T15. carry Hh Hh15.
      split; [exact Hh|]. eexists. split; [exact T|]. simpl app.
      split; [|intros _; do 3 eexists; reflexivity].
      apply (protocol_stepped db _ stmt
               [EvBindBlob stmt 1 bytes1 len1 rc1;
                EvBindBlob stmt 2 bytes2 len2 rc2]
               rc [] rcf).
      * simpl. rewrite !Z.eqb_refl. reflexivity.
      * reflexivity.
      * reflexivity.
  - apply Z.eqb_neq in Hrc.
    next_call H msg w5 H5. apply call_inv in H5 as (Hh5 & T5 & _).
    advance T T5. carry Hh Hh5.
    next_call H u0 w6 H6. apply emit_inv in H6 as (Hh6 & _ & T6).
    advance T T6. carry Hh Hh6.
    apply ret_inv in H as [_ ->].
    split; [exact Hh|]. eexists. split; [exact T|]. simpl app.
    split; [|intros _; do 3 eexists; reflexivity].
    apply protocol_not_prepared; [exact Hrc | reflexivity].
Qed.

Lemma nativeVectorLength_paths w db vector r w' :
  JniCpp.Java_com_sqlite_vec_SQLiteVec_nativeVectorLength eng db vector w
  = Ret r w' ->
  heap w' = heap w
  /\ exists events, trace w' = trace w ++ events /\ query_protocol events.
Proof.
  unfold JniCpp.Java_com_sqlite_vec_SQLiteVec_nativeVectorLength. cbv zeta.
  intros H. assert (T : trace w = trace w ++ []) by (rewrite app_nil_r; easy).
  assert (Hh : heap w = heap w) by reflexivity.
  destruct (db =? 0).
  { apply ret_inv in H as [_ ->]. split; [exact Hh|].
    exists []. split; [exact T | constructor]. }
  next_call H p w1 H1. apply call_inv in H1 as (Hh1 & T1 & _).
  destruct p as [rc stmt]. cbn [fst snd] in T1. advance T T1.
  carry Hh Hh1.
  destruct (rc =? SQLITE_OK) eqn:Hrc; cbn [negb] in H.
  - apply Z.eqb_eq in Hrc. subst rc.
    next_call H len w2 H2. apply GetArrayLength_inv in H2 as [-> _].
    next_call H bytes w3 H3.
    apply GetByteArrayElements_inv in H3 as [(Hh3 & _ & T3) _].
    advance T T3. carry Hh Hh3.
    next_call H rc1 w4 H4. apply call_inv in H4 as (Hh4 & T4 & _).
    advance T T4. carry Hh Hh4.
    next_call H rc w5 H5. apply call_inv in H5 as (Hh5 & T5 & _).
    advance T T5. carry Hh Hh5.
    next_call H result w6 H6.
    next_call H u1 w7 H7.
    apply ReleaseByteArrayElements_abort_inv in H7 as [-> _].
    next_call H rcf w8 H8. apply call_inv in H8 as (Hh8 & T8 & _).
    apply ret_inv in H as [_ ->].
    destruct (rc =? SQLITE_ROW) eqn:Hrow.
    + apply call_inv in H6 as (Hh6 & T6 & _).
      advance T T6. carry Hh Hh6. advance T T8. carry Hh Hh8.
      split; [exact Hh|]. eexists. split; [exact T|]. simpl app.
      apply (protocol_stepped db _ stmt [EvBindBlob stmt 1 bytes len rc1]
               rc [EvColumnInt stmt 0 result] rcf).
      * simpl. rewrite !Z.eqb_refl. reflexivity.
      * simpl. rewrite !Z.eqb_refl. reflexivity.
      * apply Z.eqb_eq in Hrow. intros Hne. contradiction.
    + apply ret_inv in H6 as [_ ->].
      advance T T8. carry Hh Hh8.
      split; [exact Hh|]. eexists. split; [exact T|]. simpl app.
      apply (protocol_stepped db _ stmt [EvBindBlob stmt 1 bytes len rc1]
               rc [] rcf).
      * simpl. rewrite !Z.eqb_refl. reflexivity.
      * reflexivity.
      * reflexivity.
  - apply Z.eqb_neq in Hrc. apply ret_inv in H as [_ ->].
    split; [exact Hh|]. eexists. split; [exact T|]. simpl app.
    apply protocol_not_prepared; [exact Hrc | reflexivity].
Qed.

Lemma nativeNormalize_paths w db vector r w' :
  JniCpp.Java_com_sqlite_vec_SQLiteVec_nativeNormalize eng db vector w
  = Ret r w' ->
  (exists new, heap w' = heap w ++ new /\ (length new <= 1)%nat)
  /\ exists events, trace w' = trace w ++ events /\ query_protocol events.
Proof.
  unfold JniCpp.Java_com_sqlite_vec_SQLiteVec_nativeNormalize. cbv zeta.
  intros H. assert (T : trace w = trace w ++ []) by (rewrite app_nil_r; easy).
  assert (Hh : heap w = heap w) by reflexivity.
  assert (Hsame : forall w0, heap w0 = heap w ->
            exists new, heap w0 = heap w ++ new /\ (length new <= 1)%nat).
  { intros w0 ->. exists []. rewrite app_nil_r. split; [reflexivity|].
    simpl. lia. }
  destruct (db =? 0).
  { apply ret_inv in H as [_ ->]. split; [apply Hsame; exact Hh|].
    exists []. split; [exact T | constructor]. }
  next_call H p w1 H1. apply call_inv in H1 as (Hh1 & T1 & _).
  destruct p as [rc stmt]. cbn [fst snd] in T1. advance T T1.
  carry Hh Hh1.
  destruct (rc =? SQLITE_OK) eqn:Hrc; cbn [negb] in H.
  - apply Z.eqb_eq in Hrc. subst rc.
    next_call H len w2 H2. apply GetArrayLength_inv in H2 as [-> _].
    next_call H bytes w3 H3.
    apply GetByteArrayElements_inv in H3 as [(Hh3 & _ & T3) _].
    advance T T3. carry Hh Hh3.
    next_call H rc1 w4 H4. apply call_inv in H4 as (Hh4 & T4 & _).
    advance T T4. carry Hh Hh4.
    next_call H rc w5 H5. apply call_inv in H5 as (Hh5 & T5 & _).
    advance T T5. carry Hh Hh5.
    next_call H result w6 H6.
    next_call H u1 w7 H7.
    apply ReleaseByteArrayElements_abort_inv in H7 as [-> _].
    next_call H rcf w8 H8. apply call_inv in H8 as (Hh8 & T8 & _).
    apply ret_inv in H as [_ ->].
    destruct (rc =? SQLITE_ROW) eqn:Hrow.
    + assert (Hnot : rc <> SQLITE_ROW -> False)
        by (apply Z.eqb_eq in Hrow; intros Hne; contradiction).
      next_call H6 blob w9 H9. apply call_inv in H9 as (Hh9 & T9 & _).
      advance T T9. carry Hh Hh9.
      next_call H6 n w10 H10. apply call_inv in H10 as (Hh10 & T10 & _).
      advance T T10. carry Hh Hh10.
      next_call H6 made w11 H11.
      apply NewByteArray_inv in H11 as (_ & T11 & Hmade). advance T T11.
      next_call H6 u2 w12 H12. apply ret_inv in H6 as [_ ->].
      destruct Hmade as [[-> Hh11] | (a & -> & Hh11)];
        cbn [is_null negb] in H12.
      * apply ret_inv in H12 as [_ ->]. carry Hh Hh11.
        advance T T8. carry Hh Hh8.
        split; [apply Hsame; exact Hh|].
        eexists. split; [exact T|]. simpl app.
        apply (protocol_stepped db _ stmt [EvBindBlob stmt 1 bytes len rc1]
                 rc [EvColumnBlob stmt 0 blob; EvColumnBytes stmt 0 n] rcf).
        -- simpl. rewrite !Z.eqb_refl. reflexivity.
        -- simpl. rewrite !Z.eqb_refl. reflexivity.
        -- intros Hne. destruct (Hnot Hne).
      * rewrite Hh in Hh11.
        apply SetByteArrayRegion_inv in H12
          as (_ & l0 & [= <-] & [[Hh12 T12] | (a' & Hh12 & T12)]).
        -- advance T T12. rewrite Hh11 in Hh12.
           advance T T8. rewrite Hh12 in Hh8.
           split; [exists [a]; split; [exact Hh8 | simpl; lia]|].
           eexists. split; [exact T|]. simpl app.
           apply (protocol_stepped db _ stmt
                    [EvBindBlob stmt 1 bytes len rc1]
                    rc [EvColumnBlob stmt 0 blob; EvColumnBytes stmt 0 n]
                    rcf).
           ++ simpl. rewrite !Z.eqb_refl. reflexivity.
           ++ simpl. rewrite !Z.eqb_refl. reflexivity.
           ++ intros Hne. destruct (Hnot Hne).
        -- advance T T12. rewrite Hh11, Hh, insert_last in Hh12.
           advance T T8. rewrite Hh12 in Hh8.
           split; [exists [a']; split; [exact Hh8 | simpl; lia]|].
           eexists. split; [exact T|]. simpl app.
           apply (protocol_stepped db _ stmt
                    [EvBindBlob stmt 1 bytes len rc1]
                    rc [EvColumnBlob stmt 0 blob; EvColumnBytes stmt 0 n;
                        EvSetRegion _ 0 n]
                    rcf).
           ++ simpl. rewrite !Z.eqb_refl. reflexivity.
           ++ simpl. rewrite !Z.eqb_refl. reflexivity.
           ++ intros Hne. destruct (Hnot Hne).
    + apply ret_inv in H6 as [_ ->].
      advance T T8. carry Hh Hh8.
      split; [apply Hsame; exact Hh|].
      eexists. split; [exact T|]. simpl app.
      apply (protocol_stepped db _ stmt [EvBindBlob stmt 1 bytes len rc1]
               rc [] rcf).
      * simpl. rewrite !Z.eqb_refl. reflexivity.
      * reflexivity.
      * reflexivity.
  - apply Z.eqb_neq in Hrc. apply ret_inv in H as [_ ->].
    split; [apply Hsame; exact Hh|].
    eexists. split; [exact T|]. simpl app.
    apply protocol_not_prepared; [exact Hrc | reflexivity].
Qed.

Lemma nativeIsLoaded_paths w db r w' :
  JniC.Java_com_sqlite_vec_SQLiteVec_nativeIsLoaded eng db w = Ret r w' ->
  heap w' = heap w
  /\ exists events, trace w' = trace w ++ events /\ query_protocol events.
Proof.
  unfold JniC.Java_com_sqlite_vec_SQLiteVec_nativeIsLoaded. cbv zeta.
  intros H. assert (T : trace w = trace w ++ []) by (rewrite app_nil_r; easy).
  assert (Hh : heap w = heap w) by reflexivity.
  next_call H p w1 H1. apply call_inv in H1 as (Hh1 & T1 & _).
  destruct p as [rc stmt]. cbn [fst snd] in T1. advance T T1.
  carry Hh Hh1.
  destruct (rc =? SQLITE_OK) eqn:Hrc; cbn [negb] in H.
  - apply Z.eqb_eq in Hrc. subst rc.
    next_call H rc w2 H2. apply call_inv in H2 as (Hh2 & T2 & _).
    advance T T2. carry Hh Hh2.
    next_call H rcf w3 H3. apply call_inv in H3 as (Hh3 & T3 & _).
    advance T T3. carry Hh Hh3.
    apply ret_inv in H as [_ ->].
    split; [exact Hh|]. eexists. split; [exact T|]. simpl app.
    apply (protocol_stepped db _ stmt [] rc [] rcf); reflexivity.
  - apply Z.eqb_neq in Hrc. apply ret_inv in H as [_ ->].
    split; [exact Hh|]. eexists. split; [exact T|]. simpl app.
    apply protocol_not_prepared; [exact Hrc | reflexivity].
Qed.

End QueryPaths.

(** X7.  Every Query Adapter operation deals with the engine in one
    order, on every path by which it returns and for every engine: it
    calls nothing; or it prepares one statement that fails to prepare and
    then at most reports the failure; or it prepares one statement, binds
    its parameters, steps it exactly once, reads columns only if that step
    gave a row, and finalizes it as its last call.  A second row is never
    asked for, and no column is read after a step that gave no row. *)
Theorem query_follows_protocol {E} (eng : Engine E) (q : query)
    (w : World E) (a : answer) (w' : World E) :
  run_query eng q w = Ret a w' ->
  exists events : list Event,
    trace w' = trace w ++ events /\ query_protocol events.
Proof.
  intros H.
  destruct q as [db v1 v2 metric|db v|db v|db]; simpl in H;
    next_call H r w1 H1; apply ret_inv in H as [_ ->].
  - destruct (nativeDistance_paths eng _ _ _ _ _ _ _ H1)
      as (_ & events & Ht & Hp & _).
    exists events. split; assumption.
  - exact (proj2 (nativeVectorLength_paths eng _ _ _ _ _ H1)).
  - exact (proj2 (nativeNormalize_paths eng _ _ _ _ _ H1)).
  - exact (proj2 (nativeIsLoaded_paths eng _ _ _ _ H1)).
Qed.

Lemma query_follows_protocol_witness :
  exists a w' events,
    run_query Toy.toy (VectorLength 5 (Some 0%nat))
      (Toy.world [JBytes [x00; x00; x80; x3f]] Toy.rowless) = Ret a w'
    /\ trace w'
       = trace (Toy.world [JBytes [x00; x00; x80; x3f]] Toy.rowless)
         ++ events
    /\ query_protocol events.
Proof.
  do 2 eexists.
  assert (Hrun : run_query Toy.toy (VectorLength 5 (Some 0%nat))
                   (Toy.world [JBytes [x00; x00; x80; x3f]] Toy.rowless)
                 = Ret _ _) by (vm_compute; reflexivity).
  destruct (query_follows_protocol Toy.toy _ _ _ _ Hrun)
    as (events & Ht & Hp).
  exists events. split; [exact Hrun|]. split; [exact Ht | exact Hp].
Defined.

(** X8.  The Query Adapter leaves the Java heap alone.  On every path by
    which an operation returns, for every engine and whatever the runtime
    does: every array that was in the heap is still there with the
    contents it had, the vector arguments among them; [Distance],
    [VectorLength] and [IsLoaded] leave the heap exactly as it was; and
    [Normalize] adds at most one array, the one it returns. *)
Theorem query_heap_frame {E} (eng : Engine E) (q : query) (w : World E)
    (a : answer) (w' : World E) :
  run_query eng q w = Ret a w' ->
  (forall (l : loc) (x : jarray),
     heap w !! l = Some x -> heap w' !! l = Some x)
  /\ (length (heap w') <= S (length (heap w)))%nat
  /\ match q with
     | Normalize _ _ => True
     | _ => heap w' = heap w
     end.
Proof.
  intros H.
  assert (Hsame : forall w0 : World E, heap w0 = heap w ->
            (forall (l : loc) (x : jarray),
               heap w !! l = Some x -> heap w0 !! l = Some x)
            /\ (length (heap w0) <= S (length (heap w)))%nat
            /\ heap w0 = heap w).
  { intros w0 ->. split; [trivial|]. split; [lia | reflexivity]. }
  destruct q as [db v1 v2 metric|db v|db v|db]; simpl in H;
    next_call H r w1 H1; apply ret_inv in H as [_ ->].
  - apply Hsame. exact (proj1 (nativeDistance_paths eng _ _ _ _ _ _ _ H1)).
  - apply Hsame. exact (proj1 (nativeVectorLength_paths eng _ _ _ _ _ H1)).
  - destruct (nativeNormalize_paths eng _ _ _ _ _ H1)
      as [(new & Hh & Hlen) _].
    rewrite Hh. split; [|split; [rewrite length_app; lia | exact I]].
    intros l x Hl. apply lookup_app_l_Some. exact Hl.
  - apply Hsame. exact (proj1 (nativeIsLoaded_paths eng _ _ _ _ H1)).
Qed.

Lemma query_heap_frame_witness :
  exists a w',
    run_query Toy.toy (Normalize 5 (Some 0%nat))
      (Toy.world [JBytes [x00; x00; x00; x40]] Toy.healthy) = Ret a w'
    /\ heap w' !! 0%nat = Some (JBytes [x00; x00; x00; x40])
    /\ (length (heap w') <= 2)%nat.
Proof.
  do 2 eexists.
  assert (Hrun : run_query Toy.toy (Normalize 5 (Some 0%nat))
                   (Toy.world [JBytes [x00; x00; x00; x40]] Toy.healthy)
                 = Ret _ _) by (vm_compute; reflexivity).
  destruct (query_heap_frame Toy.toy _ _ _ _ Hrun) as (Hkeep & Hlen & _).
  split; [exact Hrun|]. split; [|exact Hlen].
  apply Hkeep. reflexivity.
Defined.

(** ** When the runtime is out of memory *)

Section Refusals.
Context {E : Type}.
Variable host : byte_order.
Implicit Types (w : World E) (arr : jobject) (bs : list byte) (v : list Z).

Lemma jni_alloc_eq w : jni_alloc w = Ret (next_request w) (consume w).
Proof. destruct w as [h [|b p] e t]; reflexivity. Qed.

Lemma GetByteArrayElements_eq w arr bs :
  deref w arr = Some (JBytes bs) ->
  GetByteArrayElements arr w
  = Ret (if next_request w then Some bs else None) (consume w).
Proof.
  unfold GetByteArrayElements. intros ->.
  rewrite bind_run, jni_alloc_eq. reflexivity.
Qed.

Lemma GetFloatArrayElements_eq w arr v :
  deref w arr = Some (JFloats v) ->
  GetFloatArrayElements host arr w
  = Ret (if next_request w then Some (bytes_of_floats host v) else None)
      (consume w).
Proof.
  unfold GetFloatArrayElements. intros ->.
  rewrite bind_run, jni_alloc_eq. reflexivity.
Qed.

Lemma NewByteArray_eq w n :
  0 <= n ->
  NewByteArray n w
  = if next_request w
    then Ret (Some (length (heap w)))
           (with_heap (heap w ++ [JBytes (repeat x00 (Z.to_nat n))])
              (consume w))
    else Ret None (consume w).
Proof.
  intros Hn. unfold NewByteArray.
  destruct (n <? 0) eqn:Hneg; [lia|].
  rewrite bind_run, jni_alloc_eq. destruct (next_request w); reflexivity.
Qed.

Lemma NewFloatArray_eq w n :
  0 <= n ->
  NewFloatArray n w
  = if next_request w
    then Ret (Some (length (heap w)))
           (with_heap (heap w ++ [JFloats (repeat 0 (Z.to_nat n))])
              (consume w))
    else Ret None (consume w).
Proof.
  intros Hn. unfold NewFloatArray.
  destruct (n <? 0) eqn:Hneg; [lia|].
  rewrite bind_run, jni_alloc_eq. destruct (next_request w); reflexivity.
Qed.

(** A request that is refused gives no array, whatever the length asked
    for; at most the plan of the allocator has moved. *)
Lemma NewByteArray_refused w n :
  next_request w = false ->
  exists w', NewByteArray n w = Ret None w' /\ same_objects w w'.
Proof.
  intros Hb. unfold NewByteArray. destruct (n <? 0).
  - exists w. split; [reflexivity | repeat split].
  - rewrite bind_run, jni_alloc_eq, Hb. exists (consume w).
    split; [reflexivity | repeat split].
Qed.

Lemma NewFloatArray_refused w n :
  next_request w = false ->
  exists w', NewFloatArray n w = Ret None w' /\ same_objects w w'.
Proof.
  intros Hb. unfold NewFloatArray. destruct (n <? 0).
  - exists w. split; [reflexivity | repeat split].
  - rewrite bind_run, jni_alloc_eq, Hb. exists (consume w).
    split; [reflexivity | repeat split].
Qed.

(** The JNI functions handed a null reference or a null buffer. *)
Lemma SetByteArrayRegion_null start len buf w :
  SetByteArrayRegion None start len buf w = Undefined.
Proof. reflexivity. Qed.

Lemma SetFloatArrayRegion_null start len buf w :
  SetFloatArrayRegion host None start len buf w = Undefined.
Proof. reflexivity. Qed.

Lemma ReleaseByteArrayElements_null arr mode w :
  ReleaseByteArrayElements arr None mode w = Undefined.
Proof.
  unfold ReleaseByteArrayElements.
  destruct arr as [l|]; [|reflexivity].
  destruct (deref w (Some l)) as [[old|old]|]; reflexivity.
Qed.

Lemma ReleaseFloatArrayElements_null arr mode w :
  ReleaseFloatArrayElements host arr None mode w = Undefined.
Proof.
  unfold ReleaseFloatArrayElements.
  destruct arr as [l|]; [|reflexivity].
  destruct (deref w (Some l)) as [[old|old]|]; reflexivity.
Qed.

(** What follows a failed pin or a failed allocation in the C source: the
    copy is handed the null reference, or the release the null buffer. *)
Lemma c_bytes_tail_undefined (result : jobject) (n : Z) (elems : native_buf)
    arr w :
  is_null result || is_null elems = true ->
  (SetByteArrayRegion result 0 n elems;;
   ReleaseByteArrayElements arr elems 0;;
   mret result) w = Undefined.
Proof.
  intros Hnull. rewrite bind_run.
  destruct result as [l|]; [|reflexivity].
  destruct elems as [bs|]; [discriminate|].
  destruct (SetByteArrayRegion (Some l) 0 n None w) as [u w1|];
    [|reflexivity].
  rewrite bind_run, ReleaseByteArrayElements_null. reflexivity.
Qed.

Lemma c_SerializeInt8_refused w vector bs :
  deref w vector = Some (JBytes bs) -> refused w ->
  JniC.Java_com_sqlite_vec_SQLiteVec_nativeSerializeInt8 vector w
  = Undefined.
Proof.
  intros Hd Href.
  unfold JniC.Java_com_sqlite_vec_SQLiteVec_nativeSerializeInt8.
  run_with (GetArrayLength_run w vector _ Hd).
  run_with (GetByteArrayElements_eq w vector bs Hd).
  cbn [array_length].
  rewrite bind_run, NewByteArray_eq by lia.
  unfold refused in Href.
  destruct (next_request w), (next_request (consume w));
    try discriminate; apply c_bytes_tail_undefined; reflexivity.
Qed.

Lemma c_SerializeFloat32_refused w vector v :
  deref w vector = Some (JFloats v) ->
  4 * Z.of_nat (length v) <= jsize_max -> refused w ->
  JniC.Java_com_sqlite_vec_SQLiteVec_nativeSerializeFloat32 host vector w
  = Undefined.
Proof.
  intros Hd Hfit Href.
  unfold JniC.Java_com_sqlite_vec_SQLiteVec_nativeSerializeFloat32.
  run_with (GetArrayLength_run w vector _ Hd).
  run_with (GetFloatArrayElements_eq w vector v Hd).
  cbn [array_length]. rewrite byte_length_exact by lia.
  rewrite bind_run, NewByteArray_eq by lia.
  unfold refused in Href.
  assert (Htail : forall (result : jobject) (elems : native_buf) w0,
            is_null result || is_null elems = true ->
            (SetByteArrayRegion result 0 (4 * Z.of_nat (length v)) elems;;
             ReleaseFloatArrayElements host vector elems 0;;
             mret result) w0 = Undefined).
  { intros result elems w0 Hnull. rewrite bind_run.
    destruct result as [l|]; [|reflexivity].
    destruct elems as [bs|]; [discriminate|].
    destruct (SetByteArrayRegion (Some l) 0 _ None w0) as [u w1|];
      [|reflexivity].
    rewrite bind_run, ReleaseFloatArrayElements_null. reflexivity. }
  destruct (next_request w), (next_request (consume w));
    try discriminate; apply Htail; reflexivity.
Qed.

Lemma c_DeserializeFloat32_refused w data bs :
  deref w data = Some (JBytes bs) -> java_array (JBytes bs) -> refused w ->
  JniC.Java_com_sqlite_vec_SQLiteVec_nativeDeserializeFloat32 host data w
  = Undefined.
Proof.
  intros Hd Hjava Href. unfold java_array in Hjava.
  cbn [array_length] in Hjava.
  assert (Hdiv : 0 <= Z.of_nat (length bs) / 4)
    by (Z.div_mod_to_equations; lia).
  unfold JniC.Java_com_sqlite_vec_SQLiteVec_nativeDeserializeFloat32.
  run_with (GetArrayLength_run w data _ Hd).
  run_with (GetByteArrayElements_eq w data bs Hd).
  cbv zeta. cbn [array_length]. rewrite float_count_exact by lia.
  rewrite bind_run, NewFloatArray_eq by exact Hdiv.
  unfold refused in Href.
  assert (Htail : forall (result : jobject) (elems : native_buf) w0,
            is_null result || is_null elems = true ->
            (SetFloatArrayRegion host result 0 (Z.of_nat (length bs) / 4)
               elems;;
             ReleaseByteArrayElements data elems 0;;
             mret result) w0 = Undefined).
  { intros result elems w0 Hnull. rewrite bind_run.
    destruct result as [l|]; [|reflexivity].
    destruct elems as [bs0|]; [discriminate|].
    destruct (SetFloatArrayRegion host (Some l) 0 _ None w0) as [u w1|];
      [|reflexivity].
    rewrite bind_run, ReleaseByteArrayElements_null. reflexivity. }
  destruct (next_request w), (next_request (consume w));
    try discriminate; apply Htail; reflexivity.
Qed.

End Refusals.

(** X9.  The C source does not check what JNI gives it.  When the runtime
    refuses the first or the second request for memory of a call (the
    buffer of the input array, or the array of the result), every Array
    Marshaller function of the C source goes on to hand the null pointer
    it got to [Set<Type>ArrayRegion] or [Release<Type>ArrayElements]: the
    call has no defined behaviour, where the C++ source returns null. *)
Theorem c_marshaller_refused_is_undefined {E} (host : byte_order)
    (w : World E) (op : marshaller) (input : loc) (a : jarray) :
  source_of op = SourceC ->
  heap w !! input = Some a ->
  takes op a ->
  fits op a ->
  refused w ->
  run_marshaller host op (Some input) w = Undefined.
Proof.
  intros Hsrc Hin Htakes Hfits Href.
  destruct op as [[|]|[|]|[|]|]; try discriminate Hsrc;
    destruct a as [bs|v]; simpl in Htakes; try contradiction;
    unfold fits in Hfits; cbn [array_length] in Hfits; simpl.
  - apply (c_SerializeFloat32_refused host w (Some input) v); assumption.
  - apply (c_DeserializeFloat32_refused host w (Some input) bs); assumption.
  - apply (c_SerializeInt8_refused w (Some input) bs); assumption.
  - apply (c_SerializeInt8_refused w (Some input) bs); assumption.
Qed.

Lemma c_marshaller_refused_is_undefined_witness :
  run_marshaller LittleEndian (SerializeFloat32 SourceC) (Some 0%nat)
    (mkWorld [JFloats example_vector] [true; false] Toy.healthy [])
  = Undefined.
Proof.
  apply (c_marshaller_refused_is_undefined LittleEndian
           (mkWorld [JFloats example_vector] [true; false] Toy.healthy [])
           (SerializeFloat32 SourceC) 0%nat (JFloats example_vector)).
  - reflexivity.
  - reflexivity.
  - unfold example_vector, is_float32. repeat constructor; lia.
  - vm_compute. discriminate.
  - reflexivity.
Defined.

Section RefusalsCpp.
Context {E : Type}.
Variable host : byte_order.
Implicit Types (w : World E) (arr : jobject) (bs : list byte) (v : list Z).

Lemma cpp_SerializeFloat32_refused w vector v :
  deref w vector = Some (JFloats v) -> refused w ->
  exists w',
    JniCpp.Java_com_sqlite_vec_SQLiteVec_nativeSerializeFloat32 host vector w
    = Ret None w'
    /\ same_objects w w'.
Proof.
  intros Hd Href. unfold refused in Href.
  unfold JniCpp.Java_com_sqlite_vec_SQLiteVec_nativeSerializeFloat32.
  run_with (GetArrayLength_run w vector _ Hd).
  run_with (GetFloatArrayElements_eq host w vector v Hd).
  destruct (next_request w); cbn [is_null andb] in *.
  - cbv zeta. rewrite bind_run.
    destruct (NewByteArray_refused (consume w)
                (to_jsize (size_t_mul (array_length (JFloats v))
                             sizeof_float)) Href)
      as (w1 & -> & Hh & He & Ht).
    cbv beta iota. cbn [is_null negb]. rewrite bind_run, ret_run.
    rewrite bind_run, (ReleaseFloatArrayElements_abort host w1 vector v).
    + rewrite ret_run. exists w1. split; [reflexivity|].
      repeat split; assumption.
    + destruct vector as [l|]; [|discriminate]. simpl in *.
      rewrite Hh. exact Hd.
  - rewrite ret_run. exists (consume w). split; [reflexivity|].
    repeat split.
Qed.

Lemma cpp_DeserializeFloat32_refused w data bs :
  deref w data = Some (JBytes bs) -> refused w ->
  exists w',
    JniCpp.Java_com_sqlite_vec_SQLiteVec_nativeDeserializeFloat32 host data w
    = Ret None w'
    /\ same_objects w w'.
Proof.
  intros Hd Href.
  destruct (Z.eq_dec (Z.of_nat (length bs) mod 4) 0) as [Hmod|Hmod].
  2:{ destruct (cpp_DeserializeFloat32_reject host w data bs Hd Hmod)
        as (w' & Hrun & Hh & He & Ht).
      exists w'. split; [exact Hrun|]. repeat split; assumption. }
  unfold refused in Href.
  unfold JniCpp.Java_com_sqlite_vec_SQLiteVec_nativeDeserializeFloat32.
  run_with (GetArrayLength_run w data _ Hd).
  run_with (GetByteArrayElements_eq w data bs Hd).
  cbn [array_length]. rewrite byte_length_rem, Hmod. cbn [Z.eqb negb].
  destruct (next_request w); cbn [is_null andb orb negb] in *.
  - cbv zeta. rewrite bind_run.
    destruct (NewFloatArray_refused (consume w)
                (to_jsize (size_t_div (Z.of_nat (length bs)) sizeof_float))
                Href)
      as (w1 & -> & Hh & He & Ht).
    cbv beta iota. cbn [is_null negb]. rewrite bind_run, ret_run.
    rewrite bind_run, (ReleaseByteArrayElements_abort w1 data bs).
    + rewrite ret_run. exists w1. split; [reflexivity|].
      repeat split; assumption.
    + destruct data as [l|]; [|discriminate]. simpl in *.
      rewrite Hh. exact Hd.
  - rewrite bind_run, !ret_run. exists (consume w). split; [reflexivity|].
    repeat split.
Qed.

End RefusalsCpp.

(** X10.  The C++ source checks what JNI gives it.  When the runtime
    refuses the first or the second request for memory of a call,
    [nativeSerializeFloat32] and [nativeDeserializeFloat32] of the C++
    source return null, and they leave the heap, the state of the engine
    and the record of calls and copies as they were: no array is added to
    the heap, and no partly filled array is returned. *)
Theorem cpp_float32_refused_is_null {E} (host : byte_order) (w : World E)
    (op : marshaller) (input : loc) (a : jarray) :
  source_of op = SourceCpp ->
  float32_marshaller op ->
  heap w !! input = Some a ->
  takes op a ->
  refused w ->
  exists w' : World E,
    run_marshaller host op (Some input) w = Ret None w'
    /\ heap w' = heap w
    /\ engine w' = engine w
    /\ trace w' = trace w.
Proof.
  intros Hsrc Hop Hin Htakes Href.
  destruct op as [[|]|[|]|[|]|]; try discriminate Hsrc;
    try contradiction; destruct a as [bs|v]; simpl in Htakes;
    try contradiction; simpl.
  - exact (cpp_SerializeFloat32_refused host w (Some input) v Hin Href).
  - exact (cpp_DeserializeFloat32_refused host w (Some input) bs Hin Href).
Qed.

Lemma cpp_float32_refused_is_null_witness :
  exists w',
    run_marshaller LittleEndian (DeserializeFloat32 SourceCpp) (Some 0%nat)
      (mkWorld [JBytes [x00; x00; x80; x3f]] [true; false] Toy.healthy [])
    = Ret None w'
    /\ heap w' = [JBytes [x00; x00; x80; x3f]]
    /\ engine w' = Toy.healthy
    /\ trace w' = [].
Proof.
  apply (cpp_float32_refused_is_null LittleEndian
           (mkWorld [JBytes [x00; x00; x80; x3f]] [true; false] Toy.healthy
              [])
           (DeserializeFloat32 SourceCpp) 0%nat
           (JBytes [x00; x00; x80; x3f])).
  - reflexivity.
  - exact I.
  - reflexivity.
  - exact I.
  - reflexivity.
Defined.

(** X11.  [nativeSerializeInt8] of the C++ source makes the array of the
    result before it asks for the buffer of the input.  When the array is
    granted and the buffer is refused, the function skips the copy and
    returns the array as it was made: not null and not a copy, but an
    array of the length of the input filled with zeros.  Nothing is
    recorded as copied. *)
Theorem cpp_SerializeInt8_pin_refused {E} (w : World E) (vector : loc)
    (bs : list byte) :
  heap w !! vector = Some (JBytes bs) ->
  next_request w = true ->
  next_request (consume w) = false ->
  exists w' : World E,
    JniCpp.Java_com_sqlite_vec_SQLiteVec_nativeSerializeInt8 (Some vector) w
    = Ret (Some (length (heap w))) w'
    /\ heap w' = heap w ++ [JBytes (repeat x00 (length bs))]
    /\ trace w' = trace w.
Proof.
  intros Hl Hb1 Hb2.
  assert (Hd : deref w (Some vector) = Some (JBytes bs)) by exact Hl.
  unfold JniCpp.Java_com_sqlite_vec_SQLiteVec_nativeSerializeInt8.
  run_with (GetArrayLength_run w (Some vector) _ Hd). cbn [array_length].
  rewrite bind_run, NewByteArray_eq, Hb1 by lia.
  cbv beta iota. cbn [is_null negb]. rewrite bind_run, bind_run.
  match goal with
  | |- context [GetByteArrayElements (Some vector) ?w0] =>
      rewrite (GetByteArrayElements_eq w0 (Some vector) bs)
        by (eapply deref_app; [reflexivity | exact Hd])
  end.
  unfold next_request in *. world_simpl. rewrite Hb2.
  cbv beta iota. cbn [is_null negb]. rewrite !ret_run.
  eexists. split; [reflexivity|]. world_simpl.
  rewrite Nat2Z.id. split; reflexivity.
Qed.

Lemma cpp_SerializeInt8_pin_refused_witness :
  exists w',
    JniCpp.Java_com_sqlite_vec_SQLiteVec_nativeSerializeInt8 (Some 0%nat)
      (mkWorld [JBytes [x01; xff; x80]] [true; false] Toy.healthy [])
    = Ret (Some 1%nat) w'
    /\ heap w' = [JBytes [x01; xff; x80]; JBytes [x00; x00; x00]]
    /\ trace w' = [].
Proof.
  apply (cpp_SerializeInt8_pin_refused
           (mkWorld [JBytes [x01; xff; x80]] [true; false] Toy.healthy [])
           0%nat [x01; xff; x80]).
  - reflexivity.
  - reflexivity.
  - reflexivity.
Defined.

(** ** The statement behind a metric name *)

(** X12.  [nativeDistance] knows two statements and picks between them by
    the metric name alone.  Whenever a call on a handle that is not null
    returns, the first thing it did was to prepare one statement on that
    handle, and the text of that statement is
    "SELECT vec_distance_l2(?, ?)" when the name is "l2", compared byte for
    byte, and "SELECT vec_distance_cosine(?, ?)" for every other name.
    This holds for every engine and whatever the runtime does. *)
Theorem distance_statement_of_metric {E} (eng : Engine E) (w : World E)
    (db : Z) (vector1 vector2 : jobject) (metric : jstring) (r : jdouble)
    (w' : World E) :
  db <> 0 ->
  JniCpp.Java_com_sqlite_vec_SQLiteVec_nativeDistance eng db vector1 vector2
    metric w = Ret r w' ->
  exists (sql : string) (rc stmt : Z) (rest : list Event),
    trace w' = trace w ++ EvPrepare db sql rc stmt :: rest
    /\ (metric = java_string "l2" ->
        sql = "SELECT vec_distance_l2(?, ?)"%string)
    /\ (metric <> java_string "l2" ->
        sql = "SELECT vec_distance_cosine(?, ?)"%string).
Proof.
  intros Hdb H.
  destruct (nativeDistance_paths eng _ _ _ _ _ _ _ H)
    as (_ & events & Ht & _ & Hfirst).
  destruct (Hfirst Hdb) as (rc & stmt & rest & ->).
  exists (JniCpp.distance_sql (mutf8 metric)), rc, stmt, rest.
  split; [exact Ht|]. split.
  - intros ->. reflexivity.
  - apply distance_sql_default.
Qed.

Lemma distance_statement_of_metric_witness :
  exists r w' sql rc stmt rest,
    JniCpp.Java_com_sqlite_vec_SQLiteVec_nativeDistance Toy.toy 5
      (Some 0%nat) (Some 0%nat) (java_string "L2")
      (Toy.world [JBytes [x00; x00; x80; x3f]] Toy.healthy) = Ret r w'
    /\ trace w'
       = trace (Toy.world [JBytes [x00; x00; x80; x3f]] Toy.healthy)
         ++ EvPrepare 5 sql rc stmt :: rest
    /\ sql = "SELECT vec_distance_cosine(?, ?)"%string.
Proof.
  do 2 eexists.
  assert (Hrun : JniCpp.Java_com_sqlite_vec_SQLiteVec_nativeDistance Toy.toy
                   5 (Some 0%nat) (Some 0%nat) (java_string "L2")
                   (Toy.world [JBytes [x00; x00; x80; x3f]] Toy.healthy)
                 = Ret _ _) by (vm_compute; reflexivity).
  destruct (distance_statement_of_metric Toy.toy _ 5 _ _ _ _ _
              ltac:(lia) Hrun)
    as (sql & rc & stmt & rest & Ht & _ & Hcos).
  exists sql, rc, stmt, rest. split; [exact Hrun|]. split; [exact Ht|].
  apply Hcos. vm_compute. discriminate.
Defined.

(** ** From float vectors to a distance *)

(** X13.  The Array Marshaller and the Query Adapter compose.  When two
    float vectors are serialized, by either source, and the two buffers
    are passed to [nativeDistance], the run is one of the four runs of
    [distance_run] over the memory images of the two vectors: what the
    engine is given as parameter 1 is the image of the first vector, 4
    bytes per element, and as parameter 2 the image of the second.  The
    runtime is assumed to grant the memory the calls ask for. *)
Theorem distance_of_serialized {E} (eng : Engine E) (host : byte_order)
    (w : World E) (src1 src2 : source_file) (db : Z) (input1 input2 : loc)
    (v1 v2 : list Z) (metric : jstring) :
  heap w !! input1 = Some (JFloats v1) ->
  heap w !! input2 = Some (JFloats v2) ->
  Forall is_float32 v1 ->
  Forall is_float32 v2 ->
  4 * Z.of_nat (length v1) <= jsize_max ->
  4 * Z.of_nat (length v2) <= jsize_max ->
  granted w ->
  exists (buffer1 : loc) (w1 : World E) (buffer2 : loc) (w2 : World E)
         (result : jdouble) (w3 : World E) (events : list Event),
    run_marshaller host (SerializeFloat32 src1) (Some input1) w
    = Ret (Some buffer1) w1
    /\ run_marshaller host (SerializeFloat32 src2) (Some input2) w1
       = Ret (Some buffer2) w2
    /\ JniCpp.Java_com_sqlite_vec_SQLiteVec_nativeDistance eng db
         (Some buffer1) (Some buffer2) metric w2 = Ret result w3
    /\ trace w3 = trace w2 ++ events
    /\ distance_run db (bytes_of_floats host v1) (bytes_of_floats host v2)
         events result
    /\ length (bytes_of_floats host v1) = (4 * length v1)%nat
    /\ length (bytes_of_floats host v2) = (4 * length v2)%nat.
Proof.
  intros Hin1 Hin2 Hwf1 Hwf2 Hfit1 Hfit2 Hg.
  pose proof (SerializeFloat32_makes host src1 w input1 v1 Hin1 Hwf1 Hfit1
                Hg) as Hm1.
  destruct Hm1 as (w1 & Hrun1 & Hh1 & Hg1 & _).
  assert (Hin2' : heap w1 !! input2 = Some (JFloats v2))
    by (rewrite Hh1; apply lookup_app_l_Some; exact Hin2).
  pose proof (SerializeFloat32_makes host src2 w1 input2 v2 Hin2' Hwf2 Hfit2
                Hg1) as Hm2.
  destruct Hm2 as (w2 & Hrun2 & Hh2 & Hg2 & _).
  assert (Hb1 : deref w2 (Some (length (heap w)))
                = Some (JBytes (bytes_of_floats host v1))).
  { simpl. rewrite Hh2. apply lookup_app_l_Some.
    rewrite Hh1. apply lookup_last. }
  assert (Hb2 : deref w2 (Some (length (heap w1)))
                = Some (JBytes (bytes_of_floats host v2))).
  { simpl. rewrite Hh2. apply lookup_last. }
  destruct (nativeDistance_run eng w2 db _ _ metric _ _ Hb1 Hb2 Hg2)
    as (result & w3 & events & Hrun3 & Ht & _ & Hcase).
  exists (length (heap w)), w1, (length (heap w1)), w2, result, w3, events.
  split; [exact Hrun1|]. split; [exact Hrun2|]. split; [exact Hrun3|].
  split; [exact Ht|]. split; [exact Hcase|].
  split; apply length_bytes_of_floats.
Qed.

Lemma distance_of_serialized_witness :
  exists buffer1 w1 buffer2 w2 result w3 events,
    run_marshaller LittleEndian (SerializeFloat32 SourceCpp) (Some 0%nat)
      (Toy.world [JFloats example_vector; JFloats unit_vector]
         Toy.healthy)
    = Ret (Some buffer1) w1
    /\ run_marshaller LittleEndian (SerializeFloat32 SourceCpp) (Some 1%nat)
         w1
       = Ret (Some buffer2) w2
    /\ JniCpp.Java_com_sqlite_vec_SQLiteVec_nativeDistance Toy.toy 5
         (Some buffer1) (Some buffer2) (java_string "l2") w2 = Ret result w3
    /\ trace w3 = trace w2 ++ events
    /\ distance_run 5 (bytes_of_floats LittleEndian example_vector)
         (bytes_of_floats LittleEndian unit_vector) events result
    /\ length (bytes_of_floats LittleEndian example_vector)
       = (4 * length example_vector)%nat
    /\ length (bytes_of_floats LittleEndian unit_vector)
       = (4 * length unit_vector)%nat.
Proof.
  apply (distance_of_serialized Toy.toy LittleEndian
           (Toy.world [JFloats example_vector; JFloats unit_vector]
              Toy.healthy)
           SourceCpp SourceCpp 5 0%nat 1%nat example_vector
           unit_vector (java_string "l2")).
  - reflexivity.
  - reflexivity.
  - unfold example_vector, is_float32. repeat constructor; lia.
  - unfold unit_vector, is_float32. repeat constructor; lia.
  - vm_compute. discriminate.
  - vm_compute. discriminate.
  - reflexivity.
Defined.

(** ** Vectors too long to serialize *)

Lemma to_jsize_range (z : Z) : - 2 ^ 31 <= to_jsize z <= jsize_max.
Proof.
  unfold to_jsize, jsize_max.
  change (2 ^ 32) with 4294967296. change (2 ^ 31) with 2147483648.
  Z.div_mod_to_equations. lia.
Qed.

(** A byte length that wraps to a negative [jsize] makes [NewByteArray]
    fail; the C++ source then returns null. *)
Lemma cpp_SerializeFloat32_negative {E} (host : byte_order) (w : World E)
    (vector : jobject) (v : list Z) :
  deref w vector = Some (JFloats v) -> granted w ->
  to_jsize (size_t_mul (Z.of_nat (length v)) sizeof_float) < 0 ->
  exists w',
    JniCpp.Java_com_sqlite_vec_SQLiteVec_nativeSerializeFloat32 host vector w
    = Ret None w'
    /\ heap w' = heap w.
Proof.
  intros Hd Hg Hneg.
  unfold JniCpp.Java_com_sqlite_vec_SQLiteVec_nativeSerializeFloat32.
  run_with (GetArrayLength_run w vector _ Hd).
  run_with (GetFloatArrayElements_run host w vector v Hd Hg).
  cbv zeta. cbn [array_length]. rewrite bind_run. unfold NewByteArray.
  apply Z.ltb_lt in Hneg. rewrite Hneg. rewrite ret_run.
  cbn [is_null negb]. rewrite bind_run, ret_run.
  rewrite bind_run, (ReleaseFloatArrayElements_abort host _ vector v)
    by exact Hd.
  rewrite ret_run. eexists. split; reflexivity.
Qed.

(** The C source with a byte length that did not wrap below zero: the
    buffer returned holds the leading bytes of the image. *)
Lemma c_SerializeFloat32_run {E} (host : byte_order) (w : World E)
    (vector : jobject) (v : list Z) (n : Z) :
  deref w vector = Some (JFloats v) -> granted w -> Forall is_float32 v ->
  n = to_jsize (size_t_mul (Z.of_nat (length v)) sizeof_float) ->
  0 <= n <= 4 * Z.of_nat (length v) ->
  makes w (JBytes (take (Z.to_nat n) (bytes_of_floats host v))) n
    (JniC.Java_com_sqlite_vec_SQLiteVec_nativeSerializeFloat32 host vector w).
Proof.
  intros Hv Hg Hwf Hn Hrange.
  unfold JniC.Java_com_sqlite_vec_SQLiteVec_nativeSerializeFloat32.
  run_with (GetArrayLength_run w vector _ Hv).
  run_with (GetFloatArrayElements_run host w vector v Hv Hg).
  cbn [array_length]. rewrite <- Hn.
  run_with (NewByteArray_run (consume w) n (proj1 Hrange)
              (granted_consume w Hg)).
  rewrite bind_run.
  fill_bytes (heap w) n; [|rewrite length_bytes_of_floats; lia].
  cbv beta iota. world_simpl. rewrite bind_run.
  rewrite (ReleaseFloatArrayElements_copy_back host _ vector v)
    by first [exact Hwf | eapply deref_app; [reflexivity | exact Hv]].
  cbv beta iota. rewrite ret_run.
  eexists. split; [reflexivity|]. world_simpl.
  repeat split. do 2 apply granted_consume. exact Hg.
Qed.

(** The C source with a byte length that wrapped below zero: the null
    reference [NewByteArray] returns goes to [SetByteArrayRegion]. *)
Lemma c_SerializeFloat32_negative {E} (host : byte_order) (w : World E)
    (vector : jobject) (v : list Z) :
  deref w vector = Some (JFloats v) -> granted w ->
  to_jsize (size_t_mul (Z.of_nat (length v)) sizeof_float) < 0 ->
  JniC.Java_com_sqlite_vec_SQLiteVec_nativeSerializeFloat32 host vector w
  = Undefined.
Proof.
  intros Hd Hg Hneg.
  unfold JniC.Java_com_sqlite_vec_SQLiteVec_nativeSerializeFloat32.
  run_with (GetArrayLength_run w vector _ Hd).
  run_with (GetFloatArrayElements_run host w vector v Hd Hg).
  cbn [array_length]. rewrite bind_run. unfold NewByteArray.
  apply Z.ltb_lt in Hneg. rewrite Hneg. rewrite ret_run.
  rewrite bind_run. reflexivity.
Qed.

Lemma large_vector_float32 : Forall is_float32 large_vector.
Proof.
  unfold large_vector. generalize (Z.to_nat (2 ^ 30)).
  induction n as [|n IH]; simpl; constructor; [|exact IH].
  unfold is_float32. lia.
Qed.

(** X14.  The bound of the round trip is sharp.  For every float vector
    whose serialized size [4 * length] does not fit [jsize] (2^29 elements
    or more), [nativeSerializeFloat32] does not return the serialization.
    When the size wraps to a negative [jsize], [NewByteArray] fails: the
    C++ source returns null and the C source, which does not check, has no
    defined behaviour.  Otherwise either source returns a buffer of fewer
    than [4 * length] bytes, a prefix of the memory image of the vector.
    The runtime is assumed to grant the memory the call asks for. *)
Theorem SerializeFloat32_beyond_jsize {E} (host : byte_order) (w : World E)
    (src : source_file) (input : loc) (v : list Z) :
  heap w !! input = Some (JFloats v) ->
  Forall is_float32 v ->
  jsize_max < 4 * Z.of_nat (length v) ->
  granted w ->
  match run_marshaller host (SerializeFloat32 src) (Some input) w with
  | Undefined => src = SourceC
  | Ret None w' => src = SourceCpp /\ heap w' = heap w
  | Ret (Some buffer) w' =>
      exists n : nat,
        heap w' !! buffer = Some (JBytes (take n (bytes_of_floats host v)))
        /\ (n < 4 * length v)%nat
  end.
Proof.
  intros Hin Hwf Hbig Hg. simpl.
  assert (Hd : deref w (Some input) = Some (JFloats v)) by exact Hin.
  pose proof (to_jsize_range (size_t_mul (Z.of_nat (length v)) sizeof_float))
    as Hrange.
  destruct (Z_lt_le_dec
              (to_jsize (size_t_mul (Z.of_nat (length v)) sizeof_float)) 0)
    as [Hneg|Hpos].
  - destruct src.
    + rewrite (c_SerializeFloat32_negative host w (Some input) v Hd Hg Hneg).
      reflexivity.
    + destruct (cpp_SerializeFloat32_negative host w (Some input) v Hd Hg
                  Hneg) as (w' & -> & Hh).
      split; [reflexivity | exact Hh].
  - assert (Hmakes : makes w
              (JBytes
                 (take (Z.to_nat
                          (to_jsize (size_t_mul (Z.of_nat (length v))
                                       sizeof_float)))
                    (bytes_of_floats host v)))
              (to_jsize (size_t_mul (Z.of_nat (length v)) sizeof_float))
              (run_marshaller host (SerializeFloat32 src) (Some input) w)).
    { destruct src; simpl.
      - apply c_SerializeFloat32_run; try assumption; [reflexivity | lia].
      - apply cpp_SerializeFloat32_run; try assumption; [reflexivity | lia]. }
    destruct Hmakes as (w' & Hrun & Hh & _).
    destruct src; simpl in Hrun; rewrite Hrun;
      (eexists; split; [rewrite Hh; apply lookup_last | lia]).
Qed.

Lemma SerializeFloat32_beyond_jsize_witness :
  match
    run_marshaller LittleEndian (SerializeFloat32 SourceCpp) (Some 0%nat)
      (Toy.world [JFloats large_vector] Toy.healthy)
  with
  | Undefined => SourceCpp = SourceC
  | Ret None w' =>
      SourceCpp = SourceCpp
      /\ heap w' = heap (Toy.world [JFloats large_vector] Toy.healthy)
  | Ret (Some buffer) w' =>
      exists n : nat,
        heap w' !! buffer
        = Some (JBytes (take n (bytes_of_floats LittleEndian large_vector)))
        /\ (n < 4 * length large_vector)%nat
  end.
Proof.
  apply (SerializeFloat32_beyond_jsize LittleEndian
           (Toy.world [JFloats large_vector] Toy.healthy) SourceCpp 0%nat
           large_vector).
  - exact eq_refl.
  - exact large_vector_float32.
  - rewrite large_vector_length. reflexivity.
  - exact eq_refl.
Defined.

(** ** The footprint of a marshaller call *)

Section Footprint.
Context {E : Type}.
Variable host : byte_order.
Implicit Types (w : World E) (l input : loc) (r : jobject).

Lemma marshalling_start input w : marshalling 0 input w w.
Proof. repeat split; trivial; lia. Qed.

Lemma marshalling_same k input w w1 w2 :
  marshalling k input w w1 -> same_objects w1 w2 ->
  marshalling k input w w2.
Proof.
  intros (He & Ht & Hlen & Hkeep) (Hh2 & He2 & Ht2).
  unfold marshalling. rewrite He2, Ht2, Hh2. repeat split; trivial; lia.
Qed.

Lemma marshalling_alloc k input w w1 w2 r :
  marshalling k input w w1 -> allocated w1 w2 r ->
  marshalling (S k) input w w2
  /\ forall l, r = Some l -> (length (heap w) <= l)%nat.
Proof.
  intros (He & Ht & Hlen & Hkeep) (He2 & Ht2 & Hcase).
  unfold marshalling. rewrite He2, Ht2.
  destruct Hcase as [[-> Hh2] | (a & -> & Hh2)]; rewrite Hh2.
  - split; [|discriminate]. repeat split; trivial; lia.
  - split; [|intros l [= <-]; lia].
    rewrite length_app. simpl. repeat split; trivial; try lia.
    intros l x Hne Hl. apply lookup_app_l_Some. apply Hkeep; assumption.
Qed.

Lemma marshalling_copy k input w w1 w2 r start len :
  marshalling k input w w1 -> copied_into w1 w2 r start len ->
  (forall l, r = Some l -> (length (heap w) <= l)%nat) ->
  marshalling k input w w2.
Proof.
  intros (He & Ht & Hlen & Hkeep)
    (He2 & l0 & -> & [[Hh2 Ht2] | (a & Hh2 & Ht2)]) Hnew;
    unfold marshalling; rewrite He2, Ht2, Hh2.
  - repeat split; trivial; lia.
  - rewrite length_insert, filter_app. simpl. rewrite app_nil_r.
    repeat split; trivial; try lia.
    intros l x Hne Hl. specialize (Hnew l0 eq_refl).
    apply lookup_lt_Some in Hl as Hlt.
    rewrite list_lookup_insert_ne by lia. apply Hkeep; assumption.
Qed.

Lemma marshalling_guarded_copy (m : M E unit) k input w w1 w2 r start len u :
  marshalling k input w w1 ->
  (if negb (is_null r) then m else mret tt) w1 = Ret u w2 ->
  (m w1 = Ret u w2 -> copied_into w1 w2 r start len) ->
  (forall l, r = Some l -> (length (heap w) <= l)%nat) ->
  marshalling k input w w2.
Proof.
  intros M0. destruct r as [l0|]; simpl.
  - intros H Hm. apply (marshalling_copy _ _ _ _ _ _ start len M0).
    exact (Hm H).
  - intros H _ _. apply ret_inv in H as [_ ->]. exact M0.
Qed.

Lemma marshalling_release_bytes k input w w1 w2 elems mode u :
  marshalling k input w w1 ->
  ReleaseByteArrayElements (Some input) elems mode w1 = Ret u w2 ->
  marshalling k input w w2.
Proof.
  intros (He & Ht & Hlen & Hkeep) H.
  apply ReleaseByteArrayElements_inv in H
    as (He2 & Ht2 & [Hh2 | (l0 & bs0 & [= <-] & _ & Hh2)]);
    unfold marshalling; rewrite He2, Ht2, Hh2.
  - repeat split; trivial; lia.
  - rewrite length_insert. repeat split; trivial; try lia.
    intros l x Hne Hl. rewrite list_lookup_insert_ne by congruence.
    apply Hkeep; assumption.
Qed.

Lemma marshalling_release_floats k input w w1 w2 elems mode u :
  marshalling k input w w1 ->
  ReleaseFloatArrayElements host (Some input) elems mode w1 = Ret u w2 ->
  marshalling k input w w2.
Proof.
  intros (He & Ht & Hlen & Hkeep) H.
  apply ReleaseFloatArrayElements_inv in H
    as (He2 & Ht2 & [Hh2 | (l0 & bs0 & old & fs & [= <-] & _ & _ & _ & Hh2)]);
    unfold marshalling; rewrite He2, Ht2, Hh2.
  - repeat split; trivial; lia.
  - rewrite length_insert. repeat split; trivial; try lia.
    intros l x Hne Hl. rewrite list_lookup_insert_ne by congruence.
    apply Hkeep; assumption.
Qed.

Lemma c_SerializeFloat32_marshalling w input r w' :
  JniC.Java_com_sqlite_vec_SQLiteVec_nativeSerializeFloat32 host (Some input)
    w = Ret r w' ->
  marshalling 1 input w w'.
Proof.
  intros H. pose proof (marshalling_start input w) as M0.
  unfold JniC.Java_com_sqlite_vec_SQLiteVec_nativeSerializeFloat32 in H.
  next_call H len w1 H1. apply GetArrayLength_inv in H1 as [-> _].
  next_call H elems w2 H2.
  apply GetFloatArrayElements_inv in H2 as (Hs & _).
  pose proof (marshalling_same _ _ _ _ _ M0 Hs) as M2.
  next_call H result w3 H3. apply NewByteArray_inv in H3.
  destruct (marshalling_alloc _ _ _ _ _ _ M2 H3) as [M3 Hnew].
  next_call H u w4 H4. apply SetByteArrayRegion_inv in H4.
  pose proof (marshalling_copy _ _ _ _ _ _ _ _ M3 H4 Hnew) as M4.
  next_call H u' w5 H5.
  pose proof (marshalling_release_floats _ _ _ _ _ _ _ _ M4 H5) as M5.
  apply ret_inv in H as [_ ->]. exact M5.
Qed.

Lemma cpp_SerializeFloat32_marshalling w input r w' :
  JniCpp.Java_com_sqlite_vec_SQLiteVec_nativeSerializeFloat32 host
    (Some input) w = Ret r w' ->
  marshalling 1 input w w'.
Proof.
  intros H. pose proof (marshalling_start input w) as M0.
  assert (Hweak : forall w0, marshalling 0 input w w0 ->
                    marshalling 1 input w w0).
  { intros w0 (He & Ht & Hlen & Hkeep). repeat split; trivial; lia. }
  unfold JniCpp.Java_com_sqlite_vec_SQLiteVec_nativeSerializeFloat32 in H.
  next_call H len w1 H1. apply GetArrayLength_inv in H1 as [-> _].
  next_call H elems w2 H2.
  apply GetFloatArrayElements_inv in H2 as (Hs & _).
  pose proof (marshalling_same _ _ _ _ _ M0 Hs) as M2.
  destruct (is_null elems).
  { apply ret_inv in H as [_ ->]. apply Hweak. exact M2. }
  cbv zeta in H.
  next_call H result w3 H3. apply NewByteArray_inv in H3.
  destruct (marshalling_alloc _ _ _ _ _ _ M2 H3) as [M3 Hnew].
  next_call H u w4 H4.
  pose proof (marshalling_guarded_copy _ _ _ _ _ _ _ _ _ _ M3 H4
                (SetByteArrayRegion_inv _ _ _ _ _ _ _) Hnew) as M4.
  next_call H u' w5 H5.
  pose proof (marshalling_release_floats _ _ _ _ _ _ _ _ M4 H5) as M5.
  apply ret_inv in H as [_ ->]. exact M5.
Qed.

Lemma c_DeserializeFloat32_marshalling w input r w' :
  JniC.Java_com_sqlite_vec_SQLiteVec_nativeDeserializeFloat32 host
    (Some input) w = Ret r w' ->
  marshalling 1 input w w'.
Proof.
  intros H. pose proof (marshalling_start input w) as M0.
  unfold JniC.Java_com_sqlite_vec_SQLiteVec_nativeDeserializeFloat32 in H.
  next_call H len w1 H1. apply GetArrayLength_inv in H1 as [-> _].
  next_call H elems w2 H2.
  apply GetByteArrayElements_inv in H2 as (Hs & _).
  pose proof (marshalling_same _ _ _ _ _ M0 Hs) as M2.
  cbv zeta in H.
  next_call H result w3 H3. apply NewFloatArray_inv in H3.
  destruct (marshalling_alloc _ _ _ _ _ _ M2 H3) as [M3 Hnew].
  next_call H u w4 H4. apply SetFloatArrayRegion_inv in H4.
  pose proof (marshalling_copy _ _ _ _ _ _ _ _ M3 H4 Hnew) as M4.
  next_call H u' w5 H5.
  pose proof (marshalling_release_bytes _ _ _ _ _ _ _ _ M4 H5) as M5.
  apply ret_inv in H as [_ ->]. exact M5.
Qed.

Lemma cpp_DeserializeFloat32_marshalling w input r w' :
  JniCpp.Java_com_sqlite_vec_SQLiteVec_nativeDeserializeFloat32 host
    (Some input) w = Ret r w' ->
  marshalling 1 input w w'.
Proof.
  intros H. pose proof (marshalling_start input w) as M0.
  assert (Hweak : forall w0, marshalling 0 input w w0 ->
                    marshalling 1 input w w0).
  { intros w0 (He & Ht & Hlen & Hkeep). repeat split; trivial; lia. }
  unfold JniCpp.Java_com_sqlite_vec_SQLiteVec_nativeDeserializeFloat32 in H.
  next_call H len w1 H1. apply GetArrayLength_inv in H1 as [-> _].
  next_call H elems w2 H2.
  apply GetByteArrayElements_inv in H2 as (Hs & _).
  pose proof (marshalling_same _ _ _ _ _ M0 Hs) as M2.
  destruct (is_null elems || _).
  - next_call H u w3 H3. apply ret_inv in H as [_ ->]. apply Hweak.
    destruct (negb (is_null elems)).
    + exact (marshalling_release_bytes _ _ _ _ _ _ _ _ M2 H3).
    + apply ret_inv in H3 as [_ ->]. exact M2.
  - cbv zeta in H.
    next_call H result w3 H3. apply NewFloatArray_inv in H3.
    destruct (marshalling_alloc _ _ _ _ _ _ M2 H3) as [M3 Hnew].
    next_call H u w4 H4.
    pose proof (marshalling_guarded_copy _ _ _ _ _ _ _ _ _ _ M3 H4
                  (SetFloatArrayRegion_inv host _ _ _ _ _ _ _) Hnew) as M4.
    next_call H u' w5 H5.
    pose proof (marshalling_release_bytes _ _ _ _ _ _ _ _ M4 H5) as M5.
    apply ret_inv in H as [_ ->]. exact M5.
Qed.

Lemma c_SerializeInt8_marshalling w input r w' :
  JniC.Java_com_sqlite_vec_SQLiteVec_nativeSerializeInt8 (Some input) w
  = Ret r w' ->
  marshalling 1 input w w'.
Proof.
  intros H. pose proof (marshalling_start input w) as M0.
  unfold JniC.Java_com_sqlite_vec_SQLiteVec_nativeSerializeInt8 in H.
  next_call H len w1 H1. apply GetArrayLength_inv in H1 as [-> _].
  next_call H elems w2 H2.
  apply GetByteArrayElements_inv in H2 as (Hs & _).
  pose proof (marshalling_same _ _ _ _ _ M0 Hs) as M2.
  next_call H result w3 H3. apply NewByteArray_inv in H3.
  destruct (marshalling_alloc _ _ _ _ _ _ M2 H3) as [M3 Hnew].
  next_call H u w4 H4. apply SetByteArrayRegion_inv in H4.
  pose proof (marshalling_copy _ _ _ _ _ _ _ _ M3 H4 Hnew) as M4.
  next_call H u' w5 H5.
  pose proof (marshalling_release_bytes _ _ _ _ _ _ _ _ M4 H5) as M5.
  apply ret_inv in H as [_ ->]. exact M5.
Qed.

Lemma cpp_SerializeInt8_marshalling w input r w' :
  JniCpp.Java_com_sqlite_vec_SQLiteVec_nativeSerializeInt8 (Some input) w
  = Ret r w' ->
  marshalling 1 input w w'.
Proof.
  intros H. pose proof (marshalling_start input w) as M0.
  unfold JniCpp.Java_com_sqlite_vec_SQLiteVec_nativeSerializeInt8 in H.
  next_call H len w1 H1. apply GetArrayLength_inv in H1 as [-> _].
  next_call H result w3 H3. apply NewByteArray_inv in H3.
  destruct (marshalling_alloc _ _ _ _ _ _ M0 H3) as [M3 Hnew].
  next_call H u w4 H4. apply ret_inv in H as [_ ->].
  destruct (negb (is_null result));
    [|apply ret_inv in H4 as [_ ->]; exact M3].
  next_call H4 elems w5 H5.
  apply GetByteArrayElements_inv in H5 as (Hs & _).
  pose proof (marshalling_same _ _ _ _ _ M3 Hs) as M5.
  destruct (negb (is_null elems));
    [|apply ret_inv in H4 as [_ ->]; exact M5].
  next_call H4 u' w6 H6. apply SetByteArrayRegion_inv in H6.
  pose proof (marshalling_copy _ _ _ _ _ _ _ _ M5 H6 Hnew) as M6.
  exact (marshalling_release_bytes _ _ _ _ _ _ _ _ M6 H4).
Qed.

End Footprint.

Lemma marshaller_marshalling {E} (host : byte_order) (w : World E)
    (op : marshaller) (input : loc) (r : jobject) (w' : World E) :
  run_marshaller host op (Some input) w = Ret r w' ->
  marshalling 1 input w w'.
Proof.
  destruct op as [[|]|[|]|[|]|]; simpl.
  - apply c_SerializeFloat32_marshalling.
  - apply cpp_SerializeFloat32_marshalling.
  - apply c_DeserializeFloat32_marshalling.
  - apply cpp_DeserializeFloat32_marshalling.
  - apply c_SerializeInt8_marshalling.
  - apply cpp_SerializeInt8_marshalling.
  - apply c_SerializeInt8_marshalling.
Qed.

Lemma marshaller_keeps_input {E} (host : byte_order) (w : World E)
    (op : marshaller) (input : loc) (a : jarray) (r : jobject)
    (w' : World E) :
  heap w !! input = Some a ->
  takes op a ->
  run_marshaller host op (Some input) w = Ret r w' ->
  heap w' !! input = Some a.
Proof.
  intros Hin Htakes Hrun.
  destruct op as [[|]|[|]|[|]|]; destruct a as [bs|v]; simpl in Htakes;
    try contradiction; simpl in Hrun.
  - eapply c_SerializeFloat32_keeps; eassumption.
  - eapply cpp_SerializeFloat32_keeps; eassumption.
  - eapply c_DeserializeFloat32_keeps; eassumption.
  - eapply cpp_DeserializeFloat32_keeps; eassumption.
  - eapply c_SerializeInt8_keeps; eassumption.
  - eapply cpp_SerializeInt8_keeps; eassumption.
  - eapply c_SerializeInt8_keeps; eassumption.
Qed.

(** X15.  The footprint of the Array Marshaller.  On every path by which
    an operation returns, with either source linked and whatever the
    runtime does: every array that was in the heap is still there with the
    contents it had, the input among them; at most one array has been
    added; the state of the engine is what it was and no call into the
    engine or the extension has been made. *)
Theorem marshaller_footprint {E} (host : byte_order) (w : World E)
    (op : marshaller) (input : loc) (a : jarray) (r : jobject)
    (w' : World E) :
  heap w !! input = Some a ->
  takes op a ->
  run_marshaller host op (Some input) w = Ret r w' ->
  (forall (l : loc) (x : jarray),
     heap w !! l = Some x -> heap w' !! l = Some x)
  /\ (length (heap w') <= S (length (heap w)))%nat
  /\ engine w' = engine w
  /\ filter (fun ev => is_engine_call ev) (trace w')
     = filter (fun ev => is_engine_call ev) (trace w).
Proof.
  intros Hin Htakes Hrun.
  destruct (marshaller_marshalling host w op input r w' Hrun)
    as (He & Ht & Hlen & Hkeep).
  split; [|split; [lia | split; assumption]].
  intros l x Hl. destruct (Nat.eq_dec l input) as [->|Hne].
  - rewrite Hin in Hl. injection Hl as <-.
    exact (marshaller_keeps_input host w op input a r w' Hin Htakes Hrun).
  - apply Hkeep; assumption.
Qed.

Lemma marshaller_footprint_witness :
  exists r w',
    run_marshaller LittleEndian (DeserializeFloat32 SourceC) (Some 1%nat)
      (Toy.world [JFloats example_vector; JBytes ragged_buffer] Toy.healthy)
    = Ret r w'
    /\ heap w' !! 0%nat = Some (JFloats example_vector)
    /\ heap w' !! 1%nat = Some (JBytes ragged_buffer)
    /\ (length (heap w') <= 3)%nat
    /\ engine w' = Toy.healthy.
Proof.
  do 2 eexists.
  assert (Hrun : run_marshaller LittleEndian (DeserializeFloat32 SourceC)
                   (Some 1%nat)
                   (Toy.world [JFloats example_vector; JBytes ragged_buffer]
                      Toy.healthy)
                 = Ret _ _) by (vm_compute; reflexivity).
  destruct (marshaller_footprint LittleEndian
              (Toy.world [JFloats example_vector; JBytes ragged_buffer]
                 Toy.healthy)
              (DeserializeFloat32 SourceC) 1%nat (JBytes ragged_buffer) _ _
              eq_refl I Hrun)
    as (Hkeep & Hlen & He & _).
  split; [exact Hrun|].
  split; [apply Hkeep; reflexivity|].
  split; [apply Hkeep; reflexivity|].
  split; [exact Hlen | exact He].
Defined.

(** ** Looking up the connection handle by reflection *)

(** X16.  [getDatabaseHandle] prefers the field [mNativeHandle].  For an
    object that has a [long] field of that name, whatever other fields it
    has, [mConnectionPtr] among them: the function returns the value of
    [mNativeHandle], looks up no other field, and leaves no exception
    pending.  No exception is pending when the function is entered. *)
Theorem getDatabaseHandle_prefers_mNativeHandle (carries_on : bool)
    (database : Reflect.jinstance) (f : Reflect.jfield)
    (looked : list string) :
  Reflect.lookup_field database "mNativeHandle" "J" = Some f ->
  Reflect.getDatabaseHandle carries_on (Some database)
    (Reflect.mkEnv None looked)
  = Ret (Reflect.field_long f)
      (Reflect.mkEnv None (looked ++ ["mNativeHandle"%string])).
Proof.
  intros Hf.
  unfold Reflect.getDatabaseHandle, Reflect.GetObjectClass,
    Reflect.GetFieldID, Reflect.GetLongField, Reflect.checked.
  unfold mbind, Reflect.R_bind, mret, Reflect.R_ret. simpl.
  rewrite Hf. simpl. rewrite Hf. reflexivity.
Qed.

Lemma getDatabaseHandle_prefers_mNativeHandle_witness :
  Reflect.getDatabaseHandle false (Some Reflect.with_native_handle)
    (Reflect.mkEnv None [])
  = Ret 3735928559 (Reflect.mkEnv None ["mNativeHandle"%string]).
Proof.
  apply (getDatabaseHandle_prefers_mNativeHandle false
           Reflect.with_native_handle
           (Reflect.mkField "mNativeHandle" "J" 3735928559) []).
  reflexivity.
Defined.



(** ** The version string *)

Lemma mutf8_decode_ascii (chars : list byte) :
  Forall (fun c => 1 <= Z_of_byte c <= 127) chars ->
  mutf8_decode chars = map Z_of_byte chars.
Proof.
  induction 1 as [|c chars Hc _ IH]; [reflexivity|].
  simpl. destruct (Z_of_byte c <? 128) eqn:Hlt; [|lia].
  rewrite IH. reflexivity.
Qed.

(** X18.  [nativeGetVersion] returns the version of the header the
    binding was compiled against.  With either source linked, for a
    version made of ASCII characters: the call returns a Java string that
    spells the version character for character, or null when the runtime
    refuses the memory for it; it makes no call into the engine, so the
    answer says nothing about the extension that is loaded, and it changes
    neither the heap nor the record of the calls made. *)
Theorem nativeGetVersion_text {E} (eng : Engine E) (host : byte_order)
    (version : string) (src : source_file) (w : World E) :
  Forall (fun c => 1 <= Z_of_byte c <= 127) (lit version) ->
  run_shared eng host version src CallGetVersion w
  = Ret (RString (if next_request w then Some (java_string version)
                  else None))
      (consume w).
Proof.
  intros Hascii.
  destruct src; simpl;
    unfold JniC.Java_com_sqlite_vec_SQLiteVec_nativeGetVersion,
      JniCpp.Java_com_sqlite_vec_SQLiteVec_nativeGetVersion, NewStringUTF;
    rewrite !bind_run, jni_alloc_eq, !ret_run;
    rewrite (mutf8_decode_ascii _ Hascii); reflexivity.
Qed.

Lemma nativeGetVersion_text_witness :
  run_shared Toy.toy LittleEndian "v0.1.6" SourceCpp CallGetVersion
    (Toy.world [] Toy.healthy)
  = Ret (RString (if next_request (Toy.world [] Toy.healthy)
                  then Some (java_string "v0.1.6") else None))
      (consume (Toy.world [] Toy.healthy)).
Proof.
  apply (nativeGetVersion_text Toy.toy LittleEndian "v0.1.6" SourceCpp
           (Toy.world [] Toy.healthy)).
  repeat constructor; vm_compute; discriminate.
Defined.

(** ** The metric name when the runtime is out of memory *)

(** X19.  [nativeDistance] does not check what [GetStringUTFChars] gives
    it.  On a handle that is not null, when the runtime refuses the memory
    for the characters of the metric name, [GetStringUTFChars] returns the
    null pointer and the function hands it to [strcmp]: the call has no
    defined behaviour, whatever the vectors, the metric and the engine. *)
Theorem distance_metric_refused_is_undefined {E} (eng : Engine E)
    (w : World E) (db : Z) (vector1 vector2 : jobject) (metric : jstring) :
  db <> 0 ->
  next_request w = false ->
  JniCpp.Java_com_sqlite_vec_SQLiteVec_nativeDistance eng db vector1 vector2
    metric w = Undefined.
Proof.
  intros Hdb Hb.
  unfold JniCpp.Java_com_sqlite_vec_SQLiteVec_nativeDistance. cbv zeta.
  destruct (db =? 0) eqn:Hz; [lia|].
  rewrite bind_run. unfold GetStringUTFChars.
  rewrite bind_run, jni_alloc_eq, Hb. reflexivity.
Qed.

Lemma distance_metric_refused_is_undefined_witness :
  JniCpp.Java_com_sqlite_vec_SQLiteVec_nativeDistance Toy.toy 5
    (Some 0%nat) (Some 0%nat) (java_string "l2")
    (mkWorld [JBytes [x00; x00; x80; x3f]] [false] Toy.healthy [])
  = Undefined.
Proof.
  apply (distance_metric_refused_is_undefined Toy.toy
           (mkWorld [JBytes [x00; x00; x80; x3f]] [false] Toy.healthy [])
           5 (Some 0%nat) (Some 0%nat) (java_string "l2")).
  - lia.
  - reflexivity.
Defined.
